(** * Nervus: model orchestration, configuration and checkpoint framework

    A shallow embedding of [lib/framework.py], [models/net.py], [train.py]
    and [test.py], with the properties of the configuration objects, the
    classifier factory, the best-epoch selection and the weight files. *)

From Stdlib Require Import QArith Ascii String.
From stdpp Require Import gmap strings list fin_maps pretty.

Local Open Scope string_scope.
Set Warnings "-register-all".

(** ** Python values, exceptions and results *)

(** [torch.device('cpu')] and the CUDA device of index [i]. *)
Inductive device :=
| Cpu
| Cuda (i : Z).

(** The values an option or a parameter attribute can hold.  Device handles,
    data loaders and fitted scalers are opaque objects named by an
    identifier. *)
Inductive pyval :=
| PNone
| PBool (b : bool)
| PInt (z : Z)
| PStr (s : string)
| PList (l : list pyval)
| PDict (d : list (string * pyval))
| PDevice (d : device)
| PObj (id : nat).

(** The exceptions the modelled code can raise. *)
Inductive exn :=
| IndexError
| TypeError
| AttributeError
| KeyError
| ValueError
| AssertionError
| FileNotFoundError
| FileExistsError
| RuntimeError.

Inductive result (A : Type) :=
| Ok (a : A)
| Raise (e : exn).
Arguments Ok {A} a.
Arguments Raise {A} e.

#[global] Instance result_ret : MRet result := λ A a, Ok a.

#[global] Instance result_bind : MBind result := λ A B k r,
  match r with
  | Ok a => k a
  | Raise e => Raise e
  end.

Definition is_ok {A} (r : result A) : bool :=
  match r with Ok _ => true | Raise _ => false end.

(** [getattr self name]: a missing attribute raises [AttributeError]. *)
Definition getattr (self : gmap string pyval) (name : string) : result pyval :=
  match self !! name with
  | Some v => Ok v
  | None => Raise AttributeError
  end.

(** [v == s] for a string literal [s]. *)
Definition is_str (v : pyval) (s : string) : bool :=
  match v with
  | PStr s' => bool_decide (s' = s)
  | _ => false
  end.

(** [v != []]. *)
Definition is_not_empty_list (v : pyval) : bool :=
  match v with
  | PList [] => false
  | _ => true
  end.

(** Ordered dictionaries: [d[k] = v] keeps the position of a key that is
    already there and appends a new one. *)
Fixpoint dict_set {A} (k : string) (v : A) (d : list (string * A)) : list (string * A) :=
  match d with
  | [] => [(k, v)]
  | (k', v') :: d' =>
      if bool_decide (k' = k) then (k, v) :: d' else (k', v') :: dict_set k v d'
  end.

Fixpoint dict_get {A} (k : string) (d : list (string * A)) : option A :=
  match d with
  | [] => None
  | (k', v') :: d' => if bool_decide (k' = k) then Some v' else dict_get k d'
  end.

(** [l[0]] on a Python list. *)
Definition first_item {A} (l : list A) : result A :=
  match l with
  | x :: _ => Ok x
  | [] => Raise IndexError
  end.

(** ** The regular expression of the dataset root

    The pattern is a greedy group of any characters but the newline,
    followed by a literal; for the literal [/docs] it is the pattern of
    [BaseModelParam.__init__].  [re.findall] scans [s] from the left; at
    each start position the greedy group takes as many non-newline characters as it
    can and gives characters back until the literal follows.  The matches
    do not overlap: the scan resumes after the end of a match. *)
Module Re.

Definition newline : Ascii.ascii := "010"%char.

Definition is_newline (c : Ascii.ascii) : bool := bool_decide (c = newline).

(** The group of a match that starts at the head of [s]. *)
Fixpoint match_here (lit s : string) : option string :=
  match s with
  | EmptyString => if String.prefix lit s then Some EmptyString else None
  | String c s' =>
      if is_newline c then
        if String.prefix lit s then Some EmptyString else None
      else
        match match_here lit s' with
        | Some g => Some (String c g)
        | None => if String.prefix lit s then Some EmptyString else None
        end
  end.

(** [skip] counts the characters of the previous match still to pass. *)
Fixpoint findall_from (lit : string) (skip : nat) (s : string) : list string :=
  match s with
  | EmptyString => []
  | String c s' =>
      match skip with
      | S k => findall_from lit k s'
      | O =>
          match match_here lit s with
          | Some g => g :: findall_from lit (String.length g + String.length lit - 1) s'
          | None => findall_from lit 0 s'
          end
      end
  end.

(** [re.findall] of the group followed by [lit], for a non-empty [lit]. *)
Definition findall (lit s : string) : list string := findall_from lit 0 s.

(** [lit in s]. *)
Definition contains (lit s : string) : Prop :=
  ∃ pre post, s = pre +:+ lit +:+ post.

End Re.

(** ** Configuration objects ([BaseModelParam] and its subclasses) *)
Module Params.

(** What the split provider exposes of the CSV: the column names, the
    distinct values of the [split] column in order of appearance, and the
    number of distinct values of a column. *)
Record df_source := {
  columns : list string;
  split_unique : list string;
  nunique : string → nat
}.

(** [v[0]]. *)
Definition subscript0 (v : pyval) : result pyval :=
  match v with
  | PList l => first_item l
  | PStr EmptyString => Raise IndexError
  | PStr (String c _) => Ok (PStr (String c EmptyString))
  | PDict _ => Raise KeyError
  | _ => Raise TypeError
  end.

(** The value of a decimal digit. *)
Definition digit_value (c : Ascii.ascii) : option Z :=
  let n := Ascii.nat_of_ascii c in
  if bool_decide (48 ≤ n)%nat && bool_decide (n ≤ 57)%nat
  then Some (Z.of_nat (n - 48)) else None.

Fixpoint digits_value (acc : Z) (s : string) : option Z :=
  match s with
  | EmptyString => Some acc
  | String c s' =>
      match digit_value c with
      | Some d => digits_value (10 * acc + d) s'
      | None => None
      end
  end.

(** The index that may follow [cuda:] in a device string: [0], or digits
    that do not start with [0]. *)
Definition device_index_of_string (s : string) : option Z :=
  match s with
  | EmptyString => None
  | String c s' =>
      if bool_decide (c = "0"%char) then
        match s' with EmptyString => Some 0%Z | String _ _ => None end
      else digits_value 0 s
  end.

(** The conversion of an [int] to the 8-bit index of a device. *)
Definition wrap_int8 (i : Z) : Z := ((i + 128) mod 256 - 128)%Z.

(** The index of a device string is read as a 32-bit [int] and kept in 8
    bits. *)
Definition torch_device_of_index (i : Z) : result device :=
  if bool_decide (i ≤ 2147483647)%Z then Ok (Cuda (wrap_int8 i))
  else Raise RuntimeError.

(** [torch.device(f"cuda:{v}")]: the text that follows [cuda:] is the
    decimal numeral of an integer that is not negative, or a string that
    is such a numeral; any other device string is rejected. *)
Definition torch_device_cuda (v : pyval) : result device :=
  match v with
  | PInt i =>
      if bool_decide (0 ≤ i)%Z then torch_device_of_index i
      else Raise RuntimeError
  | PStr s =>
      match device_index_of_string s with
      | Some i => torch_device_of_index i
      | None => Raise RuntimeError
      end
  | _ => Raise RuntimeError
  end.

(** [torch.device(f"cuda:{gpu_ids[0]}") if gpu_ids != [] else torch.device('cpu')] *)
Definition resolve_device (gpu_ids : pyval) : result device :=
  if is_not_empty_list gpu_ids then
    i ← subscript0 gpu_ids;
    torch_device_cuda i
  else Ok Cpu.

Definition str_arg (v : pyval) : result string :=
  match v with
  | PStr s => Ok s
  | _ => Raise TypeError
  end.

(** The columns whose name starts with [pre]. *)
Definition columns_startswith (pre : string) (df : df_source) : list string :=
  filter (λ c, String.prefix pre c = true) (columns df).

(** A dictionary comprehension over [keys]. *)
Definition dict_of_keys {A} (f : string → A) (keys : list string) : list (string * A) :=
  foldl (λ d k, dict_set k (f k) d) [] keys.

(** [TrainModelParam._define_num_outputs_for_label] *)
Definition _define_num_outputs_for_label (task : pyval) (df : df_source)
    (label_list : list string) : result (list (string * pyval)) :=
  if is_str task "classification" then
    Ok (dict_of_keys (λ label_name, PInt (Z.of_nat (nunique df label_name))) label_list)
  else if is_str task "regression" || is_str task "deepsurv" then
    Ok (dict_of_keys (λ _, PInt 1) label_list)
  else Raise ValueError.

(** The keys test-time construction takes from the persisted parameters. *)
Definition required_for_test : list string :=
  [ "task"; "model"; "normalize_image"; "in_channel"; "vit_image_size";
    "gpu_ids"; "mlp"; "net"; "input_list"; "label_list"; "mlp_num_inputs";
    "num_outputs_for_label"; "period_name"; "scaler_path" ].

(** [for _param in required_for_test: setattr(self, _param, parameters.get(_param))] *)
Definition load_required_for_test (parameters self : gmap string pyval) : gmap string pyval :=
  foldl (λ self _param, <[_param := default PNone (parameters !! _param)]> self)
        self required_for_test.

(** [set(a) < set(b)]: proper subset. *)
Definition set_lt (a b : list string) : bool :=
  bool_decide ((list_to_set a : gset string) ⊂ list_to_set b).

(** The alignment of the splits to be tested in [TestModelParam.__init__]. *)
Definition align_test_splits (splits_in_df_source test_splits : list string) : list string :=
  if set_lt splits_in_df_source test_splits then splits_in_df_source
  else if set_lt test_splits splits_in_df_source then test_splits
  else test_splits.

(** [no_save] of [save_parameter]: the adjacent literals ['isTrain']
    and ['datetime'] have no comma between them and make one string. *)
Definition no_save : list string :=
  [ "dataloaders"; "device"; "isTrain" +:+ "datetime"; "save_datetime_dir" ].

Section Construction.

(** [pathlib]: [Path(p).stem], [Path(p).parents[0]], [Path(p).name] and
    [str(Path(p1, ..., pn))]. *)
Variable path_stem : string → string.
Variable path_parent : string → result string.
Variable path_name : string → string.
Variable path_str : list string → string.

(** The collaborators of [lib.component] and the persisted file. *)
Variable make_split_provider : string → pyval → result df_source.
Variable create_dataloader : gmap string pyval → df_source → string → result pyval.
Variable read_json : string → result (gmap string pyval).

(** [dataloader.dataset.scaler], when the dataset has the attribute. *)
Variable dataset_scaler : pyval → option pyval.

(** [BaseModelParam.__init__]: [args] is [vars(args)]. *)
Definition BaseModelParam_init (args : gmap string pyval) : result (gmap string pyval) :=
  let self := args in
  csvpath ← getattr self "csvpath";
  match csvpath with
  | PStr p =>
      d ← first_item (Re.findall "/docs" p);
      let self := <["_dataset_dir" := PStr d]> self in
      let self := <["_csv_name" := PStr (path_stem p)]> self in
      Ok self
  | _ => Raise TypeError
  end.

(** [BaseModelParam.save_parameter]: the dictionary dumped to
    [parameters.json] in [save_datetime_dir]. *)
Definition save_parameter (self : gmap string pyval) : result (gmap string pyval) :=
  let saved := filter (λ kv, kv.1 ∉ no_save) self in
  dataloaders ← getattr self "dataloaders";
  train_loader ← match dataloaders with
                 | PDict d => match dict_get "train" d with
                              | Some dl => Ok dl
                              | None => Raise KeyError
                              end
                 | _ => Raise TypeError
                 end;
  saved ← match dataset_scaler train_loader with
          | Some _ =>
              dir ← getattr self "save_datetime_dir" ≫= str_arg;
              Ok (<["scaler_path" := PStr (path_str [dir; "scaler.pkl"])]> saved)
          | None => Ok saved
          end;
  _ ← getattr self "save_datetime_dir" ≫= str_arg;
  Ok saved.

(** [{split: create_dataloader(self, df, split=split) for split in splits}] *)
Fixpoint create_dataloaders (self : gmap string pyval) (df : df_source)
    (splits : list string) (acc : list (string * pyval)) : result (list (string * pyval)) :=
  match splits with
  | [] => Ok acc
  | split :: rest =>
      dl ← create_dataloader self df split;
      create_dataloaders self df rest (dict_set split dl acc)
  end.

(** [str(Path(self._dataset_dir, 'results', self._csv_name, 'sets', dt))] *)
Definition results_dir (self : gmap string pyval) (dt : string) : result string :=
  dataset_dir ← getattr self "_dataset_dir" ≫= str_arg;
  csv_name ← getattr self "_csv_name" ≫= str_arg;
  Ok (path_str [dataset_dir; "results"; csv_name; "sets"; dt]).

(** [TrainModelParam.__init__] *)
Definition TrainModelParam_init (args : gmap string pyval) : result (gmap string pyval) :=
  self ← BaseModelParam_init args;
  csvpath ← getattr self "csvpath" ≫= str_arg;
  task ← getattr self "task";
  df ← make_split_provider csvpath task;
  let input_list := columns_startswith "input" df in
  let label_list := columns_startswith "label" df in
  let self := <["input_list" := PList (PStr <$> input_list)]> self in
  let self := <["label_list" := PList (PStr <$> label_list)]> self in
  let self := <["mlp_num_inputs" := PInt (Z.of_nat (length input_list))]> self in
  num_outputs ← _define_num_outputs_for_label task df label_list;
  let self := <["num_outputs_for_label" := PDict num_outputs]> self in
  self ← (if is_str task "deepsurv" then
            period ← first_item (columns_startswith "period" df);
            Ok (<["period_name" := PStr period]> self)
          else Ok self);
  gpu_ids ← getattr self "gpu_ids";
  dev ← resolve_device gpu_ids;
  let self := <["device" := PDevice dev]> self in
  _datetime ← getattr self "datetime" ≫= str_arg;
  _save_datetime_dir ← results_dir self _datetime;
  let self := <["save_datetime_dir" := PStr _save_datetime_dir]> self in
  dls ← create_dataloaders self df ["train"; "val"] [];
  Ok (<["dataloaders" := PDict dls]> self).

(** [TestModelParam.__init__] *)
Definition TestModelParam_init (args : gmap string pyval) (test_splits : list string)
    (likelihood_on : bool) : result (gmap string pyval) :=
  self ← BaseModelParam_init args;
  weight_dir ← getattr self "weight_dir" ≫= str_arg;
  _save_datetime_dir ← path_parent weight_dir;
  let parameter_path := path_str [_save_datetime_dir; "parameters.json"] in
  parameters ← read_json parameter_path;
  let self := load_required_for_test parameters self in
  let self := <["augmentation" := PStr "no"]> self in
  let self := <["sampler" := PStr "no"]> self in
  let self := <["pretrained" := PBool false]> self in
  csvpath ← getattr self "csvpath" ≫= str_arg;
  task ← getattr self "task";
  df ← make_split_provider csvpath task;
  gpu_ids ← getattr self "gpu_ids";
  dev ← resolve_device gpu_ids;
  let self := <["device" := PDevice dev]> self in
  let _datetime := path_name _save_datetime_dir in
  _save_datetime_dir ← results_dir self _datetime;
  let self := <["save_datetime_dir" := PStr _save_datetime_dir]> self in
  let splits_in_df_source := split_unique df in
  let self := <["test_splits" :=
                  PList (PStr <$> align_test_splits splits_in_df_source test_splits)]> self in
  dls ← create_dataloaders self df (align_test_splits splits_in_df_source test_splits) [];
  let self := <["dataloaders" := PDict dls]> self in
  Ok (<["likelihood_on" := PBool likelihood_on]> self).

End Construction.

End Params.

(** ** A concrete test-time run

    An image-only classification run on the CPU: the persisted parameters
    are those training wrote, so they hold neither [period_name] (only
    survival runs have one) nor [scaler_path] (only tabular inputs have a
    scaler). *)
Module Demo.

Import Params.

Definition path_stem (p : string) : string := "trial".
Definition path_parent (p : string) : result string :=
  Ok "materials/results/trial/sets/2023-01-01-00-00-00".
Definition path_name (p : string) : string := "2023-01-01-00-00-00".
Definition path_str (parts : list string) : string := String.concat "/" parts.

Definition df : df_source :=
  {| columns := ["uniqID"; "imgpath"; "label_A"; "label_B"; "split"];
     split_unique := ["test"];
     nunique := λ c, if bool_decide (c = "label_B") then 3%nat else 2%nat |}.

Definition make_split_provider (csvpath : string) (task : pyval) : result df_source :=
  Ok df.

Definition create_dataloader (self : gmap string pyval) (d : df_source)
    (split : string) : result pyval :=
  Ok (PObj 0).

Definition parameters : gmap string pyval :=
  list_to_map
    [ ("task", PStr "classification"); ("model", PStr "ResNet18");
      ("normalize_image", PStr "yes"); ("in_channel", PInt 1);
      ("vit_image_size", PInt 0); ("gpu_ids", PList []);
      ("mlp", PNone); ("net", PStr "ResNet18");
      ("input_list", PList []);
      ("label_list", PList [PStr "label_A"; PStr "label_B"]);
      ("mlp_num_inputs", PInt 0);
      ("num_outputs_for_label", PDict [("label_A", PInt 2); ("label_B", PInt 3)]);
      ("isTrain", PBool true); ("datetime", PStr "2023-01-01-00-00-00");
      ("csvpath", PStr "materials/docs/trial.csv") ].

Definition read_json (p : string) : result (gmap string pyval) := Ok parameters.

Definition dataset_scaler (loader : pyval) : option pyval := None.

(** The options of the test run; the caller passes a period name and a
    label list of its own. *)
Definition args : gmap string pyval :=
  list_to_map
    [ ("csvpath", PStr "materials/docs/trial.csv");
      ("weight_dir", PStr "materials/results/trial/sets/2023-01-01-00-00-00/weights");
      ("isTrain", PBool false);
      ("label_list", PList [PStr "label_X"]) ].

Definition TestModelParam_init :=
  Params.TestModelParam_init path_stem path_parent path_name path_str
    make_split_provider create_dataloader read_json.

(** The options of the training run that wrote [parameters]. *)
Definition train_args : gmap string pyval :=
  list_to_map
    [ ("csvpath", PStr "materials/docs/trial.csv");
      ("task", PStr "classification"); ("model", PStr "ResNet18");
      ("normalize_image", PStr "yes"); ("in_channel", PInt 1);
      ("vit_image_size", PInt 0); ("gpu_ids", PList []);
      ("mlp", PNone); ("net", PStr "ResNet18");
      ("isTrain", PBool true); ("datetime", PStr "2023-01-01-00-00-00");
      ("save_weight_policy", PStr "each"); ("epochs", PInt 4) ].

Definition TrainModelParam_init :=
  Params.TrainModelParam_init path_stem path_str make_split_provider
    create_dataloader.

Definition save_parameter := Params.save_parameter path_str dataset_scaler.

(** The objects the two constructors return on these options. *)
Definition test_object : gmap string pyval :=
  match TestModelParam_init args ["train"; "val"; "test"] true with
  | Ok self => self
  | Raise _ => ∅
  end.

Definition train_object : gmap string pyval :=
  match TrainModelParam_init train_args with
  | Ok self => self
  | Raise _ => ∅
  end.

(** The dictionary the training run writes to its parameter file. *)
Definition saved_object : gmap string pyval :=
  match save_parameter train_object with
  | Ok saved => saved
  | Raise _ => ∅
  end.

(** The test run on a parameter file that lacks a key. *)
Definition TestModelParam_init_without (key : string) :=
  Params.TestModelParam_init path_stem path_parent path_name path_str
    make_split_provider create_dataloader (λ _, Ok (delete key parameters)).

Definition test_object_without (key : string) : gmap string pyval :=
  match TestModelParam_init_without key args ["train"; "val"; "test"] true with
  | Ok self => self
  | Raise _ => ∅
  end.

End Demo.

(** ** The classifier factory ([models/net.py]) *)
Module Net.

Inductive layer :=
| Linear (in_features out_features : nat)
| Dropout (p : Q) (inplace : bool)
| LayerNorm
| Flatten
| Identity.

(** A module is a layer, an [nn.Sequential] of layers, or an
    [nn.Sequential] built from an [OrderedDict] of named layers. *)
Inductive module :=
| Single (l : layer)
| Sequential (ls : list layer)
| NamedSequential (ls : list (string * layer)).

Definition cnn : list string :=
  [ "ResNet18"; "ResNet"; "DenseNet"; "B0"; "B2"; "B4"; "B6";
    "ConvNeXtTiny"; "ConvNeXtSmall"; "ConvNeXtBase"; "ConvNeXtLarge" ].

Definition vit : list string := [ "ViTb16"; "ViTb32"; "ViTl16"; "ViTl32" ].

(** [net = {**cnn, **vit}] *)
Definition net : list string := cnn ++ vit.

(** [mlp_config['hidden_channels']] *)
Definition mlp_hidden_channels : list nat := [256; 256; 256]%nat.

(** [m.in_features] *)
Definition in_features_of (m : module) : result nat :=
  match m with
  | Single (Linear i _) => Ok i
  | _ => Raise AttributeError
  end.

Definition layer_in_features (l : layer) : result nat :=
  match l with
  | Linear i _ => Ok i
  | _ => Raise AttributeError
  end.

(** [l.p] *)
Definition layer_p (l : layer) : result Q :=
  match l with
  | Dropout p _ => Ok p
  | _ => Raise AttributeError
  end.

(** [m[i]] *)
Definition module_item (m : module) (i : nat) : result layer :=
  match m with
  | Sequential ls =>
      match ls !! i with Some l => Ok l | None => Raise IndexError end
  | NamedSequential ls =>
      match ls !! i with Some (_, l) => Ok l | None => Raise IndexError end
  | Single _ => Raise TypeError
  end.

(** [m.head] *)
Definition module_head (m : module) : result layer :=
  match m with
  | NamedSequential ls =>
      match dict_get "head" ls with Some l => Ok l | None => Raise AttributeError end
  | _ => Raise AttributeError
  end.

(** The output dimension of the last linear layer of a head. *)
Definition final_out_features (m : module) : option nat :=
  match m with
  | Single (Linear _ o) => Some o
  | Single _ => None
  | Sequential ls =>
      match last ls with Some (Linear _ o) => Some o | _ => None end
  | NamedSequential ls =>
      match last ls with Some (_, Linear _ o) => Some o | _ => None end
  end.

(** The classifier of the torchvision network of each name of the
    catalogue, built without weights:
    [cls.net[net_name]()._modules[cls.classifier[net_name]]].  It is [fc]
    of a ResNet, [classifier] of DenseNet, EfficientNet and ConvNeXt, and
    [heads] of a vision transformer. *)
Definition torchvision_classifier : list (string * module) :=
  [ ("ResNet18", Single (Linear 512 1000));
    ("ResNet", Single (Linear 2048 1000));
    ("DenseNet", Single (Linear 2208 1000));
    ("B0", Sequential [Dropout (2 # 10) true; Linear 1280 1000]);
    ("B2", Sequential [Dropout (3 # 10) true; Linear 1408 1000]);
    ("B4", Sequential [Dropout (4 # 10) true; Linear 1792 1000]);
    ("B6", Sequential [Dropout (5 # 10) true; Linear 2304 1000]);
    ("ConvNeXtTiny", Sequential [LayerNorm; Flatten; Linear 768 1000]);
    ("ConvNeXtSmall", Sequential [LayerNorm; Flatten; Linear 768 1000]);
    ("ConvNeXtBase", Sequential [LayerNorm; Flatten; Linear 1024 1000]);
    ("ConvNeXtLarge", Sequential [LayerNorm; Flatten; Linear 1536 1000]);
    ("ViTb16", NamedSequential [("head", Linear 768 1000)]);
    ("ViTb32", NamedSequential [("head", Linear 768 1000)]);
    ("ViTl16", NamedSequential [("head", Linear 1024 1000)]);
    ("ViTl32", NamedSequential [("head", Linear 1024 1000)]) ].

(** [BaseNet.get_classifier] *)
Definition get_classifier (net_name : string) : result module :=
  if bool_decide (net_name ∈ net) then
    match dict_get net_name torchvision_classifier with
    | Some classifier => Ok classifier
    | None => Raise KeyError
    end
  else Raise KeyError.

(** The head of one label, by family of [net_name]: what each branch of
    [construct_multi_classifier] computes before its loop and builds in
    it. *)
Definition head_builder (net_name : string) : result (nat → module) :=
  if bool_decide (net_name = "MLP") then
    in_features ← match last mlp_hidden_channels with
                  | Some n => Ok n
                  | None => Raise IndexError
                  end;
    Ok (λ num_classes, Single (Linear in_features num_classes))
  else if String.prefix "ResNet" net_name || String.prefix "DenseNet" net_name then
    base_classifier ← get_classifier net_name;
    in_features ← in_features_of base_classifier;
    Ok (λ num_classes, Single (Linear in_features num_classes))
  else if String.prefix "B" net_name then
    base_classifier ← get_classifier net_name;
    dropout ← module_item base_classifier 0 ≫= layer_p;
    in_features ← module_item base_classifier 1 ≫= layer_in_features;
    Ok (λ num_classes,
          Sequential [Dropout dropout false; Linear in_features num_classes])
  else if String.prefix "ConvNeXt" net_name then
    base_classifier ← get_classifier net_name;
    layer_norm ← module_item base_classifier 0;
    flatten ← module_item base_classifier 1;
    in_features ← module_item base_classifier 2 ≫= layer_in_features;
    Ok (λ num_classes,
          Sequential [layer_norm; flatten; Linear in_features num_classes])
  else
    base_classifier ← get_classifier net_name;
    in_features ← module_head base_classifier ≫= layer_in_features;
    Ok (λ num_classes,
          NamedSequential [("head", Linear in_features num_classes)]).

(** ['.' in name] *)
Fixpoint has_dot (name : string) : bool :=
  match name with
  | EmptyString => false
  | String c name' => bool_decide (c = "."%char) || has_dot name'
  end.

Section Factory.

(** [hasattr(d, name)] on a module dictionary [d] that holds no module
    yet: whether [name] is one of the attributes every [nn.ModuleDict]
    has. *)
Variable has_attribute : string → bool.

(** A name that [add_module] takes when no module has it yet. *)
Definition module_name (name : string) : Prop :=
  has_attribute name = false ∧ has_dot name = false ∧ name ≠ "".

(** [d.add_module(name, module)] on a module dictionary with the modules
    [_modules]: the name must not be an attribute that is no module of
    [d], must have no dot and must not be empty. *)
Definition add_module (name : string) (m : module)
    (_modules : list (string * module)) : result (list (string * module)) :=
  if has_attribute name && negb (bool_decide (name ∈ _modules.*1)) then Raise KeyError
  else if has_dot name then Raise KeyError
  else if bool_decide (name = "") then Raise KeyError
  else Ok (dict_set name m _modules).

(** [d.update(modules)]: the items are added one by one. *)
Fixpoint update (modules _modules : list (string * module))
    : result (list (string * module)) :=
  match modules with
  | [] => Ok _modules
  | (key, m) :: rest =>
      _modules ← add_module key m _modules;
      update rest _modules
  end.

(** [nn.ModuleDict(modules)] *)
Definition ModuleDict (modules : list (string * module))
    : result (list (string * module)) :=
  update modules [].

(** [BaseNet.construct_multi_classifier] *)
Definition construct_multi_classifier (net_name : string)
    (num_classes_in_internal_label : list (string * nat)) : result (list (string * module)) :=
  head ← head_builder net_name;
  let classifiers :=
    foldl (λ classifiers item, dict_set item.1 (head item.2) classifiers)
          [] num_classes_in_internal_label in
  ModuleDict classifiers.

End Factory.

(** Attributes that every module has, for concrete runs of the factory. *)
Definition module_attributes : list string :=
  [ "training"; "forward"; "parameters"; "state_dict"; "train"; "eval";
    "keys"; "items"; "values" ].

Definition has_module_attribute (name : string) : bool :=
  bool_decide (name ∈ module_attributes).

End Net.




(** ** The loss history of one label ([lib/component.py]) *)
Module LossReg.

Definition Qltb (x y : Q) : bool := negb (Qle_bool y x).

(** Modelled from the spec: the per-label loss track held in
    [loss_reg.epoch_loss] (its class is in [lib/component.py], which is not
    part of the sources at hand).  It keeps the train and validation
    histories, one value per epoch, and the best epoch and best validation
    loss so far. *)
Record EpochLoss := {
  train : list Q;
  val : list Q;
  best_epoch : option nat;
  best_val_loss : option Q
}.

Definition init : EpochLoss :=
  {| train := []; val := []; best_epoch := None; best_val_loss := None |}.

(** Modelled from the spec: [finalize_epoch], the part of
    [loss_reg.cal_epoch_loss] that appends the epoch average of a phase to
    the history of that phase. *)
Definition append_epoch_loss (phase : string) (x : Q) (t : EpochLoss) : EpochLoss :=
  if bool_decide (phase = "train") then
    {| train := train t ++ [x]; val := val t;
       best_epoch := best_epoch t; best_val_loss := best_val_loss t |}
  else
    {| train := train t; val := val t ++ [x];
       best_epoch := best_epoch t; best_val_loss := best_val_loss t |}.

(** Modelled from the spec: [is_best_epoch_so_far], the
    [is_val_loss_updated] of the track: true iff the validation loss just
    finalized is strictly less than the best of the prior epochs, or this
    is the first epoch; the best epoch and loss are updated when true. *)
Definition is_val_loss_updated (t : EpochLoss) : bool * EpochLoss :=
  match last (val t) with
  | None => (false, t)
  | Some latest =>
      let updated :=
        {| train := train t; val := val t;
           best_epoch := Some (length (val t) - 1);
           best_val_loss := Some latest |} in
      match best_val_loss t with
      | None => (true, updated)
      | Some best => if Qltb latest best then (true, updated) else (false, t)
      end
  end.

(** The two [cal_epoch_loss] of an epoch of [train.py]. *)
Definition finalize_epoch (train_loss val_loss : Q) (t : EpochLoss) : EpochLoss :=
  append_epoch_loss "val" val_loss (append_epoch_loss "train" train_loss t).

(** The check after each epoch of a run: its answer and the best epoch
    it leaves. *)
Fixpoint check_epochs (losses : list (Q * Q)) (t : EpochLoss) : list (bool * option nat) :=
  match losses with
  | [] => []
  | (train_loss, val_loss) :: rest =>
      let '(is_updated, t') := is_val_loss_updated (finalize_epoch train_loss val_loss t) in
      (is_updated, best_epoch t') :: check_epochs rest t'
  end.

(** The best epoch and loss of a track are those of the first minimum of
    its validation history. *)
Definition track_inv (t : EpochLoss) : Prop :=
  match best_epoch t, best_val_loss t with
  | None, None => val t = []
  | Some b, Some vb =>
      val t !! b = Some vb
      ∧ (∀ j w, val t !! j = Some w → (vb <= w)%Q)
      ∧ (∀ j w, j < b → val t !! j = Some w → (vb < w)%Q)
  | _, _ => False
  end.

Definition get_best_epoch (t : EpochLoss) : option nat := best_epoch t.
Definition get_best_val_loss (t : EpochLoss) : option Q := best_val_loss t.

End LossReg.

(** ** Models and weight files ([BaseModel], [SaveLoadMixin] and the
    six model classes) *)
Module Model.

(** [s.zfill(width)]: zeros go after a leading sign. *)
Definition zfill (width : nat) (s : string) : string :=
  let zeros := String.concat "" (replicate (width - String.length s) "0") in
  match s with
  | String c s' =>
      if bool_decide (c = "+"%char) || bool_decide (c = "-"%char)
      then String c (zeros +:+ s')
      else zeros +:+ s
  | EmptyString => zeros
  end.

(** [str(self.acting_best_epoch)] *)
Definition str_epoch (e : option nat) : string :=
  match e with
  | Some n => pretty n
  | None => "None"
  end.

(** A path is the sequence of the parts it was built from. *)
Definition path := list string.

Inductive variant :=
| MLPModel
| CVModel
| FusionModel
| MLPDeepSurv
| CVDeepSurv
| FusionDeepSurv.

(** The class [create_model] selects. *)
Definition select_variant (task mlp net : pyval) : result variant :=
  let is_none v := match v with PNone => true | _ => false end in
  let _isMLPModel := negb (is_none mlp) && is_none net in
  let _isCVModel := is_none mlp && negb (is_none net) in
  let _isFusion := negb (is_none mlp) && negb (is_none net) in
  if is_str task "classification" || is_str task "regression" then
    if _isMLPModel then Ok MLPModel
    else if _isCVModel then Ok CVModel
    else if _isFusion then Ok FusionModel
    else Raise ValueError
  else if is_str task "deepsurv" then
    if _isMLPModel then Ok MLPDeepSurv
    else if _isCVModel then Ok CVDeepSurv
    else if _isFusion then Ok FusionDeepSurv
    else Raise ValueError
  else Raise ValueError.

(** *** The file system and the log of the effects *)

Section Effects.

Context {W : Type}.

Inductive event :=
| TorchSave (p : path)
| Rename (src dst : path)
| TorchLoad (p : path)
| LoadStateDict (target_replicated : bool)
| NetworkTo (d : device)
| Replicate (device_ids : list Z).

Record world := {
  files : gmap path (option W);
  dirs : gset path;
  log : list event
}.

(** Effects on the world that can raise: the world is kept on a raise. *)
Definition io (A : Type) : Type := world → result A * world.

Definition io_ret {A} (a : A) : io A := λ w, (Ok a, w).

Definition io_bind {A B} (c : io A) (k : A → io B) : io B := λ w,
  match c w with
  | (Ok a, w') => k a w'
  | (Raise e, w') => (Raise e, w')
  end.

Definition raise {A} (e : exn) : io A := λ w, (Raise e, w).

Definition lift {A} (r : result A) : io A := λ w, (r, w).

Definition emit (e : event) : io unit :=
  λ w, (Ok (), {| files := files w; dirs := dirs w; log := log w ++ [e] |}).

(** [p.mkdir(parents=True, exist_ok=True)] *)
Definition mkdir (p : path) : io unit := λ w,
  match files w !! p with
  | Some _ => (Raise FileExistsError, w)
  | None => (Ok (), {| files := files w; dirs := {[p]} ∪ dirs w; log := log w |})
  end.

(** [p.exists()] *)
Definition path_exists (p : path) : io bool := λ w,
  (Ok (bool_decide (is_Some (files w !! p)) || bool_decide (p ∈ dirs w)), w).

(** [torch.save(obj, p)] *)
Definition torch_save (obj : option W) (p : path) : io unit := λ w,
  if bool_decide (removelast p ∈ dirs w) then
    (Ok (), {| files := <[p := obj]> (files w); dirs := dirs w;
               log := log w ++ [TorchSave p] |})
  else (Raise FileNotFoundError, w).

(** [src.rename(dst)]: an existing file at [dst] is replaced. *)
Definition rename (src dst : path) : io unit := λ w,
  match files w !! src with
  | Some obj =>
      (Ok (), {| files := <[dst := obj]> (delete src (files w)); dirs := dirs w;
                 log := log w ++ [Rename src dst] |})
  | None => (Raise FileNotFoundError, w)
  end.

(** [torch.load(p)] *)
Definition torch_load (p : path) : io (option W) := λ w,
  match files w !! p with
  | Some obj => (Ok obj, {| files := files w; dirs := dirs w;
                            log := log w ++ [TorchLoad p] |})
  | None => (Raise FileNotFoundError, w)
  end.

End Effects.

Arguments event : clear implicits.
Arguments world : clear implicits.
Arguments io : clear implicits.

Notation "'do' x ← c ; k" := (io_bind c (λ x, k))
  (at level 10, x name, c at level 100, k at level 200,
   format "'[v' 'do'  x  ←  c ; '/' k ']'").
Notation "'do' '_' ← c ; k" := (io_bind c (λ _, k))
  (at level 10, c at level 100, k at level 200,
   format "'[v' 'do'  '_'  ←  c ; '/' k ']'").

Section WithTensors.

(** [W]: a state dictionary of the architecture of the network at hand,
    with the keys of the network itself or with those of a replica of it;
    [T]: the content of a tensor. *)
Context {W T : Type}.

(** [torch.cuda.is_available()] *)
Variable cuda_available : bool.

(** The keys of the state dictionary of an [nn.DataParallel] carry the
    prefix [module.]; [strip_module_prefix] removes it and is [None] on a
    dictionary whose keys lack it. *)
Variable add_module_prefix : W → W.
Variable strip_module_prefix : W → option W.

Record tensor := { content : T; on : device }.

(** [t.to(d)] returns a tensor; [t] itself stays where it is. *)
Definition to (t : tensor) (d : device) : tensor :=
  {| content := content t; on := d |}.

(** [self.network]: the network built by [create_net], or the
    [nn.DataParallel] wrapper around one. *)
Inductive network :=
| Plain (state : W) (dev : device)
| DataParallel (module : network) (device_ids : list Z).

Definition is_replicated (n : network) : bool :=
  match n with
  | Plain _ _ => false
  | DataParallel _ _ => true
  end.

(** [n.to(d)] moves a module in place. *)
Fixpoint network_to (n : network) (d : device) : network :=
  match n with
  | Plain w _ => Plain w d
  | DataParallel m ids => DataParallel (network_to m d) ids
  end.

Fixpoint state_dict (n : network) : W :=
  match n with
  | Plain w _ => w
  | DataParallel m _ => add_module_prefix (state_dict m)
  end.

(** [n.load_state_dict(w)] with its default strict key check, as far as
    the prefix of a replica goes: a replica takes the keys that carry the
    prefix and no others. *)
Fixpoint load_state_dict (n : network) (w : W) : result network :=
  match n with
  | Plain _ d => Ok (Plain w d)
  | DataParallel m ids =>
      match strip_module_prefix w with
      | Some w' => m' ← load_state_dict m w'; Ok (DataParallel m' ids)
      | None => Raise RuntimeError
      end
  end.

(** What an optimisation step does to the parameters. *)
Fixpoint set_state (n : network) (w : W) : network :=
  match n with
  | Plain _ d => Plain w d
  | DataParallel m ids => DataParallel (set_state m w) ids
  end.

(** *** The model object *)

(** The attributes [set_data] and [forward] assign. *)
Record batch_attrs := {
  inputs : option tensor;
  input : option tensor;
  image : option tensor;
  multi_label : option (list (string * tensor));
  periods : option tensor;
  multi_output : option (list (string * tensor))
}.

Record model := {
  class : variant;
  net : network;
  dev : device;
  gpu_ids : list Z;
  save_datetime_dir : string;
  save_weight_policy : string;
  total_epoch_loss : LossReg.EpochLoss;
  acting_best_weight : option W;
  acting_best_epoch : option nat;
  attrs : batch_attrs
}.

Definition set_net (n : network) (m : model) : model :=
  {| class := class m; net := n; dev := dev m; gpu_ids := gpu_ids m;
     save_datetime_dir := save_datetime_dir m;
     save_weight_policy := save_weight_policy m;
     total_epoch_loss := total_epoch_loss m;
     acting_best_weight := acting_best_weight m;
     acting_best_epoch := acting_best_epoch m; attrs := attrs m |}.

Definition set_total_epoch_loss (t : LossReg.EpochLoss) (m : model) : model :=
  {| class := class m; net := net m; dev := dev m; gpu_ids := gpu_ids m;
     save_datetime_dir := save_datetime_dir m;
     save_weight_policy := save_weight_policy m;
     total_epoch_loss := t;
     acting_best_weight := acting_best_weight m;
     acting_best_epoch := acting_best_epoch m; attrs := attrs m |}.

Definition set_acting_best (w : option W) (e : option nat) (m : model) : model :=
  {| class := class m; net := net m; dev := dev m; gpu_ids := gpu_ids m;
     save_datetime_dir := save_datetime_dir m;
     save_weight_policy := save_weight_policy m;
     total_epoch_loss := total_epoch_loss m;
     acting_best_weight := w;
     acting_best_epoch := e; attrs := attrs m |}.

Definition set_attrs (a : batch_attrs) (m : model) : model :=
  {| class := class m; net := net m; dev := dev m; gpu_ids := gpu_ids m;
     save_datetime_dir := save_datetime_dir m;
     save_weight_policy := save_weight_policy m;
     total_epoch_loss := total_epoch_loss m;
     acting_best_weight := acting_best_weight m;
     acting_best_epoch := acting_best_epoch m; attrs := a |}.

Definition set_multi_output (o : list (string * tensor)) (a : batch_attrs) : batch_attrs :=
  {| inputs := inputs a; input := input a; image := image a;
     multi_label := multi_label a; periods := periods a; multi_output := Some o |}.

Definition set_inputs (t : tensor) (a : batch_attrs) : batch_attrs :=
  {| inputs := Some t; input := input a; image := image a;
     multi_label := multi_label a; periods := periods a;
     multi_output := multi_output a |}.

Definition set_input (t : tensor) (a : batch_attrs) : batch_attrs :=
  {| inputs := inputs a; input := Some t; image := image a;
     multi_label := multi_label a; periods := periods a;
     multi_output := multi_output a |}.

Definition set_image (t : tensor) (a : batch_attrs) : batch_attrs :=
  {| inputs := inputs a; input := input a; image := Some t;
     multi_label := multi_label a; periods := periods a;
     multi_output := multi_output a |}.

Definition set_multi_label (l : list (string * tensor)) (a : batch_attrs) : batch_attrs :=
  {| inputs := inputs a; input := input a; image := image a;
     multi_label := Some l; periods := periods a;
     multi_output := multi_output a |}.

Definition set_periods (t : tensor) (a : batch_attrs) : batch_attrs :=
  {| inputs := inputs a; input := input a; image := image a;
     multi_label := multi_label a; periods := Some t;
     multi_output := multi_output a |}.

(** One batch of a data loader. *)
Record batch := {
  data_inputs : tensor;
  data_image : tensor;
  data_labels : list (string * tensor);
  data_periods : tensor
}.

(** Reading an attribute that was never assigned. *)
Definition attr {A} (o : option A) : result A :=
  match o with
  | Some a => Ok a
  | None => Raise AttributeError
  end.

(** Calling the network on its arguments: one output per label. *)
Variable net_forward : network → list tensor → list (string * tensor).

(** [set_data] of the six classes. *)
Definition set_data (data : batch) (m : model) : model :=
  let a := attrs m in
  let a :=
    match class m with
    | MLPModel =>
        set_multi_label (data_labels data) (set_inputs (data_inputs data) a)
    | CVModel =>
        set_multi_label (data_labels data) (set_image (data_image data) a)
    | FusionModel =>
        set_multi_label (data_labels data)
          (set_image (data_image data) (set_inputs (data_inputs data) a))
    | MLPDeepSurv =>
        set_periods (data_periods data)
          (set_multi_label (data_labels data) (set_inputs (data_inputs data) a))
    | CVDeepSurv =>
        set_periods (data_periods data)
          (set_multi_label (data_labels data) (set_image (data_image data) a))
    | FusionDeepSurv =>
        set_periods (data_periods data)
          (set_multi_label (data_labels data)
             (set_image (data_image data) (set_inputs (data_inputs data) a)))
    end in
  set_attrs a m.

(** [self.multi_output = self.network(args)]; the arguments of the call
    are returned with the model. *)
Definition call_network (args : list tensor) (a : batch_attrs) (m : model)
    : result (model * list tensor) :=
  Ok (set_attrs (set_multi_output (net_forward (net m) args) a) m, args).

(** [forward] of the six classes.  [MLPModel.forward] assigns the moved
    tensor to [self.input] and calls the network on [self.inputs]. *)
Definition forward (m : model) : result (model * list tensor) :=
  let a := attrs m in
  match class m with
  | MLPModel =>
      x ← attr (inputs a);
      let a := set_input (to x (dev m)) a in
      x ← attr (inputs a);
      call_network [x] a m
  | MLPDeepSurv =>
      x ← attr (inputs a);
      let a := set_inputs (to x (dev m)) a in
      x ← attr (inputs a);
      call_network [x] a m
  | CVModel | CVDeepSurv =>
      i ← attr (image a);
      let a := set_image (to i (dev m)) a in
      i ← attr (image a);
      call_network [i] a m
  | FusionModel | FusionDeepSurv =>
      x ← attr (inputs a);
      let a := set_inputs (to x (dev m)) a in
      i ← attr (image a);
      let a := set_image (to i (dev m)) a in
      x ← attr (inputs a);
      i ← attr (image a);
      call_network [x; i] a m
  end.

(** [BaseModel._enable_on_gpu_if_available] *)
Definition _enable_on_gpu_if_available (m : model) : io W model :=
  match gpu_ids m with
  | [] => io_ret m
  | _ :: _ =>
      if cuda_available then
        do _ ← emit (NetworkTo (dev m));
        let n := network_to (net m) (dev m) in
        do _ ← emit (Replicate (gpu_ids m));
        io_ret (set_net (DataParallel n (gpu_ids m)) m)
      else raise AssertionError
  end.

(** [SaveLoadMixin.store_weight]: no input or output. *)
Definition store_weight (m : model) : model :=
  let e := LossReg.get_best_epoch (total_epoch_loss m) in
  let _network := net m in
  match _network with
  | DataParallel module _ =>
      set_acting_best (Some (state_dict (network_to module Cpu))) e m
  | Plain _ _ =>
      set_acting_best (Some (state_dict _network)) e m
  end.

Definition save_dir (m : model) : path := [save_datetime_dir m; "weights"].

Definition save_name (m : model) : string :=
  "weight_epoch-" +:+ zfill 3 (str_epoch (acting_best_epoch m)) +:+ ".pt".

Definition save_name_as_best (m : model) : string :=
  "weight_epoch-" +:+ zfill 3 (str_epoch (acting_best_epoch m)) +:+ "_best" +:+ ".pt".

Definition save_path (m : model) : path := (save_dir m ++ [save_name m])%list.

Definition save_path_as_best (m : model) : path := (save_dir m ++ [save_name_as_best m])%list.

(** [SaveLoadMixin.save_weight] *)
Definition save_weight (m : model) (as_best : option bool) : io W unit :=
  match as_best with
  | None => raise AssertionError
  | Some as_best =>
      do _ ← mkdir (save_dir m);
      if as_best then
        do there ← path_exists (save_path m);
        if there then rename (save_path m) (save_path_as_best m)
        else torch_save (acting_best_weight m) (save_path_as_best m)
      else torch_save (acting_best_weight m) (save_path m)
  end.

(** [SaveLoadMixin.load_weight] *)
Definition load_weight (m : model) (weight_path : path) : io W model :=
  do weight ← torch_load weight_path;
  do _ ← emit (LoadStateDict (is_replicated (net m)));
  do n ← lift (match weight with
               | Some w => load_state_dict (net m) w
               | None => Raise TypeError
               end);
  _enable_on_gpu_if_available (set_net n m).

End WithTensors.

End Model.

(** ** The training loop ([train.py]) and the test loop ([test.py]) *)
Module Driver.

Import Model.

Section WithTensors.

Context {W T : Type}.
Variable cuda_available : bool.
Variable add_module_prefix : W → W.
Variable strip_module_prefix : W → option W.

Abbreviation model := (@model W T).

(** What the two phases of an epoch leave: the epoch averages of the
    total loss and the parameters after the last optimisation step. *)
Record epoch_outcome := {
  train_total : Q;
  val_total : Q;
  trained : W
}.

(** The batch loops of one epoch with their [cal_epoch_loss]. *)
Definition run_phases (o : epoch_outcome) (m : model) : model :=
  let m := set_net (set_state (net m) (trained o)) m in
  let t := LossReg.append_epoch_loss "train" (train_total o) (total_epoch_loss m) in
  let t := LossReg.append_epoch_loss "val" (val_total o) t in
  set_total_epoch_loss t m.

(** [BaseModel.is_total_val_loss_updated] *)
Definition is_total_val_loss_updated (m : model) : bool * model :=
  let '(is_updated, t) := LossReg.is_val_loss_updated (total_epoch_loss m) in
  (is_updated, set_total_epoch_loss t m).

(** The end of the body of the epoch loop of [main]. *)
Definition end_of_epoch (epoch : nat) (m : model) : io W model :=
  let '(is_updated, m) := is_total_val_loss_updated m in
  if is_updated then
    let m := store_weight add_module_prefix m in
    if bool_decide (0 < epoch) && bool_decide (save_weight_policy m = "each") then
      do _ ← save_weight m (Some false);
      io_ret m
    else io_ret m
  else io_ret m.

(** The epoch loop of [main] of [train.py], from epoch [epoch] on, for as
    many epochs as there are [outcomes]. *)
Fixpoint train_epochs (epoch : nat) (outcomes : list epoch_outcome) (m : model)
    : io W model :=
  match outcomes with
  | [] => io_ret m
  | o :: rest =>
      do m ← end_of_epoch epoch (run_phases o m);
      train_epochs (S epoch) rest m
  end.

(** The calls of [load_weight] in the weight loop of [main] of [test.py],
    one per weight file.  The batches of a pass, which run between two of
    them, leave the network as [load_weight] made it; the likelihood of a
    pass, which [save_likelihood] of [lib.component] writes, is not part
    of it. *)
Fixpoint load_each (weight_paths : list path) (m : model) : io W model :=
  match weight_paths with
  | [] => io_ret m
  | weight_path :: rest =>
      do m ← load_weight cuda_available strip_module_prefix m weight_path;
      load_each rest m
  end.

Definition test_main (weight_paths : list path) (m : model) : io W model :=
  match weight_paths with
  | [] => raise AssertionError
  | _ => load_each weight_paths m
  end.

End WithTensors.

End Driver.

(** ** A concrete run on one GPU

    State dictionaries and tensor contents are numbers; the keys of the
    weight files lack the prefix of a replicated network. *)
Module DemoRun.

Import Model.

Definition add_module_prefix (w : nat) : nat := w.
Definition strip_module_prefix (w : nat) : option nat := None.
Definition net_forward (n : @network nat) (args : list (@tensor nat))
    : list (string * @tensor nat) := [].

Definition no_attrs : @batch_attrs nat :=
  {| inputs := None; input := None; image := None; multi_label := None;
     periods := None; multi_output := None |}.

Definition new_model (c : variant) (ids : list Z) (d : device) : @model nat nat :=
  {| class := c; net := Plain 0 Cpu; dev := d; gpu_ids := ids;
     save_datetime_dir := "materials/results/trial/sets/2023-01-01-00-00-00";
     save_weight_policy := "each";
     total_epoch_loss := LossReg.init;
     acting_best_weight := None; acting_best_epoch := None;
     attrs := no_attrs |}.

(** A batch as the data loader hands it over: on the CPU. *)
Definition cpu_batch : @batch nat :=
  {| data_inputs := {| content := 1; on := Cpu |};
     data_image := {| content := 2; on := Cpu |};
     data_labels := [("label_A", {| content := 3; on := Cpu |})];
     data_periods := {| content := 4; on := Cpu |} |}.

Definition weights_dir : path :=
  ["materials/results/trial/sets/2023-01-01-00-00-00"; "weights"].

(** The weight directory after a training run that saved two epochs. *)
Definition two_weights : world nat :=
  {| files := {[ (weights_dir ++ ["weight_epoch-001.pt"])%list := Some 11;
                 (weights_dir ++ ["weight_epoch-003_best.pt"])%list := Some 13 ]};
     dirs := {[ weights_dir ]};
     log := [] |}.

Definition empty_world : world nat :=
  {| files := ∅; dirs := ∅; log := [] |}.

End DemoRun.

(** ** The feature extractors ([models/net.py]) *)
Module Extractor.

(** A submodule of a torchvision network: its classifier, or a part the
    factory never looks into. *)
Inductive submodule :=
| Opaque (id : nat)
| Classifier (m : Net.module).

(** What [constuct_extractor] returns: the torchvision [MLP], or a
    network given by its [_modules]. *)
Inductive extractor :=
| MLP (in_channels : Z) (hidden_channels : list nat) (dropout : Q)
| Backbone (_modules : list (string * submodule)).

(** [BaseNet.classifier]: the name of the classifier of each network. *)
Definition classifier : list (string * string) :=
  [ ("ResNet18", "fc"); ("ResNet", "fc"); ("DenseNet", "classifier");
    ("B0", "classifier"); ("B2", "classifier"); ("B4", "classifier");
    ("B6", "classifier"); ("ConvNeXtTiny", "classifier");
    ("ConvNeXtSmall", "classifier"); ("ConvNeXtBase", "classifier");
    ("ConvNeXtLarge", "classifier"); ("ViTb16", "heads"); ("ViTb32", "heads");
    ("ViTl16", "heads"); ("ViTl32", "heads") ].

(** [mlp_config['dropout']] *)
Definition mlp_dropout : Q := 2 # 10.

(** [isinstance(v, int)]: a Python bool is an int. *)
Definition is_int (v : pyval) : bool :=
  match v with
  | PInt _ | PBool _ => true
  | _ => false
  end.

(** The number an int stands for where a size is expected. *)
Definition int_value (v : pyval) : Z :=
  match v with
  | PInt n => n
  | PBool true => 1
  | _ => 0
  end.

Section Factory.

(** The [_modules] of the torchvision network of a catalogued name. *)
Variable native_modules : string → list (string * submodule).

(** [BaseNet.MLPNet]: the first linear layer of the torchvision [MLP]
    takes [num_inputs] features, and a layer of a negative size is
    refused. *)
Definition MLPNet (num_inputs : Z) : result extractor :=
  if bool_decide (0 ≤ num_inputs)%Z
  then Ok (MLP num_inputs Net.mlp_hidden_channels mlp_dropout)
  else Raise RuntimeError.

(** [BaseNet.set_net].  The class method [set_vit] takes the class and two
    arguments; the call [cls.set_vit(cls, net_name, vit_image_size)] hands
    it the class twice, so the call raises before the body of [set_vit]
    runs. *)
Definition set_net (net_name : string) (vit_image_size : pyval) : result extractor :=
  if bool_decide (net_name ∈ Net.cnn) then Ok (Backbone (native_modules net_name))
  else if is_int vit_image_size then Raise TypeError
  else Raise AssertionError.

(** [extractor._modules[name] = m] *)
Definition set_module (name : string) (m : submodule) (e : extractor) : extractor :=
  match e with
  | Backbone ms => Backbone (dict_set name m ms)
  | MLP _ _ _ => e
  end.

(** [BaseNet.constuct_extractor] *)
Definition constuct_extractor (net_name : string) (mlp_num_inputs vit_image_size : pyval)
    : result extractor :=
  if bool_decide (net_name = "MLP") then
    if is_int mlp_num_inputs then MLPNet (int_value mlp_num_inputs)
    else Raise AssertionError
  else
    if bool_decide (net_name ∈ Net.net) then
      extractor ← set_net net_name vit_image_size;
      match dict_get net_name classifier with
      | Some name => Ok (set_module name (Classifier (Net.Single Net.Identity)) extractor)
      | None => Raise KeyError
      end
    else Raise AssertionError.

End Factory.

End Extractor.

(** ** The label side of a batch ([BaseModel.multi_label_to_device] and
    [cal_batch_loss] of the six classes) *)
Module Labels.

Import Model.

Section WithTensors.

Context {W T : Type}.





(** A network as [create_net] builds it, or such a network replicated
    once. *)
Definition canonical (n : @network W) : Prop :=
  match n with
  | Plain _ _ => True
  | DataParallel (Plain _ _) _ => True
  | DataParallel (DataParallel _ _) _ => False
  end.

(** The parameters of the network itself, under any replication. *)
Fixpoint parameters (n : @network W) : W :=
  match n with
  | Plain w _ => w
  | DataParallel m _ => parameters m
  end.

End WithTensors.

End Labels.

(** ** Paths on one line and a test run that reads what training wrote *)
Module Reload.

(** No newline in [s]. *)
Fixpoint one_line (s : string) : bool :=
  match s with
  | EmptyString => true
  | String c s' => negb (Re.is_newline c) && one_line s'
  end.

(** The test constructor of [Demo], reading the dictionary the training
    run of [Demo] wrote. *)
Definition TestModelParam_init :=
  Params.TestModelParam_init Demo.path_stem Demo.path_parent Demo.path_name
    Demo.path_str Demo.make_split_provider Demo.create_dataloader
    (λ _, Ok Demo.saved_object).

Definition test_object : gmap string pyval :=
  match TestModelParam_init Demo.args ["train"; "val"; "test"] true with
  | Ok self => self
  | Raise _ => ∅
  end.

End Reload.

(** ** What each model class reads from a batch *)
Module Modality.

Import Model.

(** The classes whose [set_data] takes [data['inputs']]. *)
Definition uses_inputs (c : variant) : bool :=
  match c with
  | MLPModel | FusionModel | MLPDeepSurv | FusionDeepSurv => true
  | CVModel | CVDeepSurv => false
  end.

(** The classes whose [set_data] takes [data['image']]. *)
Definition uses_image (c : variant) : bool :=
  match c with
  | CVModel | FusionModel | CVDeepSurv | FusionDeepSurv => true
  | MLPModel | MLPDeepSurv => false
  end.

(** The classes whose [set_data] takes [data['periods']]. *)
Definition is_survival (c : variant) : bool :=
  match c with
  | MLPDeepSurv | CVDeepSurv | FusionDeepSurv => true
  | MLPModel | CVModel | FusionModel => false
  end.

End Modality.

(** ** The state of a training run between two epochs *)
Module Training.

Import Model Driver Labels.

Section WithTensors.

Context {W T : Type}.

(** Every file is in the weight directory of the run and every directory
    is a child of the run directory. *)
Definition world_in_weights (dir : string) (w : world W) : Prop :=
  (∀ p, is_Some (files w !! p) → ∃ name, p = [dir; "weights"; name])
  ∧ (∀ p, p ∈ dirs w → length p = 2).

(** What holds after the epochs [processed]: the loss history is theirs,
    the stored epoch is the best one and the stored weight the parameters
    that epoch left, and the file of the best epoch without the suffix, if
    there is one, holds them. *)
Definition run_inv (processed : list (@epoch_outcome W)) (m : @model W T)
    (w : world W) : Prop :=
  canonical (net m)
  ∧ LossReg.val (total_epoch_loss m) = val_total <$> processed
  ∧ LossReg.track_inv (total_epoch_loss m)
  ∧ world_in_weights (save_datetime_dir m) w
  ∧ (processed = [] ∨ save_weight_policy m ≠ "each" → files w = ∅)
  ∧ (processed ≠ [] →
     ∃ b ob,
       LossReg.best_epoch (total_epoch_loss m) = Some b
       ∧ processed !! b = Some ob
       ∧ acting_best_epoch m = Some b
       ∧ acting_best_weight m = Some (trained ob)
       ∧ (files w !! save_path m = None
          ∨ files w !! save_path m = Some (Some (trained ob)))).

End WithTensors.

End Training.

(** ** The padding of [zfill] *)
Module Padding.

(** [k] zeros: what [zfill] puts before a string that is [k] short. *)
Definition zeros (k : nat) : string := String.concat "" (replicate k "0").

End Padding.

(** ** Properties *)

Section ReFacts.

Import Re.

Lemma prefix_spec (lit s : string) :
  String.prefix lit s = true ↔ ∃ post, s = lit +:+ post.
Proof.
  revert lit. induction s as [|b s IH]; intros [|a lit]; simpl.
  - split; [intros _; by exists "" | done].
  - split; [done | intros [post H]; discriminate].
  - split; [intros _; by exists (String b s) | done].
  - destruct (Ascii.ascii_dec a b) as [->|Hne].
    + rewrite IH. split; intros [post H]; exists post; [by rewrite H | by injection H].
    + split; [done | intros [post H]; injection H; congruence].
Qed.

Lemma match_here_sound lit s g :
  match_here lit s = Some g → ∃ post, s = g +:+ lit +:+ post.
Proof.
  revert g. induction s as [|c s IH]; intros g; cbn [match_here].
  - destruct lit; [|done]. intros [= <-]. by exists "".
  - destruct (is_newline c).
    + destruct (String.prefix lit (String c s)) eqn:Hp; [|done].
      intros [= <-]. apply prefix_spec in Hp as [post Hp]. by exists post.
    + destruct (match_here lit s) as [g'|] eqn:Hm.
      * intros [= <-]. destruct (IH g' eq_refl) as [post ->]. by exists post.
      * destruct (String.prefix lit (String c s)) eqn:Hp; [|done].
        intros [= <-]. apply prefix_spec in Hp as [post Hp]. by exists post.
Qed.

Lemma match_here_prefix lit s :
  String.prefix lit s = true → is_Some (match_here lit s).
Proof.
  intros Hp. destruct s as [|c s]; [destruct lit; [by exists "" | done]|].
  cbn [match_here]. rewrite Hp.
  destruct (is_newline c); [by exists ""|].
  destruct (match_here lit s) as [g|]; [by exists (String c g) | by exists ""].
Qed.

Lemma findall_from_head lit k s d rest :
  findall_from lit k s = d :: rest →
  ∃ pre post, s = pre +:+ d +:+ lit +:+ post.
Proof.
  revert k. induction s as [|c s IH]; intros k; cbn [findall_from]; [done|].
  destruct k as [|k].
  - destruct (match_here lit (String c s)) as [g|] eqn:Hm.
    + intros [= -> _]. apply match_here_sound in Hm as [post Hs].
      by exists "", post.
    + intros H. destruct (IH _ H) as (pre & post & ->).
      by exists (String c pre), post.
  - intros H. destruct (IH _ H) as (pre & post & ->).
    by exists (String c pre), post.
Qed.

Lemma append_assoc (a b c : string) : (a +:+ b) +:+ c = a +:+ b +:+ c.
Proof. induction a as [|x a IH]; [done | exact (f_equal (String x) IH)]. Qed.

Lemma findall_from_contains lit k s :
  findall_from lit k s ≠ [] → contains lit s.
Proof.
  destruct (findall_from lit k s) as [|d rest] eqn:He; [done|]. intros _.
  apply findall_from_head in He as (pre & post & ->).
  exists (pre +:+ d), post. by rewrite append_assoc.
Qed.

Lemma contains_findall lit s :
  lit ≠ "" → contains lit s → findall lit s ≠ [].
Proof.
  intros Hlit. unfold findall.
  induction s as [|c s IH]; intros (pre & post & Hs).
  - destruct pre; [|done]. destruct lit; done.
  - cbn [findall_from].
    destruct (match_here lit (String c s)) as [g|] eqn:Hm; [done|].
    apply IH. destruct pre as [|a pre].
    + assert (Hp : String.prefix lit (String c s) = true)
        by (apply prefix_spec; by exists post).
      apply match_here_prefix in Hp as [g Hg]. congruence.
    + injection Hs as -> ->. by exists pre, post.
Qed.

Lemma findall_empty_iff lit s :
  lit ≠ "" → findall lit s = [] ↔ ¬ contains lit s.
Proof.
  intros Hlit. split.
  - intros He Hc. by apply (contains_findall lit s Hlit Hc).
  - intros Hn. destruct (findall lit s) eqn:He; [done|].
    exfalso. apply Hn, (findall_from_contains lit 0 s). unfold findall in He.
    by rewrite He.
Qed.

End ReFacts.

(** Inversion of a successful run of monadic code, bind by bind. *)
Ltac inv_ok H :=
  cbv beta delta [mbind result_bind mret result_ret] in H;
  repeat (cbv beta iota zeta in H;
    match type of H with
    | match ?r with Ok _ => _ | Raise _ => _ end = Ok _ =>
        let E := fresh "E" in destruct r eqn:E; [|discriminate H]
    | (if ?b then _ else _) = Ok _ =>
        let E := fresh "E" in destruct b eqn:E; try discriminate H
    end).

Lemma Ok_inj {A} (a b : A) : Ok a = Ok b → a = b.
Proof. by intros [= ->]. Qed.

Lemma getattr_Ok self k v : getattr self k = Ok v → self !! k = Some v.
Proof. unfold getattr. destruct (self !! k); [by intros ->%Ok_inj | done]. Qed.

Section ParamsFacts.

Import Params.

Lemma foldl_insert_lookup (f : string → pyval) (ks : list string)
    (self : gmap string pyval) (p : string) :
  foldl (λ s k, <[k := f k]> s) self ks !! p
  = if decide (p ∈ ks) then Some (f p) else self !! p.
Proof.
  revert self. induction ks as [|k ks IH]; intros self; cbn [foldl].
  - destruct (decide (p ∈ [])) as [H|]; [by apply elem_of_nil in H | done].
  - rewrite IH. destruct (decide (p = k)) as [->|Hne].
    + rewrite lookup_insert_eq.
      rewrite (decide_True (P := k ∈ k :: ks)) by (by left).
      by destruct (decide (k ∈ ks)).
    + rewrite lookup_insert_ne by done.
      destruct (decide (p ∈ ks)) as [Hin|Hnin].
      * rewrite decide_True; [done | by right].
      * rewrite decide_False; [done|]. by intros [?|?]%elem_of_cons.
Qed.

Lemma elem_of_compute (k : string) (l : list string) :
  bool_decide (k ∈ l) = true → k ∈ l.
Proof. apply bool_decide_eq_true. Qed.

Lemma not_elem_of_compute (k : string) (l : list string) :
  bool_decide (k ∈ l) = false → k ∉ l.
Proof. apply bool_decide_eq_false. Qed.

Lemma load_required_lookup parameters self p :
  p ∈ required_for_test →
  load_required_for_test parameters self !! p = Some (default PNone (parameters !! p)).
Proof.
  intros Hp. unfold load_required_for_test.
  rewrite (foldl_insert_lookup (λ k, default PNone (parameters !! k))).
  by rewrite decide_True.
Qed.

Lemma load_required_lookup_other parameters self p :
  p ∉ required_for_test →
  load_required_for_test parameters self !! p = self !! p.
Proof.
  intros Hp. unfold load_required_for_test.
  rewrite (foldl_insert_lookup (λ k, default PNone (parameters !! k))).
  by rewrite decide_False.
Qed.

Section Construction.

Variable path_stem : string → string.
Variable path_parent : string → result string.
Variable path_name : string → string.
Variable path_str : list string → string.
Variable make_split_provider : string → pyval → result df_source.
Variable create_dataloader : gmap string pyval → df_source → string → result pyval.
Variable read_json : string → result (gmap string pyval).

Let Base := BaseModelParam_init path_stem.
Let Train := TrainModelParam_init path_stem path_str make_split_provider create_dataloader.
Let Test := TestModelParam_init path_stem path_parent path_name path_str
              make_split_provider create_dataloader read_json.

Lemma test_init_inv args test_splits likelihood_on self :
  Test args test_splits likelihood_on = Ok self →
  ∃ (dir csvpath : string) (task : pyval) (parameters : gmap string pyval)
    (df : df_source),
    read_json (path_str [dir; "parameters.json"]) = Ok parameters
    ∧ make_split_provider csvpath task = Ok df
    ∧ (∀ p, p ∈ required_for_test →
            self !! p = Some (default PNone (parameters !! p)))
    ∧ self !! "test_splits"
      = Some (PList (PStr <$> align_test_splits (split_unique df) test_splits)).
Proof.
  intros H. unfold Test, TestModelParam_init in H. inv_ok H.
  apply Ok_inj in H. subst self.
  match goal with
  | E : read_json (path_str [?d; _]) = Ok ?ps,
    E' : make_split_provider ?c ?t = Ok ?df |- _ =>
      exists d, c, t, ps, df; split; [exact E|]; split; [exact E'|]
  end.
  split.
  - intros p Hp.
    rewrite !lookup_insert_ne
      by (intros <-; revert Hp; apply not_elem_of_compute; reflexivity).
    by apply load_required_lookup.
  - rewrite lookup_insert_ne by done. rewrite lookup_insert_ne by done.
    by rewrite lookup_insert_eq.
Qed.

Lemma base_init_docs args p :
  args !! "csvpath" = Some (PStr p) →
  (¬ Re.contains "/docs" p → Base args = Raise IndexError)
  ∧ (Re.contains "/docs" p →
     ∃ pre d post, p = pre +:+ d +:+ "/docs" +:+ post
       ∧ Base args = Ok (<["_csv_name" := PStr (path_stem p)]>
                           (<["_dataset_dir" := PStr d]> args))).
Proof.
  intros Hp. unfold Base, BaseModelParam_init, getattr. rewrite Hp.
  cbv beta delta [mbind result_bind] iota zeta. split.
  - intros Hn. apply findall_empty_iff in Hn; [|done]. by rewrite Hn.
  - intros Hc. apply (contains_findall "/docs" p) in Hc; [|done].
    destruct (Re.findall "/docs" p) as [|d rest] eqn:He; [done|].
    apply findall_from_head in He as (pre & post & ->).
    by exists pre, d, post.
Qed.

Lemma save_parameter_inv dataset_scaler self saved :
  save_parameter path_str dataset_scaler self = Ok saved →
  saved = filter (λ kv, kv.1 ∉ no_save) self
  ∨ ∃ sp, saved = <["scaler_path" := PStr sp]> (filter (λ kv, kv.1 ∉ no_save) self).
Proof.
  intros H. unfold save_parameter in H. inv_ok H.
  destruct (dataset_scaler _); inv_ok H; injection H as <-;
    match goal with E : Ok _ = Ok _ |- _ => injection E as <- end; eauto.
Qed.

(** C9: configuration construction needs [/docs] in the CSV path.  For
    options whose [csvpath] is the string [p]: the base constructor returns
    an object iff [p] contains [/docs]; when [p] does not contain it the
    base, training and test constructors all raise [IndexError]; and the
    dataset root of a constructed object is the text the pattern matched
    before a [/docs] of [p]. *)
Theorem csvpath_requires_docs args p :
  args !! "csvpath" = Some (PStr p) →
  (Re.contains "/docs" p ↔ is_ok (Base args) = true)
  ∧ (¬ Re.contains "/docs" p →
     Base args = Raise IndexError
     ∧ Train args = Raise IndexError
     ∧ ∀ test_splits likelihood_on,
         Test args test_splits likelihood_on = Raise IndexError)
  ∧ (∀ self, Base args = Ok self →
     ∃ pre d post, p = pre +:+ d +:+ "/docs" +:+ post
                   ∧ self !! "_dataset_dir" = Some (PStr d)).
Proof.
  intros Hp. destruct (base_init_docs args p Hp) as [Hno Hyes].
  split; [|split].
  - split.
    + intros Hc. destruct (Hyes Hc) as (pre & d & post & _ & ->). done.
    + intros Hok. destruct (Re.findall "/docs" p) as [|d rest] eqn:He.
      * apply findall_empty_iff in He; [|done]. by rewrite (Hno He) in Hok.
      * apply (findall_from_contains "/docs" 0 p). unfold Re.findall in He.
        by rewrite He.
  - intros Hn. specialize (Hno Hn). split; [done|]. split.
    + unfold Train, TrainModelParam_init. fold Base. by rewrite Hno.
    + intros ts lo. unfold Test, TestModelParam_init. fold Base. by rewrite Hno.
  - intros self Hs.
    assert (Hc : Re.contains "/docs" p).
    { destruct (Re.findall "/docs" p) as [|d rest] eqn:He.
      - apply findall_empty_iff in He; [|done]. by rewrite (Hno He) in Hs.
      - apply (findall_from_contains "/docs" 0 p). unfold Re.findall in He.
        by rewrite He. }
    destruct (Hyes Hc) as (pre & d & post & Heq & Hb).
    rewrite Hb in Hs. injection Hs as <-. exists pre, d, post. split; [done|].
    rewrite lookup_insert_ne by done. by rewrite lookup_insert_eq.
Qed.

(** C2: the splits to be tested follow the subset rule.  When the splits
    of the data source are a proper subset of the requested ones they are
    used; otherwise the requested ones are used, in particular when they
    are a proper subset of the available ones; and every object the test
    constructor returns holds the splits so aligned.  Requested
    train, val, test against available test gives test; requested val,
    test against available train, val, test gives val, test. *)
Theorem test_splits_subset_rule :
  (∀ available requested : list string,
     ((list_to_set available : gset string) ⊂ list_to_set requested →
        align_test_splits available requested = available)
     ∧ ((list_to_set requested : gset string) ⊂ list_to_set available →
        align_test_splits available requested = requested)
     ∧ (¬ (list_to_set available : gset string) ⊂ list_to_set requested →
        align_test_splits available requested = requested))
  ∧ (∀ args requested likelihood_on self,
       Test args requested likelihood_on = Ok self →
       ∃ csvpath task df,
         make_split_provider csvpath task = Ok df
         ∧ self !! "test_splits"
           = Some (PList (PStr <$> align_test_splits (split_unique df) requested)))
  ∧ align_test_splits ["test"] ["train"; "val"; "test"] = ["test"]
  ∧ align_test_splits ["train"; "val"; "test"] ["val"; "test"] = ["val"; "test"].
Proof.
  split; [|split; [|split; reflexivity]].
  - intros available requested. unfold align_test_splits, set_lt.
    split; [|split].
    + intros H. by rewrite bool_decide_eq_true_2.
    + intros H. rewrite bool_decide_eq_false_2; [by destruct (bool_decide _)|].
      intros [H1 H2]. destruct H as [H3 H4]. done.
    + intros H. rewrite bool_decide_eq_false_2 by done.
      by destruct (bool_decide _).
  - intros args requested lo self H.
    destruct (test_init_inv _ _ _ _ H) as (dir & csvpath & task & ps & df & _ & Hdf & _ & Hts).
    by exists csvpath, task, df.
Qed.

Lemma create_dataloaders_returns self df splits acc :
  (∀ s split, is_ok (create_dataloader s df split) = true) →
  is_ok (create_dataloaders create_dataloader self df splits acc) = true.
Proof.
  intros Hdl. revert acc. induction splits as [|split rest IH]; intros acc; [done|].
  cbn [create_dataloaders]. specialize (Hdl self split).
  destruct (create_dataloader self df split); [|done].
  cbv beta delta [mbind result_bind] iota. apply IH.
Qed.

(** C3, amended: the test constructor takes each of its required fields
    from the persisted parameters, whatever the caller passed for it, and
    gives the field the value [None] when the persisted parameters lack
    it, without a check.  On options with a CSV path under [/docs] and a
    weight directory, a parameter file that lacks [gpu_ids] makes the
    constructor raise [TypeError] where it takes the first of the GPU
    indices; with a usable [gpu_ids] the constructor returns as soon as the
    split provider and the factory of the data loaders return, whichever
    other required fields the file lacks. *)
Theorem test_required_fields_from_file args test_splits likelihood_on :
  (∀ self,
     Test args test_splits likelihood_on = Ok self →
     ∃ (dir : string) (parameters : gmap string pyval),
       read_json (path_str [dir; "parameters.json"]) = Ok parameters
       ∧ ∀ p, p ∈ required_for_test →
           (∀ v, parameters !! p = Some v → self !! p = Some v)
           ∧ (parameters !! p = None → self !! p = Some PNone))
  ∧ (∀ csvpath weight_dir dir parameters df,
       args !! "csvpath" = Some (PStr csvpath) →
       Re.contains "/docs" csvpath →
       args !! "weight_dir" = Some (PStr weight_dir) →
       path_parent weight_dir = Ok dir →
       read_json (path_str [dir; "parameters.json"]) = Ok parameters →
       make_split_provider csvpath (default PNone (parameters !! "task")) = Ok df →
       (parameters !! "gpu_ids" = None →
        Test args test_splits likelihood_on = Raise TypeError)
       ∧ (∀ dev,
            resolve_device (default PNone (parameters !! "gpu_ids")) = Ok dev →
            (∀ s split, is_ok (create_dataloader s df split) = true) →
            ∃ self,
              Test args test_splits likelihood_on = Ok self
              ∧ ∀ p, p ∈ required_for_test →
                  self !! p = Some (default PNone (parameters !! p)))).
Proof.
  split.
  - intros self H.
    destruct (test_init_inv _ _ _ _ H)
      as (dir & csvpath & task & ps & df & Hps & _ & Hreq & _).
    exists dir, ps. split; [done|]. intros p Hp. rewrite (Hreq p Hp).
    split; [intros v -> | intros ->]; done.
  - intros csvpath weight_dir dir parameters df Hcsv Hdocs Hwd Hpar Hread Hsp.
    destruct (base_init_docs args csvpath Hcsv) as [_ Hyes].
    destruct (Hyes Hdocs) as (pre & d & post & _ & Hbase). clear Hyes.
    set (self0 := <["_csv_name" := PStr (path_stem csvpath)]>
                    (<["_dataset_dir" := PStr d]> args)) in *.
    assert (H0 : ∀ k, k ≠ "_csv_name" → k ≠ "_dataset_dir" → self0 !! k = args !! k).
    { intros k H1 H2. unfold self0. by rewrite !lookup_insert_ne. }
    set (self1 := <["pretrained" := PBool false]>
                    (<["sampler" := PStr "no"]>
                       (<["augmentation" := PStr "no"]>
                          (load_required_for_test parameters self0)))).
    assert (H1 : ∀ k, k ∉ required_for_test → k ≠ "pretrained" → k ≠ "sampler" →
                      k ≠ "augmentation" → self1 !! k = self0 !! k).
    { intros k Hk Ha Hb Hc. unfold self1. rewrite !lookup_insert_ne by done.
      by apply load_required_lookup_other. }
    assert (H1r : ∀ k, k ∈ required_for_test →
                       self1 !! k = Some (default PNone (parameters !! k))).
    { intros k Hk. unfold self1.
      rewrite !lookup_insert_ne
        by (intros <-; revert Hk; apply not_elem_of_compute; reflexivity).
      by apply load_required_lookup. }
    assert (Hhead : Test args test_splits likelihood_on
              = (gpu_ids ← getattr self1 "gpu_ids";
                 dev ← resolve_device gpu_ids;
                 let self := <["device" := PDevice dev]> self1 in
                 _save_datetime_dir ← results_dir path_str self (path_name dir);
                 let self := <["save_datetime_dir" := PStr _save_datetime_dir]> self in
                 let self := <["test_splits" :=
                                 PList (PStr <$> align_test_splits (split_unique df)
                                                   test_splits)]> self in
                 dls ← create_dataloaders create_dataloader self df
                         (align_test_splits (split_unique df) test_splits) [];
                 let self := <["dataloaders" := PDict dls]> self in
                 Ok (<["likelihood_on" := PBool likelihood_on]> self))).
    { unfold Test, TestModelParam_init. fold Base. rewrite Hbase. fold self0.
      cbv beta delta [mbind result_bind] iota.
      unfold getattr at 1. rewrite H0, Hwd by done. cbn [str_arg].
      cbv beta iota. rewrite Hpar. cbv beta iota. rewrite Hread.
      cbv beta iota zeta. fold self1.
      unfold getattr at 1.
      rewrite H1, H0, Hcsv
        by (try done; apply not_elem_of_compute; reflexivity).
      cbn [str_arg]. cbv beta iota.
      unfold getattr at 1.
      rewrite H1r by (apply elem_of_compute; reflexivity).
      cbv beta iota. rewrite Hsp. reflexivity. }
    assert (Hg : getattr self1 "gpu_ids" = Ok (default PNone (parameters !! "gpu_ids"))).
    { unfold getattr. by rewrite H1r by (apply elem_of_compute; reflexivity). }
    rewrite Hhead, Hg. clear Hhead.
    cbv beta delta [mbind result_bind] iota. split.
    + intros ->. reflexivity.
    + intros dev Hdev Hdl. rewrite Hdev. cbv beta iota zeta.
      unfold results_dir, getattr.
      rewrite !(lookup_insert_ne _ "device") by done.
      rewrite !H1 by (try done; apply not_elem_of_compute; reflexivity).
      assert (Hd : self0 !! "_dataset_dir" = Some (PStr d)).
      { unfold self0. rewrite lookup_insert_ne by done. apply lookup_insert_eq. }
      assert (Hn : self0 !! "_csv_name" = Some (PStr (path_stem csvpath)))
        by apply lookup_insert_eq.
      rewrite Hd, Hn.
      cbv beta delta [mbind result_bind str_arg] iota.
      match goal with
      | |- context [create_dataloaders create_dataloader ?s df ?sp []] =>
          pose proof (create_dataloaders_returns s df sp [] Hdl) as Hok;
          destruct (create_dataloaders create_dataloader s df sp []) as [dls|];
          [|discriminate Hok]
      end.
      eexists. split; [reflexivity|]. intros p Hp.
      rewrite !lookup_insert_ne
        by (intros <-; revert Hp; apply not_elem_of_compute; reflexivity).
      by apply H1r.
Qed.

(** C7, amended: the dictionary written to the parameter file holds every
    attribute of the object with its value, but for the data loaders, the
    device and [save_datetime_dir], which it lacks.  The attributes
    [isTrain] and [datetime] are written too: the list of the names to
    leave out runs them together into one name, which is left out in their
    place.  The entry [scaler_path] is the path of the scaler file in the
    run directory when the training data set has a scaler, and the
    attribute of the object otherwise. *)
Theorem saved_parameters_contents dataset_scaler self saved :
  save_parameter path_str dataset_scaler self = Ok saved →
  saved !! "dataloaders" = None
  ∧ saved !! "device" = None
  ∧ saved !! "save_datetime_dir" = None
  ∧ saved !! "isTrain" = self !! "isTrain"
  ∧ saved !! "datetime" = self !! "datetime"
  ∧ saved !! "isTraindatetime" = None
  ∧ (∀ k, k ∉ ["dataloaders"; "device"; "save_datetime_dir";
               "isTraindatetime"; "scaler_path"] →
          saved !! k = self !! k)
  ∧ ∃ loaders train_loader dir,
      self !! "dataloaders" = Some (PDict loaders)
      ∧ dict_get "train" loaders = Some train_loader
      ∧ self !! "save_datetime_dir" = Some (PStr dir)
      ∧ saved !! "scaler_path"
        = match dataset_scaler train_loader with
          | Some _ => Some (PStr (path_str [dir; "scaler.pkl"]))
          | None => self !! "scaler_path"
          end.
Proof.
  intros H.
  assert (Hf : ∀ k, k ≠ "scaler_path" →
            saved !! k = filter (λ kv, kv.1 ∉ no_save) self !! k).
  { intros k Hk. destruct (save_parameter_inv _ _ _ H) as [->|[sp ->]]; [done|].
    by rewrite lookup_insert_ne. }
  assert (Hno : ∀ k, k ∈ no_save →
            filter (λ kv : string * pyval, kv.1 ∉ no_save) self !! k = None).
  { intros k Hk. apply map_lookup_filter_None. right. intros v _ Hn. by apply Hn. }
  assert (Hkeep : ∀ k, k ∉ no_save →
            filter (λ kv : string * pyval, kv.1 ∉ no_save) self !! k = self !! k).
  { intros k Hn. destruct (self !! k) as [v|] eqn:Hv.
    - by apply map_lookup_filter_Some.
    - apply map_lookup_filter_None. by left. }
  split; [rewrite Hf by done; apply Hno; by apply elem_of_compute|].
  split; [rewrite Hf by done; apply Hno; by apply elem_of_compute|].
  split; [rewrite Hf by done; apply Hno; by apply elem_of_compute|].
  split; [rewrite Hf by done; apply Hkeep; by apply not_elem_of_compute|].
  split; [rewrite Hf by done; apply Hkeep; by apply not_elem_of_compute|].
  split; [rewrite Hf by done; apply Hno; by apply elem_of_compute|].
  split.
  - intros k Hk.
    rewrite Hf by (intros ->; apply Hk; by apply elem_of_compute).
    apply Hkeep. intros Hin. apply Hk. unfold no_save in Hin.
    repeat (apply elem_of_cons in Hin as [->|Hin];
            [by apply elem_of_compute|]).
    by apply elem_of_nil in Hin.
  - clear Hf. unfold save_parameter in H.
    cbv beta delta [mbind result_bind] iota zeta in H.
    destruct (getattr self "dataloaders") as [dls|] eqn:Edl; [|done].
    apply getattr_Ok in Edl.
    destruct dls as [| | | | |loaders| |]; try done.
    destruct (dict_get "train" loaders) as [train_loader|] eqn:Etr; [|done].
    destruct (dataset_scaler train_loader) as [sc|] eqn:Esc.
    + destruct (getattr self "save_datetime_dir") as [vd|] eqn:Ed; [|done].
      apply getattr_Ok in Ed. destruct vd as [| | |dir| | | |]; try done.
      cbn [str_arg] in H. apply Ok_inj in H. subst saved.
      exists loaders, train_loader, dir. rewrite Esc.
      split; [done|]. split; [done|]. split; [done|]. apply lookup_insert_eq.
    + destruct (getattr self "save_datetime_dir") as [vd|] eqn:Ed; [|done].
      apply getattr_Ok in Ed. destruct vd as [| | |dir| | | |]; try done.
      cbn [str_arg] in H. apply Ok_inj in H. subst saved.
      exists loaders, train_loader, dir. rewrite Esc.
      split; [done|]. split; [done|]. split; [done|].
      apply Hkeep. by apply not_elem_of_compute.
Qed.

End Construction.

Lemma is_ok_object {A} (r : result A) (d : A) :
  is_ok r = true → r = Ok (match r with Ok a => a | Raise _ => d end).
Proof. by destruct r. Qed.

Lemma demo_test_init :
  Demo.TestModelParam_init Demo.args ["train"; "val"; "test"] true
  = Ok Demo.test_object.
Proof. apply is_ok_object. vm_compute. reflexivity. Qed.

Lemma demo_train_init :
  Demo.TrainModelParam_init Demo.train_args = Ok Demo.train_object.
Proof. apply is_ok_object. vm_compute. reflexivity. Qed.

Lemma demo_save_parameter :
  Demo.save_parameter Demo.train_object = Ok Demo.saved_object.
Proof. apply is_ok_object. vm_compute. reflexivity. Qed.

Lemma csvpath_requires_docs_witness :
  ({[ "csvpath" := PStr "materials/trial.csv" ]} : gmap string pyval) !! "csvpath"
    = Some (PStr "materials/trial.csv")
  ∧ BaseModelParam_init Demo.path_stem {[ "csvpath" := PStr "materials/trial.csv" ]}
    = Raise IndexError.
Proof.
  assert (Hp : ({[ "csvpath" := PStr "materials/trial.csv" ]} : gmap string pyval)
                 !! "csvpath" = Some (PStr "materials/trial.csv"))
    by apply lookup_singleton_eq.
  split; [exact Hp|].
  refine (proj1 (proj1 (proj2 (csvpath_requires_docs
            Demo.path_stem Demo.path_parent Demo.path_name Demo.path_str
            Demo.make_split_provider Demo.create_dataloader Demo.read_json
            _ "materials/trial.csv" Hp)) _)).
  apply findall_empty_iff; [done | vm_compute; reflexivity].
Defined.

Lemma test_splits_subset_rule_witness :
  Demo.TestModelParam_init Demo.args ["train"; "val"; "test"] true
  = Ok Demo.test_object
  ∧ Demo.test_object !! "test_splits" = Some (PList [PStr "test"]).
Proof.
  split; [exact demo_test_init|].
  destruct (proj1 (proj2 (test_splits_subset_rule
              Demo.path_stem Demo.path_parent Demo.path_name Demo.path_str
              Demo.make_split_provider Demo.create_dataloader Demo.read_json))
            Demo.args ["train"; "val"; "test"] true Demo.test_object demo_test_init)
    as (csvpath & task & df & Hdf & Hts).
  apply Ok_inj in Hdf. subst df. exact Hts.
Defined.

Lemma test_required_fields_from_file_witness :
  Demo.args !! "csvpath" = Some (PStr "materials/docs/trial.csv")
  ∧ Re.contains "/docs" "materials/docs/trial.csv"
  ∧ Demo.args !! "weight_dir"
    = Some (PStr "materials/results/trial/sets/2023-01-01-00-00-00/weights")
  ∧ delete "gpu_ids" Demo.parameters !! "gpu_ids" = None
  ∧ Demo.TestModelParam_init_without "gpu_ids" Demo.args ["train"; "val"; "test"] true
    = Raise TypeError.
Proof.
  assert (H1 : Demo.args !! "csvpath" = Some (PStr "materials/docs/trial.csv"))
    by (vm_compute; reflexivity).
  assert (H2 : Re.contains "/docs" "materials/docs/trial.csv")
    by (exists "materials", "/trial.csv"; reflexivity).
  assert (H3 : Demo.args !! "weight_dir"
               = Some (PStr "materials/results/trial/sets/2023-01-01-00-00-00/weights"))
    by (vm_compute; reflexivity).
  assert (H4 : delete "gpu_ids" Demo.parameters !! "gpu_ids" = None)
    by apply lookup_delete_eq.
  split; [exact H1|]. split; [exact H2|]. split; [exact H3|]. split; [exact H4|].
  exact (proj1 (proj2 (test_required_fields_from_file
           Demo.path_stem Demo.path_parent Demo.path_name Demo.path_str
           Demo.make_split_provider Demo.create_dataloader
           (λ _, Ok (delete "gpu_ids" Demo.parameters))
           Demo.args ["train"; "val"; "test"] true)
         "materials/docs/trial.csv"
         "materials/results/trial/sets/2023-01-01-00-00-00/weights"
         "materials/results/trial/sets/2023-01-01-00-00-00"
         (delete "gpu_ids" Demo.parameters) Demo.df
         H1 H2 H3 eq_refl eq_refl eq_refl) H4).
Defined.

(** C3, as stated, fails: [model] is a required field, the persisted
    parameters of the run hold it, and on a parameter file that lacks it
    the test constructor (with a split provider and a factory of data
    loaders that return) raises nothing and returns an object whose [model]
    is [None]. *)
Lemma test_missing_field_not_fatal :
  "model" ∈ required_for_test
  ∧ Demo.parameters !! "model" = Some (PStr "ResNet18")
  ∧ delete "model" Demo.parameters !! "model" = None
  ∧ Demo.TestModelParam_init_without "model" Demo.args ["train"; "val"; "test"] true
    = Ok (Demo.test_object_without "model")
  ∧ Demo.test_object_without "model" !! "model" = Some PNone
  ∧ Demo.test_object_without "model" !! "task" = Some (PStr "classification").
Proof.
  split; [apply elem_of_compute; vm_compute; reflexivity|].
  split; [vm_compute; reflexivity|].
  split; [apply lookup_delete_eq|].
  split; [apply is_ok_object; vm_compute; reflexivity|].
  split; vm_compute; reflexivity.
Qed.

Lemma saved_parameters_contents_witness :
  Demo.save_parameter Demo.train_object = Ok Demo.saved_object
  ∧ Demo.saved_object !! "device" = None
  ∧ Demo.saved_object !! "isTrain" = Demo.train_object !! "isTrain"
  ∧ Demo.saved_object !! "task" = Demo.train_object !! "task".
Proof.
  split; [exact demo_save_parameter|].
  destruct (saved_parameters_contents Demo.path_str Demo.dataset_scaler
              _ _ demo_save_parameter) as (_ & Hdev & _ & Htrain & _ & _ & Hrest & _).
  split; [exact Hdev|]. split; [exact Htrain|]. apply Hrest.
  apply not_elem_of_compute. vm_compute. reflexivity.
Defined.

(** C7, as stated, fails: the object of the training run has the
    attribute [save_datetime_dir], which is neither the device nor the data
    loaders, and the dictionary written to the parameter file lacks it. *)
Lemma saved_parameters_omit_save_dir :
  Demo.TrainModelParam_init Demo.train_args = Ok Demo.train_object
  ∧ Demo.train_object !! "save_datetime_dir"
    = Some (PStr "materials/results/trial/sets/2023-01-01-00-00-00")
  ∧ Demo.save_parameter Demo.train_object = Ok Demo.saved_object
  ∧ Demo.saved_object !! "save_datetime_dir" = None
  ∧ Demo.saved_object !! "task" = Some (PStr "classification").
Proof.
  split; [exact demo_train_init|]. split; [vm_compute; reflexivity|].
  split; [exact demo_save_parameter|]. split; vm_compute; reflexivity.
Qed.

End ParamsFacts.

Section NetFacts.

Import Net.

Variable has_attribute : string → bool.

Lemma dict_set_fresh {A} (k : string) (v : A) (d : list (string * A)) :
  k ∉ d.*1 → dict_set k v d = (d ++ [(k, v)])%list.
Proof.
  induction d as [|[k' v'] d IH]; intros Hk; [done|].
  cbn [dict_set]. rewrite bool_decide_eq_false_2.
  - rewrite IH; [done|]. intros Hin. apply Hk. by right.
  - intros ->. apply Hk. by left.
Qed.

Lemma dict_fold_nodup {A B} (f : B → A) (items : list (string * B))
    (acc : list (string * A)) :
  NoDup (acc.*1 ++ items.*1) →
  foldl (λ classifiers item, dict_set item.1 (f item.2) classifiers) acc items
  = (acc ++ ((λ item, (item.1, f item.2)) <$> items))%list.
Proof.
  revert acc. induction items as [|[k n] items IH]; intros acc Hnd.
  - by rewrite app_nil_r.
  - cbn [foldl fmap list_fmap fst snd]. cbn [fmap list_fmap fst] in Hnd.
    apply NoDup_app in Hnd as (Hacc & Hdisj & Hitems).
    rewrite dict_set_fresh by (intros Hin; apply (Hdisj k Hin); by left).
    rewrite IH.
    + by rewrite <- app_assoc.
    + rewrite fmap_app. cbn [fmap list_fmap fst]. rewrite <- app_assoc.
      apply NoDup_app. split; [done|]. split; [|done].
      intros x Hx. by apply Hdisj.
Qed.

Lemma head_builder_out net_name head :
  head_builder net_name = Ok head →
  ∀ n, final_out_features (head n) = Some n.
Proof.
  intros H n. unfold head_builder in H.
  repeat match type of H with
         | (if ?b then _ else _) = Ok _ => destruct b
         end;
    inv_ok H; apply Ok_inj in H; by subst head.
Qed.

(** Every name of the catalogue, and the tabular network, has a head. *)
Lemma head_builder_catalogue net_name :
  net_name ∈ "MLP" :: net → is_ok (head_builder net_name) = true.
Proof.
  intros Hin. unfold net, cnn, vit in Hin. cbn [app] in Hin.
  repeat (apply elem_of_cons in Hin as [->|Hin]; [vm_compute; reflexivity|]).
  by apply elem_of_nil in Hin.
Qed.

Lemma add_module_fresh k m ms :
  module_name has_attribute k → k ∉ ms.*1 →
  add_module has_attribute k m ms = Ok (ms ++ [(k, m)])%list.
Proof.
  intros (Ha & Hd & He) Hk. unfold add_module. rewrite Ha, Hd. cbn [andb].
  rewrite bool_decide_eq_false_2 by done. by rewrite dict_set_fresh.
Qed.

Lemma add_module_inv k m ms ms' :
  add_module has_attribute k m ms = Ok ms' →
  ms' = dict_set k m ms ∧ has_dot k = false ∧ k ≠ ""
  ∧ (k ∉ ms.*1 → has_attribute k = false).
Proof.
  unfold add_module. intros H.
  destruct (has_attribute k && negb (bool_decide (k ∈ ms.*1))) eqn:E1; [done|].
  destruct (has_dot k) eqn:E2; [done|].
  case_bool_decide as E3; [done|]. apply Ok_inj in H.
  split; [done|]. split; [done|]. split; [done|].
  intros Hk. rewrite bool_decide_eq_false_2 in E1 by done.
  by destruct (has_attribute k).
Qed.

Lemma update_fresh (modules : list (string * module)) :
  ∀ ms, NoDup (ms.*1 ++ modules.*1) →
        (∀ k, k ∈ modules.*1 → module_name has_attribute k) →
        update has_attribute modules ms = Ok (ms ++ modules)%list.
Proof.
  induction modules as [|[k m] rest IH]; intros ms Hnd Hnames.
  - by rewrite app_nil_r.
  - cbn [update]. cbn [fmap list_fmap fst] in Hnd, Hnames.
    pose proof Hnd as Hnd'. apply NoDup_app in Hnd' as (_ & Hdisj & _).
    rewrite add_module_fresh;
      [|apply Hnames; by left|intros Hin; apply (Hdisj k Hin); by left].
    cbv beta delta [mbind result_bind] iota. rewrite IH.
    + by rewrite <- app_assoc.
    + rewrite fmap_app. cbn [fmap list_fmap fst]. by rewrite <- app_assoc.
    + intros k' Hk'. apply Hnames. by right.
Qed.

Lemma update_inv (modules : list (string * module)) :
  ∀ ms mc, NoDup (ms.*1 ++ modules.*1) →
           update has_attribute modules ms = Ok mc →
           mc = (ms ++ modules)%list ∧ ∀ k, k ∈ modules.*1 → module_name has_attribute k.
Proof.
  induction modules as [|[k m] rest IH]; intros ms mc Hnd H.
  - apply Ok_inj in H. rewrite app_nil_r. split; [done|].
    by intros k ?%elem_of_nil.
  - cbn [update] in H. cbn [fmap list_fmap fst] in Hnd.
    pose proof Hnd as Hnd'. apply NoDup_app in Hnd' as (_ & Hdisj & _).
    assert (Hk : k ∉ ms.*1) by (intros Hin; apply (Hdisj k Hin); by left).
    destruct (add_module has_attribute k m ms) as [ms'|] eqn:Ea; [|done].
    cbv beta delta [mbind result_bind] iota in H.
    apply add_module_inv in Ea as (-> & Hd & He & Ha).
    rewrite dict_set_fresh in H by done.
    apply IH in H as [-> Hrest].
    + split; [by rewrite <- app_assoc|].
      intros k' [->|Hk']%elem_of_cons; [|by apply Hrest].
      split; [by apply Ha|done].
    + rewrite fmap_app. cbn [fmap list_fmap fst]. by rewrite <- app_assoc.
Qed.

(** C6: one head per label, sized to the label.  For a dictionary of
    labels (its keys distinct): every classifier the factory returns, for
    any network name, has the labels of the dictionary as its keys, in
    order, the final linear layer of the head of a label having as many
    outputs as the label has classes; for the tabular network and for every
    name of the catalogue the factory does return such a classifier when
    each label is a name a module dictionary takes; and for the labels A
    with 2 classes and B with 3 that is two heads with 2 and 3 outputs. *)
Theorem multi_classifier_heads net_name (labels : list (string * nat)) :
  NoDup labels.*1 →
  (∀ mc,
     construct_multi_classifier has_attribute net_name labels = Ok mc →
     length mc = length labels
     ∧ (λ kh, (kh.1, final_out_features kh.2)) <$> mc
       = (λ kn, (kn.1, Some kn.2)) <$> labels)
  ∧ (net_name ∈ "MLP" :: net →
     (∀ k, k ∈ labels.*1 →
           has_attribute k = false ∧ has_dot k = false ∧ k ≠ "") →
     ∃ mc,
       construct_multi_classifier has_attribute net_name labels = Ok mc
       ∧ length mc = length labels
       ∧ (λ kh, (kh.1, final_out_features kh.2)) <$> mc
         = (λ kn, (kn.1, Some kn.2)) <$> labels)
  ∧ (net_name ∈ "MLP" :: net →
     has_attribute "A" = false → has_attribute "B" = false →
     ∃ head_A head_B,
       construct_multi_classifier has_attribute net_name [("A", 2); ("B", 3)]%nat
       = Ok [("A", head_A); ("B", head_B)]
       ∧ final_out_features head_A = Some 2%nat
       ∧ final_out_features head_B = Some 3%nat).
Proof.
  intros Hnd.
  assert (Hshape : ∀ (ls : list (string * nat)) head,
            head_builder net_name = Ok head →
            length ((λ item : string * nat, (item.1, head item.2)) <$> ls) = length ls
            ∧ (λ kh, (kh.1, final_out_features kh.2))
                <$> ((λ item : string * nat, (item.1, head item.2)) <$> ls)
              = (λ kn, (kn.1, Some kn.2)) <$> ls).
  { intros ls head Hh. split; [by rewrite length_fmap|].
    rewrite <- list_fmap_compose. apply list_fmap_ext. intros i [k n] _.
    cbn. by erewrite head_builder_out. }
  assert (Hkeys : ∀ (ls : list (string * nat)) (head : nat → module),
            ((λ item : string * nat, (item.1, head item.2)) <$> ls).*1 = ls.*1).
  { intros ls head. rewrite <- list_fmap_compose. by apply list_fmap_ext. }
  assert (Hret : ∀ ls : list (string * nat), NoDup ls.*1 →
            net_name ∈ "MLP" :: net →
            (∀ k, k ∈ ls.*1 → module_name has_attribute k) →
            ∃ head, head_builder net_name = Ok head
                    ∧ construct_multi_classifier has_attribute net_name ls
                      = Ok ((λ item : string * nat, (item.1, head item.2)) <$> ls)).
  { intros ls Hls Hin Hnames. pose proof (head_builder_catalogue _ Hin) as Hok.
    unfold construct_multi_classifier.
    destruct (head_builder net_name) as [head|]; [|done].
    exists head. split; [done|].
    cbv beta delta [mbind result_bind] iota zeta.
    rewrite dict_fold_nodup by done. cbn [app]. unfold ModuleDict.
    rewrite update_fresh; [done| |].
    - cbn [fmap list_fmap app]. by rewrite Hkeys.
    - intros k. rewrite Hkeys. apply Hnames. }
  split; [|split].
  - intros mc H. unfold construct_multi_classifier in H.
    destruct (head_builder net_name) as [head|] eqn:Hh; [|done].
    cbv beta delta [mbind result_bind] iota zeta in H.
    rewrite dict_fold_nodup in H by done. cbn [app] in H. unfold ModuleDict in H.
    apply update_inv in H as [-> _].
    + cbn [app]. by apply Hshape.
    + cbn [fmap list_fmap app]. by rewrite Hkeys.
  - intros Hin Hnames. destruct (Hret labels Hnd Hin Hnames) as (head & Hh & ->).
    eexists. split; [reflexivity|]. by apply Hshape.
  - intros Hin HA HB.
    destruct (Hret [("A", 2); ("B", 3)]%nat) as (head & Hh & ->); [|done| |].
    + cbn. apply NoDup_cons. split; [|apply NoDup_singleton].
      by intros ?%list_elem_of_singleton.
    + intros k Hk. cbn in Hk.
      apply elem_of_cons in Hk as [->|Hk]; [by split|].
      apply list_elem_of_singleton in Hk as ->. by split.
    + eexists _, _. split; [reflexivity|].
      split; by erewrite head_builder_out.
Qed.

End NetFacts.

Lemma multi_classifier_heads_witness :
  NoDup [("label_A", 2%nat); ("label_B", 3%nat)].*1
  ∧ "B0" ∈ "MLP" :: Net.net
  ∧ Net.construct_multi_classifier Net.has_module_attribute "B0"
      [("label_A", 2%nat); ("label_B", 3%nat)]
    = Ok [("label_A", Net.Sequential [Net.Dropout (2 # 10) false; Net.Linear 1280 2]);
          ("label_B", Net.Sequential [Net.Dropout (2 # 10) false; Net.Linear 1280 3])].
Proof.
  assert (Hnd : NoDup [("label_A", 2%nat); ("label_B", 3%nat)].*1).
  { cbn. apply NoDup_cons. split; [|apply NoDup_singleton].
    by intros ?%list_elem_of_singleton. }
  assert (Hin : "B0" ∈ "MLP" :: Net.net) by (apply elem_of_compute; reflexivity).
  split; [exact Hnd|]. split; [exact Hin|].
  destruct (proj1 (proj2 (multi_classifier_heads Net.has_module_attribute "B0"
                            _ Hnd)) Hin) as (mc & Hmc & _).
  - intros k Hk. cbn in Hk.
    apply elem_of_cons in Hk as [->|Hk]; [by split|].
    apply list_elem_of_singleton in Hk as ->. by split.
  - rewrite Hmc. f_equal.
    assert (Hc : Net.construct_multi_classifier Net.has_module_attribute "B0"
                   [("label_A", 2%nat); ("label_B", 3%nat)]
                 = Ok [("label_A", Net.Sequential [Net.Dropout (2 # 10) false;
                                                    Net.Linear 1280 2]);
                       ("label_B", Net.Sequential [Net.Dropout (2 # 10) false;
                                                    Net.Linear 1280 3])])
      by (vm_compute; reflexivity).
    rewrite Hc in Hmc. by apply Ok_inj in Hmc.
Defined.

Section LossRegFacts.

Import LossReg.

Local Open Scope Q_scope.

Lemma Qltb_lt (x y : Q) : Qltb x y = true ↔ x < y.
Proof.
  unfold Qltb. rewrite negb_true_iff. split.
  - intros H. apply Qnot_le_lt. intros Hle.
    apply Qle_bool_iff in Hle. congruence.
  - intros H. destruct (Qle_bool y x) eqn:E; [|done].
    apply Qle_bool_iff in E. by apply Qlt_not_le in H.
Qed.

Lemma Qltb_ge (x y : Q) : Qltb x y = false ↔ y <= x.
Proof.
  unfold Qltb. rewrite negb_false_iff. apply Qle_bool_iff.
Qed.

Lemma finalize_epoch_val x v t : val (finalize_epoch x v t) = (val t ++ [v])%list.
Proof. done. Qed.

Lemma finalize_epoch_best x v t :
  best_epoch (finalize_epoch x v t) = best_epoch t
  ∧ best_val_loss (finalize_epoch x v t) = best_val_loss t.
Proof. done. Qed.

Lemma check_step x v t :
  track_inv t →
  let r := is_val_loss_updated (finalize_epoch x v t) in
  val r.2 = (val t ++ [v])%list
  ∧ track_inv r.2
  ∧ (r.1 = true ↔ ∀ j w, val t !! j = Some w → v < w)
  ∧ ∃ b, best_epoch r.2 = Some b ∧ (b <= length (val t))%nat.
Proof.
  intros Hinv. cbv zeta. unfold is_val_loss_updated.
  rewrite finalize_epoch_val, last_snoc.
  rewrite (proj2 (finalize_epoch_best x v t)).
  unfold track_inv in Hinv.
  destruct (best_epoch t) as [b|] eqn:Hb, (best_val_loss t) as [vb|] eqn:Hvb;
    try done.
  - destruct Hinv as (Hat & Hmin & Hfirst).
    assert (Hlt : (b < length (val t))%nat) by (by eapply lookup_lt_Some).
    destruct (Qltb v vb) eqn:Hcmp; cbn [fst snd val best_epoch best_val_loss].
    + apply Qltb_lt in Hcmp. rewrite ?finalize_epoch_val.
      split; [done|]. split; [|split].
      * unfold track_inv. cbn [best_epoch best_val_loss val].
        rewrite length_app. cbn [length].
        replace (length (val t) + 1 - 1)%nat with (length (val t)) by lia.
        split; [by rewrite lookup_app_r, Nat.sub_diag|]. split.
        -- intros j w Hj. apply lookup_app_Some in Hj as [Hj|[_ Hj]].
           ++ apply Qlt_le_weak. eapply Qlt_le_trans; [exact Hcmp|]. by eapply Hmin.
           ++ destruct (j - length (val t))%nat; [|done].
              injection Hj as <-. apply Qle_refl.
        -- intros j w Hjl Hj. rewrite lookup_app_l in Hj by done.
           eapply Qlt_le_trans; [exact Hcmp|]. by eapply Hmin.
      * split; [|done]. intros _ j w Hj.
        eapply Qlt_le_trans; [exact Hcmp|]. by eapply Hmin.
      * exists (length (val t ++ [v]) - 1)%nat. split; [done|].
        rewrite length_app. cbn [length]. lia.
    + apply Qltb_ge in Hcmp. rewrite ?finalize_epoch_val.
      split; [done|]. split; [|split].
      * unfold track_inv. rewrite (proj1 (finalize_epoch_best x v t)), Hb.
        rewrite (proj2 (finalize_epoch_best x v t)), Hvb.
        rewrite ?finalize_epoch_val.
        split; [by apply lookup_app_l_Some|]. split.
        -- intros j w Hj. apply lookup_app_Some in Hj as [Hj|[_ Hj]].
           ++ by eapply Hmin.
           ++ destruct (j - length (val t))%nat; [|done]. by injection Hj as <-.
        -- intros j w Hjl Hj. rewrite lookup_app_l in Hj by lia.
           by eapply Hfirst.
      * split; [done|]. intros Hall. specialize (Hall b vb Hat).
        apply Qlt_not_le in Hall. done.
      * exists b. rewrite (proj1 (finalize_epoch_best x v t)). split; [done | lia].
  - cbn [fst snd val best_epoch best_val_loss]. rewrite ?finalize_epoch_val.
    rewrite Hinv. cbn [app length].
    split; [done|]. split; [|split].
    + unfold track_inv. cbn [best_epoch best_val_loss val].
      split; [done|]. split.
      * intros [|j] w Hj; [|done]. injection Hj as <-. apply Qle_refl.
      * intros j w Hj. lia.
    + split; [|done]. intros _ j w Hj. done.
    + exists 0%nat. split; [done | lia].
Qed.

Lemma track_inv_init : track_inv init.
Proof. done. Qed.

Lemma check_epochs_spec (losses : list (Q * Q)) :
  ∀ t, track_inv t →
  ∀ i v, losses.*2 !! i = Some v →
    let all := (val t ++ losses.*2)%list in
    let e := (length (val t) + i)%nat in
    ∃ b best vb,
      check_epochs losses t !! i = Some (b, Some best)
      ∧ (b = true ↔ ∀ j w, (j < e)%nat → all !! j = Some w → v < w)
      ∧ (best <= e)%nat
      ∧ all !! best = Some vb
      ∧ (∀ j w, (j <= e)%nat → all !! j = Some w → vb <= w)
      ∧ (∀ j w, (j < best)%nat → all !! j = Some w → vb < w).
Proof.
  induction losses as [|[x v0] rest IH]; intros t Hinv i v Hi; [done|].
  cbn [fmap list_fmap snd] in *. cbv zeta.
  destruct (check_step x v0 t Hinv) as (Hval & Hinv' & Hupd & b0 & Hb0 & Hle).
  cbn [check_epochs].
  destruct (is_val_loss_updated (finalize_epoch x v0 t)) as [u t'] eqn:Hstep.
  cbn [fst snd] in *.
  destruct i as [|i].
  - injection Hi as <-. rewrite Nat.add_0_r.
    unfold track_inv in Hinv'. rewrite Hb0 in Hinv'.
    destruct (best_val_loss t') as [vb|]; [|done].
    destruct Hinv' as (Hat & Hmin & Hfirst). rewrite Hval in Hat, Hmin, Hfirst.
    assert (Hpre : ∀ j, (j <= length (val t))%nat →
              (val t ++ v0 :: rest.*2)%list !! j = (val t ++ [v0])%list !! j).
    { intros j Hj. destruct (decide (j < length (val t))%nat).
      - by rewrite !lookup_app_l.
      - rewrite !lookup_app_r by lia.
        by replace (j - length (val t))%nat with 0%nat by lia. }
    exists u, b0, vb. cbn [lookup list_lookup]. rewrite Hb0.
    split; [done|]. split; [|split; [done|split; [|split]]].
    + rewrite Hupd. split.
      * intros H j w Hj Hw. rewrite lookup_app_l in Hw by done. by eapply H.
      * intros H j w Hw. apply (H j w); [by eapply lookup_lt_Some|].
        by apply lookup_app_l_Some.
    + by rewrite Hpre.
    + intros j w Hj Hw. rewrite Hpre in Hw by done. by eapply Hmin.
    + intros j w Hj Hw. rewrite Hpre in Hw by lia. by eapply Hfirst.
  - cbn [lookup list_lookup] in Hi |- *.
    destruct (IH t' Hinv' i v Hi) as (b & best & vb & H1 & H2 & H3 & H4 & H5 & H6).
    rewrite Hval in H2, H3, H4, H5, H6.
    rewrite length_app in H2, H3, H5. cbn [length] in H2, H3, H5.
    rewrite <- app_assoc in H2, H4, H5, H6. cbn [app] in H2, H4, H5, H6.
    replace (length (val t) + 1 + i)%nat with (length (val t) + S i)%nat
      in H2, H3, H5 by lia.
    by exists b, best, vb.
Qed.

(** C4: the check after an epoch answers true iff the validation total of
    the epoch is strictly less than that of every prior epoch (true on the
    first epoch), and the best epoch it leaves is the first epoch whose
    validation total is the minimum so far; the validation totals 0.9, 0.7,
    0.7, 0.5 leave the best epochs 0, 1, 1, 3. *)
Theorem best_epoch_is_first_minimum (losses : list (Q * Q)) (e : nat) (v : Q) :
  losses.*2 !! e = Some v →
  (∃ b best vb,
     check_epochs losses init !! e = Some (b, Some best)
     ∧ (b = true ↔ ∀ j w, (j < e)%nat → losses.*2 !! j = Some w → v < w)
     ∧ (best <= e)%nat
     ∧ losses.*2 !! best = Some vb
     ∧ (∀ j w, (j <= e)%nat → losses.*2 !! j = Some w → vb <= w)
     ∧ (∀ j w, (j < best)%nat → losses.*2 !! j = Some w → vb < w))
  ∧ check_epochs [(1, 9 # 10); (1, 7 # 10); (1, 7 # 10); (1, 5 # 10)] init
    = [(true, Some 0%nat); (true, Some 1%nat); (false, Some 1%nat); (true, Some 3%nat)].
Proof.
  intros He. split; [|reflexivity].
  exact (check_epochs_spec losses init track_inv_init e v He).
Qed.

Lemma best_epoch_is_first_minimum_witness :
  [(1, 9 # 10); (1, 7 # 10); (1, 7 # 10); (1, 5 # 10)].*2 !! 2%nat = Some (7 # 10)
  ∧ check_epochs [(1, 9 # 10); (1, 7 # 10); (1, 7 # 10); (1, 5 # 10)] init !! 2%nat
    = Some (false, Some 1%nat).
Proof.
  split; [reflexivity|].
  destruct (proj1 (best_epoch_is_first_minimum
              [(1, 9 # 10); (1, 7 # 10); (1, 7 # 10); (1, 5 # 10)] 2 (7 # 10) eq_refl))
    as (b & best & vb & H & _).
  reflexivity.
Defined.

End LossRegFacts.

Section ModelFacts.

Import Model.

Context {W T : Type}.

Abbreviation model := (@Model.model W T).

Lemma save_path_parts (m : model) :
  save_path m = [save_datetime_dir m; "weights"; save_name m]
  ∧ save_path_as_best m = [save_datetime_dir m; "weights"; save_name_as_best m]
  ∧ save_dir m = [save_datetime_dir m; "weights"].
Proof. done. Qed.

Lemma save_names_differ (m : model) : save_name m ≠ save_name_as_best m.
Proof.
  unfold save_name, save_name_as_best. intros H.
  apply (inj (String.app _)) in H. apply (inj (String.app _)) in H.
  discriminate H.
Qed.

Lemma save_paths_differ (m : model) : save_path m ≠ save_path_as_best m.
Proof.
  destruct (save_path_parts m) as (-> & -> & _). intros H.
  apply (save_names_differ m). congruence.
Qed.

Lemma save_path_same_epoch (m m' : model) :
  save_datetime_dir m' = save_datetime_dir m →
  acting_best_epoch m' = acting_best_epoch m →
  save_dir m' = save_dir m
  ∧ save_path m' = save_path m
  ∧ save_path_as_best m' = save_path_as_best m.
Proof.
  intros Hd He.
  unfold save_path, save_path_as_best, save_dir, save_name, save_name_as_best.
  by rewrite Hd, He.
Qed.

(** Saving as not best writes the file of the epoch and nothing else. *)
Lemma save_weight_not_best (m : model) (w0 : world W) :
  files w0 !! save_dir m = None →
  save_weight m (Some false) w0
  = (Ok (), {| files := <[save_path m := acting_best_weight m]> (files w0);
               dirs := {[save_dir m]} ∪ dirs w0;
               log := log w0 ++ [TorchSave (save_path m)] |}).
Proof.
  intros Hd. unfold save_weight, io_bind, mkdir. rewrite Hd.
  unfold torch_save. cbn [dirs files log].
  rewrite bool_decide_eq_true_2; [done|].
  destruct (save_path_parts m) as (-> & _ & ->). cbn [removelast].
  apply elem_of_union_l. by apply elem_of_singleton.
Qed.

(** C1: saving the weight of an epoch as best after it was saved as not
    best leaves one weight file for the epoch.  When no regular file sits
    at the path of the weight directory, the two calls return; afterwards
    the file of the epoch without the suffix is gone and the file with the
    suffix holds what the first call wrote, whatever weight the model holds
    at the second call; every other file is as before; and the log of the
    two calls has one [torch.save] and one rename. *)
Theorem best_save_renames (m m' : model) (w0 : world W) :
  save_datetime_dir m' = save_datetime_dir m →
  acting_best_epoch m' = acting_best_epoch m →
  files w0 !! save_dir m = None →
  ∃ w1 w2,
    save_weight m (Some false) w0 = (Ok (), w1)
    ∧ save_weight m' (Some true) w1 = (Ok (), w2)
    ∧ files w2 !! save_path m = None
    ∧ files w2 !! save_path_as_best m = Some (acting_best_weight m)
    ∧ (∀ p, p ≠ save_path m → p ≠ save_path_as_best m →
            files w2 !! p = files w0 !! p)
    ∧ log w2 = (log w0 ++ [TorchSave (save_path m);
                           Rename (save_path m) (save_path_as_best m)])%list.
Proof.
  intros Hdir Hep Hfree.
  destruct (save_path_same_epoch m m' Hdir Hep) as (Hsd & Hsp & Hsb).
  eexists _, _. split; [by apply save_weight_not_best|].
  unfold save_weight, io_bind, mkdir, path_exists, rename.
  rewrite Hsd, Hsp, Hsb. cbn [files dirs log].
  assert (Hne : save_path m ≠ save_dir m).
  { destruct (save_path_parts m) as (-> & _ & ->). done. }
  rewrite lookup_insert_ne, Hfree by done.
  cbn [files dirs log]. rewrite lookup_insert_eq.
  rewrite bool_decide_eq_true_2 by done. cbn [orb files dirs log].
  rewrite lookup_insert_eq. split; [done|]. cbn [files log].
  pose proof (save_paths_differ m) as Hdiff.
  split; [|split; [|split]].
  - rewrite lookup_insert_ne by done. by rewrite lookup_delete_eq.
  - by rewrite lookup_insert_eq.
  - intros p Hp1 Hp2. rewrite lookup_insert_ne by done.
    rewrite lookup_delete_ne by done. by rewrite lookup_insert_ne.
  - by rewrite <- app_assoc.
Qed.

End ModelFacts.

Lemma best_save_renames_witness :
  let m := DemoRun.new_model Model.CVModel [] Cpu in
  Model.save_datetime_dir m = Model.save_datetime_dir m
  ∧ Model.acting_best_epoch m = Model.acting_best_epoch m
  ∧ Model.files DemoRun.empty_world !! Model.save_dir m = None
  ∧ ∃ w1 w2,
      Model.save_weight m (Some false) DemoRun.empty_world = (Ok (), w1)
      ∧ Model.save_weight m (Some true) w1 = (Ok (), w2)
      ∧ Model.files w2 !! Model.save_path m = None.
Proof.
  intros m. split; [reflexivity|]. split; [reflexivity|].
  split; [apply lookup_empty|].
  destruct (best_save_renames m m DemoRun.empty_world eq_refl eq_refl
              (lookup_empty _)) as (w1 & w2 & H1 & H2 & H3 & _).
  by exists w1, w2.
Defined.

(** C5 fails on the code: [MLPModel.forward] on a model whose device is
    the first GPU, after [set_data] of a batch that is on the CPU, calls
    the network on the tensor that is still on the CPU; the tensor it moved
    to the GPU is left in the attribute [input].  [MLPDeepSurv.forward] on
    the same batch calls the network on the moved tensor. *)
Theorem mlp_forward_calls_network_on_unmoved_inputs :
  let x := Model.data_inputs DemoRun.cpu_batch in
  let m := Model.set_data DemoRun.cpu_batch
             (DemoRun.new_model Model.MLPModel [0%Z] (Cuda 0)) in
  let m_surv := Model.set_data DemoRun.cpu_batch
                  (DemoRun.new_model Model.MLPDeepSurv [0%Z] (Cuda 0)) in
  Model.on x = Cpu
  ∧ Model.dev m = Cuda 0
  ∧ (∃ m', Model.forward DemoRun.net_forward m = Ok (m', [x])
           ∧ Model.input (Model.attrs m') = Some (Model.to x (Cuda 0))
           ∧ Model.inputs (Model.attrs m') = Some x)
  ∧ (∃ m', Model.forward DemoRun.net_forward m_surv
           = Ok (m', [Model.to x (Cuda 0)])).
Proof.
  cbv zeta. split; [reflexivity|]. split; [reflexivity|].
  split; eexists; repeat split; reflexivity.
Qed.

(** C8 fails on the code: with one GPU and two weight files, the loop of
    [test.py] loads the first file into the plain network and replicates
    it, and then applies [load_state_dict] of the second file to the
    replicated network, which rejects the keys. *)
Theorem second_load_weight_meets_replicated_network :
  let p1 := (DemoRun.weights_dir ++ ["weight_epoch-001.pt"])%list in
  let p2 := (DemoRun.weights_dir ++ ["weight_epoch-003_best.pt"])%list in
  let m := DemoRun.new_model Model.CVModel [0%Z] (Cuda 0) in
  ∃ w',
    Driver.test_main true DemoRun.strip_module_prefix [p1; p2] m DemoRun.two_weights
    = (Raise RuntimeError, w')
    ∧ Model.log w'
      = [Model.TorchLoad p1; Model.LoadStateDict false;
         Model.NetworkTo (Cuda 0); Model.Replicate [0%Z];
         Model.TorchLoad p2; Model.LoadStateDict true].
Proof.
  cbv zeta. eexists. split; vm_compute; reflexivity.
Qed.

Section DriverFacts.

Import Model Driver.

Context {W T : Type}.
Variable add_module_prefix : W → W.

Abbreviation model := (@Model.model W T).

Lemma store_weight_keeps (m : model) :
  save_datetime_dir (store_weight add_module_prefix m) = save_datetime_dir m
  ∧ save_weight_policy (store_weight add_module_prefix m) = save_weight_policy m
  ∧ total_epoch_loss (store_weight add_module_prefix m) = total_epoch_loss m
  ∧ net (store_weight add_module_prefix m) = net m
  ∧ acting_best_epoch (store_weight add_module_prefix m)
    = LossReg.get_best_epoch (total_epoch_loss m)
  ∧ is_Some (acting_best_weight (store_weight add_module_prefix m)).
Proof.
  unfold store_weight. destruct (net m) eqn:E; cbn; rewrite ?E;
    repeat split; by eexists.
Qed.

(** C10: with the policy [each], an epoch whose validation total
    improved stores the weight in memory; at epoch 0 the files, the
    directories and the log of effects are as before, and at a later epoch
    (no regular file sitting at the path of the weight directory) the one
    effect is the [torch.save] of the stored weight to the file of the
    best epoch without the suffix. *)
Theorem improvement_written_only_after_first_epoch (m m1 : model)
    (w : world W) (epoch : nat) :
  save_weight_policy m = "each" →
  is_total_val_loss_updated m = (true, m1) →
  let stored := store_weight add_module_prefix m1 in
  is_Some (acting_best_weight stored)
  ∧ end_of_epoch add_module_prefix 0 m w = (Ok stored, w)
  ∧ (0 < epoch → files w !! save_dir stored = None →
     end_of_epoch add_module_prefix epoch m w
     = (Ok stored,
        {| files := <[save_path stored := acting_best_weight stored]> (files w);
           dirs := {[save_dir stored]} ∪ dirs w;
           log := log w ++ [TorchSave (save_path stored)] |})).
Proof.
  intros Hpol Hupd. cbv zeta.
  split; [apply store_weight_keeps|]. unfold end_of_epoch. rewrite Hupd.
  split; [done|]. intros Hep Hfree.
  assert (Hp : save_weight_policy (store_weight add_module_prefix m1) = "each").
  { rewrite (proj1 (proj2 (store_weight_keeps m1))).
    unfold is_total_val_loss_updated in Hupd.
    destruct (LossReg.is_val_loss_updated (total_epoch_loss m)).
    injection Hupd as _ <-. done. }
  rewrite Hp. rewrite bool_decide_eq_true_2 by done.
  rewrite bool_decide_eq_true_2 by done. cbn [andb].
  unfold io_bind. by rewrite save_weight_not_best.
Qed.

End DriverFacts.

Lemma improvement_written_only_after_first_epoch_witness :
  let o := {| Driver.train_total := 1; Driver.val_total := 9 # 10;
              Driver.trained := 5%nat |} in
  let m := Driver.run_phases o (DemoRun.new_model Model.CVModel [] Cpu) in
  let m1 := (Driver.is_total_val_loss_updated m).2 in
  Model.save_weight_policy m = "each"
  ∧ Driver.is_total_val_loss_updated m = (true, m1)
  ∧ Driver.end_of_epoch DemoRun.add_module_prefix 0 m DemoRun.empty_world
    = (Ok (Model.store_weight DemoRun.add_module_prefix m1), DemoRun.empty_world)
  ∧ Model.acting_best_weight (Model.store_weight DemoRun.add_module_prefix m1)
    = Some 5%nat.
Proof.
  intros o m m1.
  assert (H1 : Model.save_weight_policy m = "each") by reflexivity.
  assert (H2 : Driver.is_total_val_loss_updated m = (true, m1)) by reflexivity.
  split; [exact H1|]. split; [exact H2|]. split; [|reflexivity].
  exact (proj1 (proj2 (improvement_written_only_after_first_epoch
           DemoRun.add_module_prefix m m1 DemoRun.empty_world 0 H1 H2))).
Defined.

Section DatasetRoot.

Import Re Reload.

Lemma match_here_complete lit g post :
  one_line g = true → is_Some (match_here lit (g +:+ lit +:+ post)).
Proof.
  induction g as [|c g IH]; intros Hg.
  - apply match_here_prefix, prefix_spec. by exists post.
  - cbn [one_line] in Hg. apply andb_true_iff in Hg as [Hc Hg].
    apply negb_true_iff in Hc.
    change (String c g +:+ lit +:+ post) with (String c (g +:+ lit +:+ post)).
    cbn [match_here]. rewrite Hc. destruct (IH Hg) as [g' ->]. by eexists.
Qed.

Lemma match_here_longest lit s g :
  match_here lit s = Some g →
  ∀ g' post', s = g' +:+ lit +:+ post' → one_line g' = true →
    (String.length g' ≤ String.length g)%nat.
Proof.
  revert g. induction s as [|c s IH]; intros g Hm g' post' Hs Hg'.
  - destruct g'; [cbn; lia | done].
  - destruct g' as [|c' g']; [cbn; lia|].
    injection Hs as <- ->. cbn [one_line] in Hg'.
    apply andb_true_iff in Hg' as [Hc Hg']. apply negb_true_iff in Hc.
    cbn [match_here] in Hm. rewrite Hc in Hm.
    destruct (match_here_complete lit g' post' Hg') as [g0 Hg0].
    rewrite Hg0 in Hm. injection Hm as <-. cbn [String.length].
    specialize (IH g0 Hg0 g' post' eq_refl Hg'). lia.
Qed.

Lemma one_line_prefix a b : one_line (a +:+ b) = true → one_line a = true.
Proof.
  induction a as [|c a IH]; [done|].
  change (String c a +:+ b) with (String c (a +:+ b)). cbn [one_line].
  intros [Hc Hab]%andb_true_iff. rewrite Hc. cbn. by apply IH.
Qed.

(** On a path without a newline the dataset root is the text before the
    last [/docs]: no other way to split the path around a [/docs] has a
    longer left part. *)
Theorem dataset_root_before_last_docs (path_stem : string → string)
    (args self : gmap string pyval) (p : string) :
  args !! "csvpath" = Some (PStr p) →
  one_line p = true →
  Params.BaseModelParam_init path_stem args = Ok self →
  ∃ d post,
    p = d +:+ "/docs" +:+ post
    ∧ self !! "_dataset_dir" = Some (PStr d)
    ∧ ∀ d' post', p = d' +:+ "/docs" +:+ post' →
        (String.length d' ≤ String.length d)%nat.
Proof.
  intros Hp Hline H. unfold Params.BaseModelParam_init, getattr in H.
  rewrite Hp in H. cbv beta delta [mbind result_bind] iota zeta in H.
  destruct (findall "/docs" p) as [|d rest] eqn:He; [done|].
  cbn [first_item] in H. apply Ok_inj in H. subst self.
  unfold findall in He. destruct p as [|c p]; [done|].
  cbn [findall_from] in He.
  destruct (match_here "/docs" (String c p)) as [g|] eqn:Hm.
  - injection He as -> _. destruct (match_here_sound _ _ _ Hm) as [post Hs].
    exists d, post. split; [done|]. split.
    + rewrite lookup_insert_ne by done. by rewrite lookup_insert_eq.
    + intros d' post' Hs'. eapply match_here_longest; [exact Hm | exact Hs' |].
      rewrite Hs' in Hline. by apply one_line_prefix in Hline.
  - exfalso. apply findall_from_head in He as (pre & post & Hs).
    assert (Hall : String c p = (String c pre +:+ d) +:+ "/docs" +:+ post).
    { rewrite Hs, append_assoc. done. }
    assert (Hl : one_line (String c pre +:+ d) = true).
    { rewrite Hall in Hline. by apply one_line_prefix in Hline. }
    destruct (match_here_complete "/docs" _ post Hl) as [g Hg].
    rewrite <- Hall in Hg. congruence.
Qed.

End DatasetRoot.

Lemma dataset_root_before_last_docs_witness :
  ({[ "csvpath" := PStr "a/docs/b/docs/c.csv" ]} : gmap string pyval) !! "csvpath"
    = Some (PStr "a/docs/b/docs/c.csv")
  ∧ Reload.one_line "a/docs/b/docs/c.csv" = true
  ∧ Params.BaseModelParam_init Demo.path_stem {[ "csvpath" := PStr "a/docs/b/docs/c.csv" ]}
    = Ok (<["_csv_name" := PStr "trial"]>
            (<["_dataset_dir" := PStr "a/docs/b"]>
               {[ "csvpath" := PStr "a/docs/b/docs/c.csv" ]})).
Proof.
  assert (Hp : ({[ "csvpath" := PStr "a/docs/b/docs/c.csv" ]} : gmap string pyval)
                 !! "csvpath" = Some (PStr "a/docs/b/docs/c.csv"))
    by apply lookup_singleton_eq.
  assert (H : Params.BaseModelParam_init Demo.path_stem
                {[ "csvpath" := PStr "a/docs/b/docs/c.csv" ]}
              = Ok (<["_csv_name" := PStr "trial"]>
                      (<["_dataset_dir" := PStr "a/docs/b"]>
                         {[ "csvpath" := PStr "a/docs/b/docs/c.csv" ]}))).
  { unfold Params.BaseModelParam_init, getattr. rewrite Hp. reflexivity. }
  split; [exact Hp|]. split; [reflexivity|].
  destruct (dataset_root_before_last_docs Demo.path_stem _ _ _ Hp eq_refl H)
    as (d & post & _). exact H.
Defined.

Section DictFacts.

Context {A : Type}.

Lemma dict_get_set_eq (k : string) (v : A) d : dict_get k (dict_set k v d) = Some v.
Proof.
  induction d as [|[k' v'] d IH]; cbn [dict_set dict_get].
  - by rewrite bool_decide_eq_true_2.
  - destruct (bool_decide (k' = k)) eqn:E; cbn [dict_get].
    + by rewrite bool_decide_eq_true_2.
    + by rewrite E.
Qed.

Lemma dict_get_set_ne (k k0 : string) (v : A) d :
  k ≠ k0 → dict_get k0 (dict_set k v d) = dict_get k0 d.
Proof.
  intros Hne. induction d as [|[k' v'] d IH]; cbn [dict_set dict_get].
  - by rewrite bool_decide_eq_false_2.
  - destruct (bool_decide (k' = k)) eqn:E; cbn [dict_get].
    + apply bool_decide_eq_true in E. subst k'.
      by rewrite !bool_decide_eq_false_2.
    + by rewrite IH.
Qed.

Lemma dict_fold_get (f : string → A) (keys : list string) acc (k : string) :
  dict_get k (foldl (λ d k, dict_set k (f k) d) acc keys)
  = if decide (k ∈ keys) then Some (f k) else dict_get k acc.
Proof.
  revert acc. induction keys as [|k' keys IH]; intros acc; cbn [foldl].
  - destruct (decide (k ∈ [])) as [H|]; [by apply elem_of_nil in H | done].
  - rewrite IH. destruct (decide (k ∈ keys)) as [Hin|Hnin].
    + rewrite decide_True; [done | by right].
    + destruct (decide (k = k')) as [->|Hne].
      * rewrite decide_True by (by left). apply dict_get_set_eq.
      * rewrite decide_False by (by intros [?|?]%elem_of_cons).
        by apply dict_get_set_ne.
Qed.

End DictFacts.

Section Constructors.

Import Params.

Variable path_stem : string → string.
Variable path_parent : string → result string.
Variable path_name : string → string.
Variable path_str : list string → string.
Variable make_split_provider : string → pyval → result df_source.
Variable create_dataloader : gmap string pyval → df_source → string → result pyval.
Variable read_json : string → result (gmap string pyval).

Let Base := BaseModelParam_init path_stem.
Let Train := TrainModelParam_init path_stem path_str make_split_provider create_dataloader.
Let Test := TestModelParam_init path_stem path_parent path_name path_str
              make_split_provider create_dataloader read_json.

Lemma base_init_other args self k :
  Base args = Ok self → k ≠ "_dataset_dir" → k ≠ "_csv_name" →
  self !! k = args !! k.
Proof.
  intros H H1 H2. unfold Base, BaseModelParam_init in H. inv_ok H.
  destruct a; try discriminate H. inv_ok H. apply Ok_inj in H. subst self.
  by rewrite !lookup_insert_ne.
Qed.

Lemma define_num_outputs_spec task df label_list d :
  _define_num_outputs_for_label task df label_list = Ok d →
  (task = PStr "classification" ∨ task = PStr "regression" ∨ task = PStr "deepsurv")
  ∧ ∀ l, dict_get l d
         = if decide (l ∈ label_list)
           then Some (if is_str task "classification"
                      then PInt (Z.of_nat (nunique df l)) else PInt 1)
           else None.
Proof.
  unfold _define_num_outputs_for_label, dict_of_keys. intros H.
  assert (Hs : ∀ s, is_str task s = true → task = PStr s).
  { intros s. destruct task; try done. cbn. by intros ->%bool_decide_eq_true. }
  destruct (is_str task "classification") eqn:E1.
  - apply Ok_inj in H. subst d. split; [left; by apply Hs|].
    intros l. by rewrite dict_fold_get.
  - destruct (is_str task "regression") eqn:E2; cbn [orb] in H.
    + apply Ok_inj in H. subst d. split; [right; left; by apply Hs|].
      intros l. by rewrite (dict_fold_get (λ _, PInt 1)).
    + destruct (is_str task "deepsurv") eqn:E3; [|done].
      apply Ok_inj in H. subst d. split; [right; right; by apply Hs|].
      intros l. by rewrite (dict_fold_get (λ _, PInt 1)).
Qed.

(** The training constructor returns only for one of the three tasks, and
    the object it returns holds the label columns of the data source and,
    for each of them, the number of outputs: the number of distinct values
    of the column for classification, one otherwise. *)
Theorem train_object_labels args self :
  Train args = Ok self →
  ∃ csvpath task df d,
    args !! "task" = Some task
    ∧ make_split_provider csvpath task = Ok df
    ∧ (task = PStr "classification" ∨ task = PStr "regression"
       ∨ task = PStr "deepsurv")
    ∧ self !! "label_list" = Some (PList (PStr <$> columns_startswith "label" df))
    ∧ self !! "mlp_num_inputs"
      = Some (PInt (Z.of_nat (length (columns_startswith "input" df))))
    ∧ self !! "num_outputs_for_label" = Some (PDict d)
    ∧ ∀ l, dict_get l d
           = if decide (l ∈ columns_startswith "label" df)
             then Some (if is_str task "classification"
                        then PInt (Z.of_nat (nunique df l)) else PInt 1)
             else None.
Proof.
  intros H. unfold Train, TrainModelParam_init in H.
  cbv beta delta [mbind result_bind mret result_ret] in H.
  destruct (BaseModelParam_init path_stem args) as [self0|] eqn:Eb; [|done].
  cbv beta iota zeta in H.
  destruct (getattr self0 "csvpath") as [vcsv|] eqn:Ec; [|done].
  cbv beta iota zeta in H.
  destruct (str_arg vcsv) as [csvpath|] eqn:Es; [|done].
  cbv beta iota zeta in H.
  destruct (getattr self0 "task") as [task|] eqn:Et; [|done].
  cbv beta iota zeta in H.
  destruct (make_split_provider csvpath task) as [df|] eqn:Ed; [|done].
  cbv beta iota zeta in H.
  destruct (_define_num_outputs_for_label task df (columns_startswith "label" df))
    as [d|] eqn:En; [|done].
  cbv beta iota zeta in H.
  destruct (define_num_outputs_spec _ _ _ _ En) as [Htask Hd].
  exists csvpath, task, df, d.
  split. { apply getattr_Ok in Et. by rewrite <- (base_init_other args self0 "task" Eb). }
  split; [done|]. split; [done|].
  assert (Hkeep : ∀ k v s0,
    k ∈ ["label_list"; "mlp_num_inputs"; "num_outputs_for_label"] →
    (∀ s1 : gmap string pyval, s1 !! k = Some v →
       (if is_str task "deepsurv"
        then match first_item (columns_startswith "period" df) with
             | Ok period => Ok (<["period_name" := PStr period]> s1)
             | Raise e => Raise e
             end
        else Ok s1) = Ok s0 → s0 !! k = Some v)).
  { intros k v s0 Hk s1 Hs1 Hp. destruct (is_str task "deepsurv").
    - destruct (first_item _); [|done]. apply Ok_inj in Hp. subst s0.
      rewrite lookup_insert_ne; [done|]. intros <-. revert Hk.
      apply not_elem_of_compute. reflexivity.
    - apply Ok_inj in Hp. by subst s0. }
  match type of H with
  | match ?r with Ok _ => _ | Raise _ => _ end = _ =>
      destruct r as [s0|] eqn:Ep; [|done]
  end.
  inv_ok H. apply Ok_inj in H. subst self.
  split; [|split; [|split; [|done]]].
  - rewrite !lookup_insert_ne by done.
    eapply Hkeep; [apply elem_of_compute; reflexivity | | exact Ep].
    rewrite !lookup_insert_ne by done. by rewrite lookup_insert_eq.
  - rewrite !lookup_insert_ne by done.
    eapply Hkeep; [apply elem_of_compute; reflexivity | | exact Ep].
    rewrite !lookup_insert_ne by done. by rewrite lookup_insert_eq.
  - rewrite !lookup_insert_ne by done.
    eapply Hkeep; [apply elem_of_compute; reflexivity | | exact Ep].
    by rewrite lookup_insert_eq.
Qed.

(** The period column is set for the survival task alone: there it is
    the first column of the data source whose name starts with [period];
    for the other tasks the object keeps whatever the options held under
    that name. *)
Theorem train_period_name_only_for_deepsurv args self :
  Train args = Ok self →
  ∃ task,
    args !! "task" = Some task
    ∧ (is_str task "deepsurv" = true →
       ∃ csvpath df c rest,
         make_split_provider csvpath task = Ok df
         ∧ columns_startswith "period" df = c :: rest
         ∧ self !! "period_name" = Some (PStr c))
    ∧ (is_str task "deepsurv" = false →
       self !! "period_name" = args !! "period_name").
Proof.
  intros H. unfold Train, TrainModelParam_init in H.
  cbv beta delta [mbind result_bind mret result_ret] in H.
  destruct (BaseModelParam_init path_stem args) as [self0|] eqn:Eb; [|done].
  cbv beta iota zeta in H.
  destruct (getattr self0 "csvpath") as [vcsv|] eqn:Ec; [|done].
  cbv beta iota zeta in H.
  destruct (str_arg vcsv) as [csvpath|] eqn:Es; [|done].
  cbv beta iota zeta in H.
  destruct (getattr self0 "task") as [task|] eqn:Et; [|done].
  cbv beta iota zeta in H.
  destruct (make_split_provider csvpath task) as [df|] eqn:Ed; [|done].
  cbv beta iota zeta in H.
  destruct (_define_num_outputs_for_label task df (columns_startswith "label" df))
    as [d|] eqn:En; [|done].
  cbv beta iota zeta in H.
  exists task.
  split. { apply getattr_Ok in Et. by rewrite <- (base_init_other args self0 "task" Eb). }
  destruct (is_str task "deepsurv") eqn:Ets.
  - split; [intros _ | done].
    destruct (columns_startswith "period" df) as [|c rest] eqn:Ecols; [done|].
    cbn [first_item] in H. inv_ok H. apply Ok_inj in H. subst self.
    exists csvpath, df, c, rest. split; [done|]. split; [done|].
    rewrite !lookup_insert_ne by done. by rewrite lookup_insert_eq.
  - split; [done | intros _]. inv_ok H. apply Ok_inj in H. subst self.
    rewrite !lookup_insert_ne by done.
    by apply (base_init_other args self0 "period_name" Eb).
Qed.

Lemma create_dataloaders_keys self df splits acc dls :
  create_dataloaders create_dataloader self df splits acc = Ok dls →
  ∀ s, is_Some (dict_get s dls) ↔ s ∈ splits ∨ is_Some (dict_get s acc).
Proof.
  revert acc. induction splits as [|split rest IH]; intros acc H s.
  - apply Ok_inj in H. subst dls. split; [by right|].
    by intros [?%elem_of_nil|?].
  - cbn [create_dataloaders] in H. inv_ok H. rewrite (IH _ H s).
    destruct (decide (s = split)) as [->|Hne].
    + rewrite dict_get_set_eq, elem_of_cons.
      split; [intros _; left; by left | intros _; right; by eexists].
    + rewrite dict_get_set_ne by done. rewrite elem_of_cons.
      split; [intros [?|?]; [left; by right | by right]|].
      intros [[?|?]|?]; [done | by left | by right].
Qed.

(** All that the test constructor does, read backwards from the object
    it returns. *)
Lemma test_init_full args test_splits likelihood_on self :
  Test args test_splits likelihood_on = Ok self →
  ∃ self0 dir parameters csvpath task df dev sdd dls,
    Base args = Ok self0
    ∧ read_json (path_str [dir; "parameters.json"]) = Ok parameters
    ∧ make_split_provider csvpath task = Ok df
    ∧ resolve_device (default PNone (parameters !! "gpu_ids")) = Ok dev
    ∧ (∀ s, is_Some (dict_get s dls)
            ↔ s ∈ align_test_splits (split_unique df) test_splits)
    ∧ self = <["likelihood_on" := PBool likelihood_on]>
               (<["dataloaders" := PDict dls]>
                  (<["test_splits" := PList (PStr <$> align_test_splits
                                                (split_unique df) test_splits)]>
                     (<["save_datetime_dir" := PStr sdd]>
                        (<["device" := PDevice dev]>
                           (<["pretrained" := PBool false]>
                              (<["sampler" := PStr "no"]>
                                 (<["augmentation" := PStr "no"]>
                                    (load_required_for_test parameters self0)))))))).
Proof.
  intros H. unfold Test, TestModelParam_init in H. inv_ok H.
  apply Ok_inj in H. subst self.
  match goal with
  | Eb : BaseModelParam_init _ _ = Ok ?s0,
    Er : read_json (path_str [?d; _]) = Ok ?ps,
    Em : make_split_provider ?c ?t = Ok ?df,
    Eg : getattr _ "gpu_ids" = Ok ?g,
    Ed : resolve_device ?g = Ok ?dev,
    Es : results_dir _ _ _ = Ok ?sdd,
    El : create_dataloaders _ _ _ _ _ = Ok ?dls |- _ =>
      exists s0, d, ps, c, t, df, dev, sdd, dls;
      split; [exact Eb|]; split; [exact Er|]; split; [exact Em|];
      split; [|split; [|reflexivity]];
      [ apply getattr_Ok in Eg; rewrite !lookup_insert_ne in Eg by done;
        rewrite load_required_lookup in Eg
          by (apply elem_of_compute; reflexivity);
        injection Eg as <-; exact Ed
      | intros s; rewrite (create_dataloaders_keys _ _ _ _ _ El s);
        cbn [dict_get]; split; [intros [?|[? ?]]; done | by left] ]
  end.
Qed.



(** At test time the training-only behaviours are switched off and the
    data loaders are those of the aligned splits: the object has
    augmentation and sampler set to no, pretrained set to false, the
    likelihood switch as passed, and one data loader for each aligned
    split and for no other split. *)
Theorem test_object_switches args test_splits likelihood_on self :
  Test args test_splits likelihood_on = Ok self →
  self !! "augmentation" = Some (PStr "no")
  ∧ self !! "sampler" = Some (PStr "no")
  ∧ self !! "pretrained" = Some (PBool false)
  ∧ self !! "likelihood_on" = Some (PBool likelihood_on)
  ∧ ∃ csvpath task df dls,
      make_split_provider csvpath task = Ok df
      ∧ self !! "dataloaders" = Some (PDict dls)
      ∧ ∀ s, is_Some (dict_get s dls)
             ↔ s ∈ align_test_splits (split_unique df) test_splits.
Proof.
  intros H.
  destruct (test_init_full _ _ _ _ H)
    as (self0 & dir & ps & csvpath & task & df & dev & sdd & dls
        & _ & _ & Hdf & _ & Hdls & ->).
  split; [rewrite !lookup_insert_ne by done; by rewrite lookup_insert_eq|].
  split; [rewrite !lookup_insert_ne by done; by rewrite lookup_insert_eq|].
  split; [rewrite !lookup_insert_ne by done; by rewrite lookup_insert_eq|].
  split; [by rewrite lookup_insert_eq|].
  exists csvpath, task, df, dls. split; [done|]. split; [|done].
  rewrite lookup_insert_ne by done. by rewrite lookup_insert_eq.
Qed.

Lemma saved_lookup_kept dataset_scaler self saved k :
  save_parameter path_str dataset_scaler self = Ok saved →
  k ∉ no_save → k ≠ "scaler_path" → saved !! k = self !! k.
Proof.
  intros H Hk Hs.
  assert (Hf : saved !! k = filter (λ kv, kv.1 ∉ no_save) self !! k).
  { destruct (save_parameter_inv _ _ _ _ H) as [->|[sp ->]]; [done|].
    by rewrite lookup_insert_ne. }
  rewrite Hf. destruct (self !! k) as [v|] eqn:Hv.
  - by apply map_lookup_filter_Some.
  - apply map_lookup_filter_None. by left.
Qed.

(** Writing the parameters of a training object and reading them back at
    test time gives the test object the training value of every required
    field but the scaler path, whatever the test options hold for it; a
    field the training object lacks becomes [None]. *)
Theorem saved_parameters_reload dataset_scaler train_self saved
    args test_splits likelihood_on self :
  save_parameter path_str dataset_scaler train_self = Ok saved →
  (∀ p, read_json p = Ok saved) →
  Test args test_splits likelihood_on = Ok self →
  ∀ k, k ∈ required_for_test → k ≠ "scaler_path" →
    self !! k = Some (default PNone (train_self !! k)).
Proof.
  intros Hsave Hread H k Hk Hks.
  destruct (test_init_full _ _ _ _ H)
    as (self0 & dir & ps & csvpath & task & df & dev & sdd & dls
        & _ & Hps & _ & _ & _ & ->).
  rewrite Hread in Hps. apply Ok_inj in Hps. subst ps.
  rewrite !lookup_insert_ne
    by (intros <-; revert Hk; apply not_elem_of_compute; reflexivity).
  rewrite load_required_lookup by done.
  rewrite (saved_lookup_kept _ _ _ k Hsave); [done | | done].
  intros Hin. unfold no_save, required_for_test in *.
  repeat (apply elem_of_cons in Hin as [->|Hin];
          [revert Hk; apply not_elem_of_compute; reflexivity|]).
  by apply elem_of_nil in Hin.
Qed.

End Constructors.

Section ConstructorRuns.

Import Params.

Lemma reload_test_init :
  Reload.TestModelParam_init Demo.args ["train"; "val"; "test"] true
  = Ok Reload.test_object.
Proof. apply is_ok_object. vm_compute. reflexivity. Qed.

Lemma train_object_labels_witness :
  Demo.TrainModelParam_init Demo.train_args = Ok Demo.train_object
  ∧ Demo.train_object !! "label_list"
    = Some (PList [PStr "label_A"; PStr "label_B"]).
Proof.
  split; [exact demo_train_init|].
  destruct (train_object_labels Demo.path_stem Demo.path_str
              Demo.make_split_provider Demo.create_dataloader
              Demo.train_args Demo.train_object demo_train_init)
    as (csvpath & task & df & d & _ & Hdf & _ & Hll & _).
  apply Ok_inj in Hdf. subst df. exact Hll.
Defined.

Lemma train_period_name_only_for_deepsurv_witness :
  Demo.TrainModelParam_init Demo.train_args = Ok Demo.train_object
  ∧ Demo.train_object !! "period_name" = None.
Proof.
  split; [exact demo_train_init|].
  destruct (train_period_name_only_for_deepsurv Demo.path_stem Demo.path_str
              Demo.make_split_provider Demo.create_dataloader
              Demo.train_args Demo.train_object demo_train_init)
    as (task & Htask & _ & Hother).
  assert (Ht : task = PStr "classification").
  { assert (Hd : Demo.train_args !! "task" = Some (PStr "classification"))
      by (vm_compute; reflexivity).
    rewrite Hd in Htask. by injection Htask. }
  subst task. rewrite (Hother eq_refl). vm_compute. reflexivity.
Defined.


Lemma test_object_switches_witness :
  Demo.TestModelParam_init Demo.args ["train"; "val"; "test"] true
  = Ok Demo.test_object
  ∧ Demo.test_object !! "augmentation" = Some (PStr "no").
Proof.
  split; [exact demo_test_init|].
  exact (proj1 (test_object_switches Demo.path_stem Demo.path_parent
                  Demo.path_name Demo.path_str Demo.make_split_provider
                  Demo.create_dataloader Demo.read_json Demo.args
                  ["train"; "val"; "test"] true Demo.test_object demo_test_init)).
Defined.

Lemma saved_parameters_reload_witness :
  Demo.save_parameter Demo.train_object = Ok Demo.saved_object
  ∧ (∀ p : string, (λ _, Ok Demo.saved_object) p = Ok Demo.saved_object)
  ∧ Reload.TestModelParam_init Demo.args ["train"; "val"; "test"] true
    = Ok Reload.test_object
  ∧ "label_list" ∈ required_for_test
  ∧ "label_list" ≠ "scaler_path"
  ∧ Reload.test_object !! "label_list"
    = Some (default PNone (Demo.train_object !! "label_list")).
Proof.
  assert (Hk : "label_list" ∈ required_for_test)
    by (apply elem_of_compute; reflexivity).
  assert (Hne : "label_list" ≠ "scaler_path") by discriminate.
  split; [exact demo_save_parameter|]. split; [done|].
  split; [exact reload_test_init|]. split; [exact Hk|]. split; [exact Hne|].
  exact (saved_parameters_reload Demo.path_stem Demo.path_parent Demo.path_name
           Demo.path_str Demo.make_split_provider Demo.create_dataloader
           (λ _, Ok Demo.saved_object) Demo.dataset_scaler
           Demo.train_object Demo.saved_object Demo.args
           ["train"; "val"; "test"] true Reload.test_object
           demo_save_parameter (λ _, eq_refl) reload_test_init
           "label_list" Hk Hne).
Defined.

(** The aligned splits are always among the requested ones: the
    alignment never adds a split the caller did not ask for, and it is
    either the list of the data source or the requested list itself. *)
Theorem aligned_splits_among_requested (available requested : list string) :
  (∀ s, s ∈ align_test_splits available requested → s ∈ requested)
  ∧ (align_test_splits available requested = available
     ∨ align_test_splits available requested = requested).
Proof.
  unfold align_test_splits, set_lt. case_bool_decide as H.
  - split; [|by left]. intros s Hs. destruct H as [Hsub _].
    apply (elem_of_list_to_set (C := gset string)).
    apply Hsub. by apply elem_of_list_to_set.
  - split; [|right; by case_bool_decide]. by case_bool_decide.
Qed.

End ConstructorRuns.

Section FactoryErrors.

Import Net Extractor.

Variable has_attribute : string → bool.
Variable native_modules : string → list (string * submodule).

(** A backbone name that is neither the tabular network nor in the
    catalogue makes the classifier factory raise [KeyError], whatever the
    labels. *)
Theorem unknown_backbone_has_no_classifier net_name (labels : list (string * nat)) :
  net_name ≠ "MLP" → net_name ∉ net →
  construct_multi_classifier has_attribute net_name labels = Raise KeyError.
Proof.
  intros Hmlp Hnet. unfold construct_multi_classifier, head_builder, get_classifier.
  rewrite (bool_decide_eq_false_2 (net_name = "MLP")) by done.
  rewrite (bool_decide_eq_false_2 (net_name ∈ net)) by done.
  by repeat match goal with |- context [if ?b then _ else _] => destruct b end.
Qed.

(** A label that a module dictionary does not take as a name makes the
    classifier factory raise [KeyError], for the tabular network and for
    every name of the catalogue: the heads are built and the dictionary of
    modules that is to hold them refuses the first such label, be it empty,
    with a dot in it, or the name of an attribute of the dictionary. *)
Theorem bad_label_has_no_classifier net_name (labels : list (string * nat))
    (k : string) :
  NoDup labels.*1 →
  net_name ∈ "MLP" :: net →
  k ∈ labels.*1 →
  has_attribute k = true ∨ has_dot k = true ∨ k = "" →
  construct_multi_classifier has_attribute net_name labels = Raise KeyError.
Proof.
  intros Hnd Hin Hk Hbad. pose proof (head_builder_catalogue _ Hin) as Hok.
  unfold construct_multi_classifier.
  destruct (head_builder net_name) as [head|]; [|done].
  cbv beta delta [mbind result_bind] iota zeta.
  rewrite dict_fold_nodup by done. cbn [app]. unfold ModuleDict.
  assert (Hgen : ∀ (ls : list (string * nat)) (ms : list (string * module)),
            NoDup (ms.*1 ++ ls.*1) → k ∈ ls.*1 →
            update has_attribute ((λ item : string * nat, (item.1, head item.2)) <$> ls) ms
            = Raise KeyError).
  { clear Hnd Hk. induction ls as [|[k' n] rest IH]; intros ms Hnd' Hk'.
    - by apply elem_of_nil in Hk'.
    - cbn [fmap list_fmap fst snd update]. cbn [fmap list_fmap fst] in Hnd', Hk'.
      pose proof Hnd' as Hd. apply NoDup_app in Hd as (_ & Hdisj & _).
      assert (Hfresh : k' ∉ ms.*1) by (intros Hi; apply (Hdisj k' Hi); by left).
      unfold add_module at 1. rewrite (bool_decide_eq_false_2 (k' ∈ ms.*1)) by done.
      destruct (decide (k = k')) as [<-|Hne].
      + destruct Hbad as [Ha|[Hd'|He]].
        * by rewrite Ha.
        * rewrite Hd'. by destruct (has_attribute k && negb false).
        * subst k. by destruct (has_attribute "" && negb false).
      + apply elem_of_cons in Hk' as [?|Hk']; [done|].
        destruct (has_attribute k' && negb false); [done|].
        destruct (has_dot k'); [done|]. case_bool_decide; [done|].
        cbv beta delta [mbind result_bind] iota.
        rewrite dict_set_fresh by done. apply IH; [|done].
        rewrite fmap_app. cbn [fmap list_fmap fst]. by rewrite <- app_assoc. }
  by apply Hgen.
Qed.

Lemma cnn_classifier_slot net_name :
  net_name ∈ cnn →
  net_name ≠ "MLP" ∧ net_name ∈ net
  ∧ ∃ slot, dict_get net_name classifier = Some slot.
Proof.
  intros Hin. unfold cnn in Hin.
  repeat (apply elem_of_cons in Hin as [->|Hin];
          [split; [done|]; split; [apply elem_of_compute; reflexivity|];
           by eexists|]).
  by apply elem_of_nil in Hin.
Qed.

(** The extractor factory returns exactly for the tabular network with an
    integer number of inputs that is not negative and for the
    convolutional names of the catalogue.  For the tabular network it
    raises [AssertionError] when the number of inputs is no integer and
    [RuntimeError] when it is negative.  For a transformer name it raises:
    [TypeError] when the image size is an integer, from the call of
    [set_vit] with one argument too many, and [AssertionError] otherwise;
    for a name outside the catalogue it raises [AssertionError]. *)
Theorem extractor_built_only_for_mlp_and_cnn net_name
    (mlp_num_inputs vit_image_size : pyval) :
  (is_ok (constuct_extractor native_modules net_name mlp_num_inputs vit_image_size)
   = true
   ↔ (net_name = "MLP" ∧ is_int mlp_num_inputs = true
      ∧ (0 ≤ int_value mlp_num_inputs)%Z)
     ∨ net_name ∈ cnn)
  ∧ (net_name = "MLP" →
     constuct_extractor native_modules net_name mlp_num_inputs vit_image_size
     = if is_int mlp_num_inputs then
         if bool_decide (0 ≤ int_value mlp_num_inputs)%Z
         then Ok (MLP (int_value mlp_num_inputs) [256; 256; 256]%nat (2 # 10))
         else Raise RuntimeError
       else Raise AssertionError)
  ∧ (net_name ∈ vit →
     constuct_extractor native_modules net_name mlp_num_inputs vit_image_size
     = Raise (if is_int vit_image_size then TypeError else AssertionError))
  ∧ (net_name ≠ "MLP" → net_name ∉ net →
     constuct_extractor native_modules net_name mlp_num_inputs vit_image_size
     = Raise AssertionError).
Proof.
  split; [|split; [|split]].
  - unfold constuct_extractor. case_bool_decide as Hm.
    + subst net_name. unfold MLPNet. split.
      * intros H. left. split; [done|].
        destruct (is_int mlp_num_inputs); [|done]. split; [done|].
        by case_bool_decide.
      * intros [(_ & -> & H)|H]; [by rewrite bool_decide_eq_true_2|].
        by apply cnn_classifier_slot in H as [? _].
    + case_bool_decide as Hn.
      * unfold set_net. case_bool_decide as Hc.
        -- cbv beta delta [mbind result_bind] iota.
           destruct (cnn_classifier_slot _ Hc) as (_ & _ & slot & ->).
           split; [by right | done].
        -- cbv beta delta [mbind result_bind] iota.
           split; [by destruct (is_int vit_image_size)|].
           by intros [[? _]|?].
      * split; [done|]. intros [[? _]|H]; [done|].
        by apply cnn_classifier_slot in H as (_ & ? & _).
  - intros ->. reflexivity.
  - intros Hv. unfold constuct_extractor, set_net, vit in *.
    repeat (apply elem_of_cons in Hv as [->|Hv];
            [by destruct (is_int vit_image_size)|]).
    by apply elem_of_nil in Hv.
  - intros Hm Hn. unfold constuct_extractor.
    by rewrite bool_decide_eq_false_2, bool_decide_eq_false_2.
Qed.

(** For a convolutional name the extractor is the torchvision network
    with the identity in place of its classifier: the classifier of the
    name holds [nn.Identity] and every other module is the one of the
    network. *)
Theorem extractor_classifier_is_identity net_name
    (mlp_num_inputs vit_image_size : pyval) :
  net_name ∈ cnn →
  ∃ slot ms,
    dict_get net_name classifier = Some slot
    ∧ constuct_extractor native_modules net_name mlp_num_inputs vit_image_size
      = Ok (Backbone ms)
    ∧ dict_get slot ms = Some (Classifier (Single Identity))
    ∧ ∀ name, name ≠ slot → dict_get name ms = dict_get name (native_modules net_name).
Proof.
  intros Hc. destruct (cnn_classifier_slot _ Hc) as (Hm & Hn & slot & Hslot).
  exists slot, (dict_set slot (Classifier (Single Identity)) (native_modules net_name)).
  split; [done|]. split.
  - unfold constuct_extractor, set_net.
    rewrite (bool_decide_eq_false_2 (net_name = "MLP")) by done.
    rewrite (bool_decide_eq_true_2 (net_name ∈ net)) by done.
    rewrite (bool_decide_eq_true_2 (net_name ∈ cnn)) by done.
    cbv beta delta [mbind result_bind] iota. by rewrite Hslot.
  - split; [apply dict_get_set_eq|]. intros name Hne. by apply dict_get_set_ne.
Qed.

End FactoryErrors.

Lemma unknown_backbone_has_no_classifier_witness :
  ("VGG16" ≠ "MLP") ∧ ("VGG16" ∉ Net.net)
  ∧ Net.construct_multi_classifier Net.has_module_attribute "VGG16"
      [("label_A", 2%nat)]
    = Raise KeyError.
Proof.
  assert (H1 : "VGG16" ≠ "MLP") by discriminate.
  assert (H2 : "VGG16" ∉ Net.net) by (apply not_elem_of_compute; reflexivity).
  split; [exact H1|]. split; [exact H2|].
  exact (unknown_backbone_has_no_classifier Net.has_module_attribute "VGG16"
           [("label_A", 2%nat)] H1 H2).
Defined.

Lemma bad_label_has_no_classifier_witness :
  NoDup [("label_A", 2%nat); ("label.1", 2%nat)].*1
  ∧ "ResNet18" ∈ "MLP" :: Net.net
  ∧ "label.1" ∈ [("label_A", 2%nat); ("label.1", 2%nat)].*1
  ∧ Net.has_dot "label.1" = true
  ∧ Net.construct_multi_classifier Net.has_module_attribute "ResNet18"
      [("label_A", 2%nat); ("label.1", 2%nat)]
    = Raise KeyError.
Proof.
  assert (H1 : NoDup [("label_A", 2%nat); ("label.1", 2%nat)].*1).
  { cbn. apply NoDup_cons. split; [|apply NoDup_singleton].
    by intros ?%list_elem_of_singleton. }
  assert (H2 : "ResNet18" ∈ "MLP" :: Net.net)
    by (apply elem_of_compute; reflexivity).
  assert (H3 : "label.1" ∈ [("label_A", 2%nat); ("label.1", 2%nat)].*1)
    by (apply elem_of_compute; reflexivity).
  split; [exact H1|]. split; [exact H2|]. split; [exact H3|].
  split; [reflexivity|].
  exact (bad_label_has_no_classifier Net.has_module_attribute "ResNet18"
           [("label_A", 2%nat); ("label.1", 2%nat)] "label.1" H1 H2 H3
           (or_intror (or_introl eq_refl))).
Defined.

Lemma extractor_built_only_for_mlp_and_cnn_witness :
  "ViTb16" ∈ Net.vit
  ∧ Extractor.constuct_extractor (λ _, []) "ViTb16" PNone (PInt 224)
    = Raise TypeError.
Proof.
  assert (H : "ViTb16" ∈ Net.vit) by (apply elem_of_compute; reflexivity).
  split; [exact H|].
  exact (proj1 (proj2 (proj2 (extractor_built_only_for_mlp_and_cnn (λ _, []) "ViTb16"
                                PNone (PInt 224)))) H).
Defined.

Lemma extractor_classifier_is_identity_witness :
  "ResNet18" ∈ Net.cnn
  ∧ ∃ ms, Extractor.constuct_extractor
            (λ _, [("conv1", Extractor.Opaque 0);
                   ("fc", Extractor.Classifier (Net.Single (Net.Linear 512 1000)))])
            "ResNet18" PNone PNone
          = Ok (Extractor.Backbone ms)
          ∧ dict_get "fc" ms
            = Some (Extractor.Classifier (Net.Single Net.Identity)).
Proof.
  assert (H : "ResNet18" ∈ Net.cnn) by (apply elem_of_compute; reflexivity).
  split; [exact H|].
  destruct (extractor_classifier_is_identity
              (λ _, [("conv1", Extractor.Opaque 0);
                     ("fc", Extractor.Classifier (Net.Single (Net.Linear 512 1000)))])
              "ResNet18" PNone PNone H)
    as (slot & ms & Hslot & Hms & Hid & _).
  exists ms. split; [exact Hms|].
  assert (Hfc : slot = "fc") by (vm_compute in Hslot; congruence).
  by rewrite <- Hfc.
Defined.

Section Dispatch.

Import Model Modality.

(** The choice of the class in [create_model], once the parameters are
    constructed: its chain of tests comes to one of its [raise ValueError]
    exactly when the task is none of the three or when neither a tabular
    nor an image network is configured; otherwise it comes to the call of
    the constructor of one class, which reads the periods iff the task is
    survival, the inputs iff a tabular network is configured and the image
    iff an image network is. *)
Theorem dispatch_follows_task_and_modality (task mlp net : pyval) :
  (select_variant task mlp net = Raise ValueError
   ↔ (is_str task "classification" || is_str task "regression"
      || is_str task "deepsurv") = false
     ∨ (mlp = PNone ∧ net = PNone))
  ∧ ((is_str task "classification" || is_str task "regression"
      || is_str task "deepsurv") = true →
     ¬ (mlp = PNone ∧ net = PNone) →
     ∃ c, select_variant task mlp net = Ok c
          ∧ is_survival c = is_str task "deepsurv"
          ∧ (uses_inputs c = true ↔ mlp ≠ PNone)
          ∧ (uses_image c = true ↔ net ≠ PNone)).
Proof.
  assert (Hexcl : is_str task "deepsurv" = true →
                  is_str task "classification" || is_str task "regression" = false).
  { destruct task; try done. cbn. intros ->%bool_decide_eq_true. done. }
  unfold select_variant.
  destruct (is_str task "classification" || is_str task "regression") eqn:E1.
  - assert (E3 : is_str task "deepsurv" = false).
    { destruct (is_str task "deepsurv"); [|done].
      specialize (Hexcl eq_refl). congruence. }
    rewrite E3. cbn [orb].
    destruct mlp, net; cbn; (split; [split|]); intros; simplify_eq/=;
      try done; try (by right); try (by destruct H as [?|[? ?]]);
      try (exfalso; by auto);
      eexists; (split; [reflexivity|]); repeat split; intros; done.
  - cbn [orb]. destruct (is_str task "deepsurv") eqn:E3.
    + destruct mlp, net; cbn; (split; [split|]); intros; simplify_eq/=;
        try done; try (by right); try (by destruct H as [?|[? ?]]);
        try (exfalso; by auto);
        eexists; (split; [reflexivity|]); repeat split; intros; done.
    + split; [split; [by left | done] | done].
Qed.

End Dispatch.

Lemma dispatch_follows_task_and_modality_witness :
  (is_str (PStr "deepsurv") "classification" || is_str (PStr "deepsurv") "regression"
   || is_str (PStr "deepsurv") "deepsurv") = true
  ∧ ¬ (PStr "MLP" = PNone ∧ PStr "ResNet18" = PNone)
  ∧ ∃ c, Model.select_variant (PStr "deepsurv") (PStr "MLP") (PStr "ResNet18") = Ok c
         ∧ Modality.is_survival c = true.
Proof.
  assert (H1 : (is_str (PStr "deepsurv") "classification"
                || is_str (PStr "deepsurv") "regression"
                || is_str (PStr "deepsurv") "deepsurv") = true) by reflexivity.
  assert (H2 : ¬ (PStr "MLP" = PNone ∧ PStr "ResNet18" = PNone))
    by (intros [H _]; discriminate H).
  split; [exact H1|]. split; [exact H2|].
  destruct (proj2 (dispatch_follows_task_and_modality
              (PStr "deepsurv") (PStr "MLP") (PStr "ResNet18")) H1 H2)
    as (c & Hc & Hs & _).
  exists c. split; [exact Hc | exact Hs].
Defined.

Section BatchFacts.

Import Model Modality Labels.

Context {W T : Type}.
Variable net_forward : @network W → list (@tensor T) → list (string * @tensor T).

Abbreviation model := (@Model.model W T).

Lemma set_data_keeps (data : @batch T) (m : model) :
  class (set_data data m) = class m
  ∧ dev (set_data data m) = dev m
  ∧ net (set_data data m) = net m.
Proof. done. Qed.

(** After [set_data], [forward] returns; the network is called on the
    tensors of the batch its class reads, inputs before image; and for
    every class but [MLPModel] each of them has been moved to the device
    of the model. *)
Theorem forward_after_set_data (data : @batch T) (m : model) :
  ∃ m' args,
    forward net_forward (set_data data m) = Ok (m', args)
    ∧ content <$> args
      = ((if uses_inputs (class m) then [content (data_inputs data)] else [])
         ++ (if uses_image (class m) then [content (data_image data)] else []))%list
    ∧ multi_output (attrs m') = Some (net_forward (net m) args)
    ∧ (class m ≠ MLPModel → Forall (λ t, on t = dev m) args).
Proof.
  unfold forward, set_data.
  destruct (class m) eqn:Ec; cbn; rewrite ?Ec; cbn;
    eexists _, _; (split; [reflexivity|]); cbn;
    (split; [reflexivity|]); (split; [reflexivity|]);
    intros ?; try done; by repeat constructor.
Qed.

(** [forward] before any [set_data] raises [AttributeError]. *)
Lemma forward_without_data (m : model) :
  inputs (attrs m) = None → image (attrs m) = None →
  forward net_forward m = Raise AttributeError.
Proof.
  intros Hi Hg. unfold forward. destruct (class m); by rewrite ?Hi, ?Hg.
Qed.



End BatchFacts.

Lemma forward_after_set_data_witness :
  Model.MLPDeepSurv ≠ Model.MLPModel
  ∧ ∃ m' args,
      Model.forward DemoRun.net_forward
        (Model.set_data DemoRun.cpu_batch
           (DemoRun.new_model Model.MLPDeepSurv [0%Z] (Cuda 0)))
      = Ok (m', args)
      ∧ Forall (λ t, Model.on t = Cuda 0) args.
Proof.
  assert (Hc : Model.MLPDeepSurv ≠ Model.MLPModel) by discriminate.
  split; [exact Hc|].
  destruct (forward_after_set_data DemoRun.net_forward DemoRun.cpu_batch
              (DemoRun.new_model Model.MLPDeepSurv [0%Z] (Cuda 0)))
    as (m' & args & H & _ & _ & Hon).
  exists m', args. split; [exact H | exact (Hon Hc)].
Defined.


Section CheckpointFacts.

Import Model Labels.

Context {W T : Type}.
Variable cuda_available : bool.
Variable add_module_prefix : W → W.
Variable strip_module_prefix : W → option W.

Abbreviation model := (@Model.model W T).

Lemma set_net_fields (n : @network W) (m : model) :
  net (set_net n m) = n ∧ dev (set_net n m) = dev m
  ∧ gpu_ids (set_net n m) = gpu_ids m
  ∧ save_datetime_dir (set_net n m) = save_datetime_dir m
  ∧ acting_best_epoch (set_net n m) = acting_best_epoch m
  ∧ acting_best_weight (set_net n m) = acting_best_weight m.
Proof. done. Qed.

Lemma load_weight_plain (m : model) (w : world W) (p : path)
    (w0 wt : W) (d : device) :
  net m = Plain w0 d →
  files w !! p = Some (Some wt) →
  (gpu_ids m = [] ∨ cuda_available = true) →
  ∃ m' w',
    load_weight cuda_available strip_module_prefix m p w = (Ok m', w')
    ∧ files w' = files w
    ∧ parameters (net m') = wt
    ∧ (gpu_ids m = [] →
       net m' = Plain wt d
       ∧ log w' = (log w ++ [TorchLoad p; LoadStateDict false])%list)
    ∧ (gpu_ids m ≠ [] →
       net m' = DataParallel (Plain wt (dev m)) (gpu_ids m)
       ∧ log w' = (log w ++ [TorchLoad p; LoadStateDict false;
                             NetworkTo (dev m); Replicate (gpu_ids m)])%list).
Proof.
  intros Hnet Hfile Hgpu.
  unfold load_weight, io_bind, torch_load, emit, lift. rewrite Hfile. cbn.
  rewrite Hnet. cbn. unfold _enable_on_gpu_if_available. cbn.
  destruct (gpu_ids m) as [|i ids] eqn:Hids.
  - eexists _, _. split; [reflexivity|]. cbn.
    split; [done|]. split; [done|]. split; [|done].
    intros _. split; [done|]. by rewrite <- app_assoc.
  - destruct Hgpu as [?|Hcuda]; [done|]. rewrite Hcuda.
    unfold io_bind, emit. cbn.
    eexists _, _. split; [reflexivity|]. cbn.
    split; [done|]. split; [done|]. split; [done|].
    intros _. split; [done|]. by rewrite <- !app_assoc.
Qed.

(** [load_weight] on a network that is not replicated yet, with the
    GPUs, if any are asked for, available, and a file that holds a state
    dictionary whose keys are those of the network itself, without the
    prefix of a replica: the parameters of the file go into the plain
    network first; without GPUs that is all, and with GPUs the network is
    then moved and replicated.  No file changes. *)
Theorem load_weight_into_plain_network (m : model) (w : world W) (p : path)
    (w0 wt : W) (d : device) :
  net m = Plain w0 d →
  files w !! p = Some (Some wt) →
  strip_module_prefix wt = None →
  (gpu_ids m = [] ∨ cuda_available = true) →
  ∃ m' w',
    load_weight cuda_available strip_module_prefix m p w = (Ok m', w')
    ∧ files w' = files w
    ∧ parameters (net m') = wt
    ∧ (gpu_ids m = [] →
       net m' = Plain wt d
       ∧ log w' = (log w ++ [TorchLoad p; LoadStateDict false])%list)
    ∧ (gpu_ids m ≠ [] →
       net m' = DataParallel (Plain wt (dev m)) (gpu_ids m)
       ∧ log w' = (log w ++ [TorchLoad p; LoadStateDict false;
                             NetworkTo (dev m); Replicate (gpu_ids m)])%list).
Proof.
  intros Hnet Hfile _ Hgpu. by apply (load_weight_plain m w p w0 wt d).
Qed.

(** The ways [load_weight] fails: a missing file raises
    [FileNotFoundError] and leaves the world as it was, and a network that
    is replicated already rejects a file whose keys lack the prefix of a
    replicated network with [RuntimeError], after the file was read. *)
Theorem load_weight_failures (m : model) (w : world W) (p : path) :
  (files w !! p = None →
   load_weight cuda_available strip_module_prefix m p w
   = (Raise FileNotFoundError, w))
  ∧ (∀ n ids wt,
       net m = DataParallel n ids →
       files w !! p = Some (Some wt) →
       strip_module_prefix wt = None →
       ∃ w', load_weight cuda_available strip_module_prefix m p w
             = (Raise RuntimeError, w')
             ∧ files w' = files w
             ∧ log w' = (log w ++ [TorchLoad p; LoadStateDict true])%list).
Proof.
  split.
  - intros Hf. unfold load_weight, io_bind, torch_load. by rewrite Hf.
  - intros n ids wt Hnet Hf Hstrip.
    unfold load_weight, io_bind, torch_load, emit, lift. rewrite Hf. cbn.
    rewrite Hnet. cbn. rewrite Hstrip. eexists. split; [reflexivity|]. cbn.
    split; [done|]. by rewrite <- app_assoc.
Qed.

Lemma store_weight_plain (m : model) :
  canonical (net m) →
  acting_best_weight (store_weight add_module_prefix m) = Some (parameters (net m))
  ∧ acting_best_epoch (store_weight add_module_prefix m)
    = LossReg.best_epoch (total_epoch_loss m)
  ∧ net (store_weight add_module_prefix m) = net m
  ∧ total_epoch_loss (store_weight add_module_prefix m) = total_epoch_loss m.
Proof.
  intros Hc. unfold store_weight.
  destruct (net m) as [w d|[w d|n ids'] ids] eqn:Hn; [| |done]; cbn; by rewrite ?Hn.
Qed.

(** [store_weight] keeps the parameters of the network itself: for a
    plain network and for one replicated once the stored weight is the
    state dictionary of the plain network, without the prefix of the
    replica; the stored epoch is the best epoch of the total loss, and the
    network and the loss history are left as they are. *)
Theorem stored_weight_is_plain_state (m : model) :
  canonical (net m) →
  acting_best_weight (store_weight add_module_prefix m) = Some (parameters (net m))
  ∧ acting_best_epoch (store_weight add_module_prefix m)
    = LossReg.best_epoch (total_epoch_loss m)
  ∧ net (store_weight add_module_prefix m) = net m
  ∧ total_epoch_loss (store_weight add_module_prefix m) = total_epoch_loss m.
Proof.
  intros Hc. unfold store_weight.
  destruct (net m) as [w d|[w d|n ids'] ids] eqn:Hn; [| |done]; cbn; by rewrite ?Hn.
Qed.

(** Saving as best into a directory that has no file of the epoch yet
    writes the stored weight to the file with the suffix, once. *)
Lemma save_weight_best_fresh (m : model) (w0 : world W) :
  files w0 !! save_dir m = None →
  files w0 !! save_path m = None →
  save_path m ∉ dirs w0 →
  save_weight m (Some true) w0
  = (Ok (), {| files := <[save_path_as_best m := acting_best_weight m]> (files w0);
               dirs := {[save_dir m]} ∪ dirs w0;
               log := log w0 ++ [TorchSave (save_path_as_best m)] |}).
Proof.
  intros Hd Hf Hnd. unfold save_weight, io_bind, mkdir. rewrite Hd.
  unfold path_exists. cbn [dirs files log]. rewrite Hf.
  rewrite (bool_decide_eq_false_2 (is_Some None)) by (by intros [? ?]).
  rewrite bool_decide_eq_false_2.
  - cbn [orb]. unfold torch_save. cbn [dirs files log].
    rewrite bool_decide_eq_true_2; [done|].
    destruct (save_path_parts m) as (_ & -> & ->). cbn [removelast].
    apply elem_of_union_l. by apply elem_of_singleton.
  - intros [Hin|Hin]%elem_of_union; [|done].
    apply elem_of_singleton in Hin.
    destruct (save_path_parts m) as (Hsp & _ & Hsd). rewrite Hsp, Hsd in Hin.
    discriminate Hin.
Qed.

(** A weight stored, saved as best into a fresh directory and loaded
    into a plain network on the CPU comes back as it was: the network that
    loaded it has the parameters of the network it was stored from. *)
Theorem stored_weight_round_trip (m m2 : model) (w0 : world W) (w2 : W) (d : device) :
  canonical (net m) →
  files w0 !! save_dir m = None →
  files w0 !! save_path (store_weight add_module_prefix m) = None →
  save_path (store_weight add_module_prefix m) ∉ dirs w0 →
  net m2 = Plain w2 d →
  gpu_ids m2 = [] →
  let stored := store_weight add_module_prefix m in
  ∃ w1 m3 w3,
    save_weight stored (Some true) w0 = (Ok (), w1)
    ∧ load_weight cuda_available strip_module_prefix m2 (save_path_as_best stored) w1
      = (Ok m3, w3)
    ∧ parameters (net m3) = parameters (net m).
Proof.
  intros Hc Hd Hf Hnd Hn2 Hg2. cbv zeta.
  destruct (store_weight_plain m Hc) as (Hw & _ & _ & _).
  set (stored := store_weight add_module_prefix m) in *.
  assert (Hsd : save_dir stored = save_dir m).
  { unfold save_dir, stored, store_weight. by destruct (net m). }
  rewrite <- Hsd in Hd.
  eexists. 
  destruct (load_weight_plain m2
              {| files := <[save_path_as_best stored := acting_best_weight stored]> (files w0);
                 dirs := {[save_dir stored]} ∪ dirs w0;
                 log := log w0 ++ [TorchSave (save_path_as_best stored)] |}
              (save_path_as_best stored) w2 (parameters (net m)) d Hn2)
    as (m3 & w3 & Hload & _ & Hpar & _).
  { cbn [files]. by rewrite lookup_insert_eq, Hw. }
  { by left. }
  exists m3, w3. split; [by apply save_weight_best_fresh|]. by split.
Qed.

End CheckpointFacts.

Section TrainingRun.

Import Model Driver Labels Training.

Context {W T : Type}.
Variable add_module_prefix : W → W.

Abbreviation model := (@Model.model W T).

Lemma parameters_set_state (n : @network W) (w : W) :
  parameters (set_state n w) = w ∧ (canonical n → canonical (set_state n w)).
Proof.
  split.
  - induction n as [|n IH ids]; [done|]. exact IH.
  - by destruct n as [|[|]].
Qed.

Lemma is_updated_cases t u t' :
  LossReg.is_val_loss_updated t = (u, t') →
  (u = true → LossReg.best_epoch t' = Some (length (LossReg.val t) - 1)
              ∧ LossReg.val t' = LossReg.val t)
  ∧ (u = false → t' = t).
Proof.
  unfold LossReg.is_val_loss_updated.
  destruct (last (LossReg.val t)); [|by intros [= <- <-]].
  destruct (LossReg.best_val_loss t); [|by intros [= <- <-]].
  destruct (LossReg.Qltb _ _); by intros [= <- <-].
Qed.

Lemma world_in_weights_dir_free (dir : string) (w : world W) (p : path) :
  world_in_weights dir w → length p ≠ 3 → files w !! p = None.
Proof.
  intros [Hf _] Hp. destruct (files w !! p) eqn:E; [|done].
  destruct (Hf p) as [name ->]; [by eexists|]. done.
Qed.

Lemma end_of_epoch_step (processed : list (@epoch_outcome W)) (o : @epoch_outcome W)
    (m : model) (w : world W) :
  run_inv processed m w →
  ∃ m' w',
    end_of_epoch add_module_prefix (length processed) (run_phases o m) w = (Ok m', w')
    ∧ run_inv (processed ++ [o])%list m' w'
    ∧ save_datetime_dir m' = save_datetime_dir m
    ∧ save_weight_policy m' = save_weight_policy m.
Proof.
  intros (Hcan & Hval & Htr & Hw & Hfresh & Hbest).
  destruct (check_step (train_total o) (val_total o) (total_epoch_loss m) Htr)
    as (Hval' & Htr' & Hupd & _).
  unfold end_of_epoch, is_total_val_loss_updated.
  change (total_epoch_loss (run_phases o m))
    with (LossReg.finalize_epoch (train_total o) (val_total o) (total_epoch_loss m)).
  destruct (LossReg.is_val_loss_updated
              (LossReg.finalize_epoch (train_total o) (val_total o) (total_epoch_loss m)))
    as [u t'] eqn:Hstep.
  cbn [fst snd] in *.
  destruct (is_updated_cases _ _ _ Hstep) as [Htrue Hfalse].
  destruct (parameters_set_state (net m) (trained o)) as [Hpar Hcan'].
  assert (Hlen : length (LossReg.val (total_epoch_loss m)) = length processed)
    by (by rewrite Hval, length_fmap).
  assert (Hvalnew : LossReg.val t' = val_total <$> (processed ++ [o])%list).
  { rewrite Hval', Hval. by rewrite fmap_app. }
  destruct u.
  - destruct (Htrue eq_refl) as [Hbe _]. rewrite finalize_epoch_val in Hbe.
    rewrite length_app, Hlen in Hbe. cbn [length] in Hbe.
    replace (length processed + 1 - 1) with (length processed) in Hbe by lia.
    set (m1 := set_total_epoch_loss t' (run_phases o m)).
    assert (Hc1 : canonical (net m1)) by (by apply Hcan').
    destruct (store_weight_plain add_module_prefix m1 Hc1)
      as (Hsw & Hse & Hsn & Hst).
    change (parameters (net m1)) with (parameters (set_state (net m) (trained o))) in Hsw.
    rewrite Hpar in Hsw. change (total_epoch_loss m1) with t' in Hse, Hst.
    destruct (store_weight_keeps add_module_prefix m1) as (Hsd & Hsp & _).
    change (save_datetime_dir m1) with (save_datetime_dir m) in Hsd.
    change (save_weight_policy m1) with (save_weight_policy m) in Hsp.
    set (m2 := store_weight add_module_prefix m1) in *.
    assert (Hlook : (processed ++ [o])%list !! length processed = Some o).
    { rewrite lookup_app_r by lia. by rewrite Nat.sub_diag. }
    destruct (bool_decide (0 < length processed)
              && bool_decide (save_weight_policy m2 = "each")) eqn:Hcond.
    + apply andb_true_iff in Hcond as [_ Hpol%bool_decide_eq_true].
      unfold io_bind. rewrite save_weight_not_best.
      2:{ apply (world_in_weights_dir_free (save_datetime_dir m)); [done|].
          unfold save_dir. cbn. lia. }
      eexists _, _. split; [reflexivity|]. split; [|done].
      split; [by rewrite Hsn|]. split; [by rewrite Hst|].
      split; [by rewrite Hst|]. split; [|split].
      * rewrite Hsd. destruct Hw as [Hf Hd]. split; cbn [files dirs].
        -- intros p Hp. destruct (decide (p = save_path m2)) as [->|Hne].
           ++ destruct (save_path_parts m2) as (-> & _). rewrite Hsd. by eexists.
           ++ rewrite lookup_insert_ne in Hp by done. by apply Hf.
        -- intros p [->%elem_of_singleton|Hp]%elem_of_union; [done|]. by apply Hd.
      * intros [Hnil|Hne]; [by destruct processed | by rewrite Hpol in Hne].
      * intros _. exists (length processed), o. rewrite Hst.
        split; [done|]. split; [done|]. split; [by rewrite Hse|].
        split; [done|]. right. cbn [files]. by rewrite lookup_insert_eq, Hsw.
    + exists m2, w. split; [done|]. split; [|done].
      assert (Hempty : files w = ∅).
      { apply Hfresh. apply andb_false_iff in Hcond as [Hz|Hp].
        - left. apply bool_decide_eq_false in Hz. destruct processed; [done|].
          cbn in Hz. lia.
        - right. apply bool_decide_eq_false in Hp. by rewrite <- Hsp. }
      split; [by rewrite Hsn|]. split; [by rewrite Hst|].
      split; [by rewrite Hst|]. split; [by rewrite Hsd|]. split; [done|].
      intros _. exists (length processed), o. rewrite Hst.
      split; [done|]. split; [done|]. split; [by rewrite Hse|].
      split; [done|]. left. by rewrite Hempty.
  - rewrite (Hfalse eq_refl) in *. clear Hfalse Htrue.
    assert (Hne : processed ≠ []).
    { intros ->. cbn in Hlen. apply nil_length_inv in Hlen.
      cut (false = true); [done|]. apply Hupd. intros j q. by rewrite Hlen. }
    destruct (Hbest Hne) as (b & ob & Hb & Hob & Hae & Haw & Hfile).
    eexists _, _. split; [reflexivity|]. split; [|done].
    split; [by apply Hcan'|]. split; [done|]. split; [done|].
    split; [done|]. split.
    { intros [Hnil|Hp]; [by destruct processed | by apply Hfresh; right]. }
    intros _. exists b, ob. split; [done|].
    split; [by apply lookup_app_l_Some|]. done.
Qed.

Lemma train_epochs_inv (outcomes : list (@epoch_outcome W)) :
  ∀ (processed : list (@epoch_outcome W)) (m : model) (w : world W),
  run_inv processed m w →
  ∃ m' w',
    train_epochs add_module_prefix (length processed) outcomes m w = (Ok m', w')
    ∧ run_inv (processed ++ outcomes)%list m' w'
    ∧ save_datetime_dir m' = save_datetime_dir m
    ∧ save_weight_policy m' = save_weight_policy m.
Proof.
  induction outcomes as [|o rest IH]; intros processed m w Hinv.
  - exists m, w. by rewrite app_nil_r.
  - destruct (end_of_epoch_step processed o m w Hinv) as (m1 & w1 & H1 & Hinv1 & Hd1 & Hp1).
    destruct (IH (processed ++ [o])%list m1 w1 Hinv1) as (m' & w' & H' & Hinv' & Hd' & Hp').
    exists m', w'. cbn [train_epochs]. unfold io_bind. rewrite H1.
    rewrite length_app in H'. cbn [length] in H'.
    replace (length processed + 1) with (S (length processed)) in H' by lia.
    split; [exact H'|]. rewrite <- app_assoc in Hinv'. split; [exact Hinv'|].
    split; congruence.
Qed.

(** The epoch loop of a training run on a fresh run directory, and the
    saving as best that follows it, end with the weight of the best epoch
    in the file with the suffix.  For a model that starts with an empty
    loss history and a network that is plain or replicated once, and a
    world without files and directories, the epoch loop of [train.py] over
    one epoch or more returns, and [save_weight] as best on what it leaves
    returns; the stored epoch is the first epoch whose validation total is
    the least; the weight file of that epoch with the suffix holds the
    parameters that epoch left; and the file without the suffix is not
    there. *)
Theorem training_leaves_best_weight (outcomes : list (@epoch_outcome W))
    (m0 : model) (w0 : world W) :
  outcomes ≠ [] →
  canonical (net m0) →
  total_epoch_loss m0 = LossReg.init →
  files w0 = ∅ →
  dirs w0 = ∅ →
  ∃ m w1 w2 b ob,
    train_epochs add_module_prefix 0 outcomes m0 w0 = (Ok m, w1)
    ∧ save_weight m (Some true) w1 = (Ok (), w2)
    ∧ acting_best_epoch m = Some b
    ∧ outcomes !! b = Some ob
    ∧ (∀ j o, outcomes !! j = Some o → (val_total ob <= val_total o)%Q)
    ∧ (∀ j o, j < b → outcomes !! j = Some o → (val_total ob < val_total o)%Q)
    ∧ files w2 !! save_path_as_best m = Some (Some (trained ob))
    ∧ files w2 !! save_path m = None.
Proof.
  intros Hne Hcan Hinit Hfiles Hdirs.
  assert (Hinv0 : run_inv [] m0 w0).
  { split; [done|]. rewrite Hinit. split; [done|]. split; [done|].
    split; [|split; [done|done]].
    split; [intros p [? Hp]; by rewrite Hfiles in Hp
           | intros p Hp; by rewrite Hdirs in Hp]. }
  destruct (train_epochs_inv outcomes [] m0 w0 Hinv0)
    as (m & w & Hrun & (Hc & Hval & Htr & Hw & Hfresh & Hbest) & Hsd & Hsp).
  cbn [app length] in *. destruct (Hbest Hne) as (b & ob & Hb & Hob & Hae & Haw & Hfile).
  assert (Hmin : (∀ j o, outcomes !! j = Some o → (val_total ob <= val_total o)%Q)
               ∧ (∀ j o, j < b → outcomes !! j = Some o → (val_total ob < val_total o)%Q)).
  { unfold LossReg.track_inv in Htr. rewrite Hb in Htr.
    destruct (LossReg.best_val_loss (total_epoch_loss m)) as [vb|]; [|done].
    destruct Htr as (Hat & Hall & Hfirst). rewrite Hval in Hat, Hall, Hfirst.
    rewrite list_lookup_fmap, Hob in Hat. injection Hat as <-.
    split.
    - intros j o Ho. apply (Hall j). by rewrite list_lookup_fmap, Ho.
    - intros j o Hj Ho. apply (Hfirst j); [done|]. by rewrite list_lookup_fmap, Ho. }
  destruct Hmin as [Hmin1 Hmin2].
  assert (Hdir : files w !! save_dir m = None).
  { apply (world_in_weights_dir_free (save_datetime_dir m)); [done|].
    unfold save_dir. cbn. lia. }
  assert (Hnd : save_path m ∉ dirs w).
  { intros Hin. destruct Hw as [_ Hd]. apply Hd in Hin.
    destruct (save_path_parts m) as (Hp & _). rewrite Hp in Hin. done. }
  assert (Hsave : ∃ w2, save_weight m (Some true) w = (Ok (), w2)
            ∧ files w2 !! save_path_as_best m = Some (Some (trained ob))
            ∧ files w2 !! save_path m = None).
  { pose proof (save_paths_differ m) as Hdiff.
    destruct Hfile as [Hnone|Hsome].
    - eexists. split; [by apply save_weight_best_fresh|]. cbn [files].
      split; [by rewrite lookup_insert_eq, Haw|].
      by rewrite lookup_insert_ne.
    - unfold save_weight, io_bind, mkdir. rewrite Hdir.
      unfold path_exists, rename. cbn [files dirs log]. rewrite Hsome.
      rewrite bool_decide_eq_true_2 by (by eexists). cbn [orb].
      cbv beta iota. cbn [files dirs log]. rewrite Hsome.
      eexists. split; [reflexivity|]. cbn [files].
      split; [by rewrite lookup_insert_eq|].
      rewrite lookup_insert_ne by done. by rewrite lookup_delete_eq. }
  destruct Hsave as (w2 & Hsave & Hbestfile & Hplain).
  exists m, w, w2, b, ob. by repeat split.
Qed.

(** With a save policy other than [each] the epochs of a run write
    nothing: after any number of epochs the files, the directories and the
    log of effects are as they were. *)
Theorem epochs_write_nothing_unless_each (outcomes : list (@epoch_outcome W)) :
  ∀ (epoch : nat) (m : model) (w : world W),
  save_weight_policy m ≠ "each" →
  ∃ m', train_epochs add_module_prefix epoch outcomes m w = (Ok m', w)
        ∧ save_weight_policy m' = save_weight_policy m.
Proof.
  induction outcomes as [|o rest IH]; intros epoch m w Hpol.
  - by exists m.
  - cbn [train_epochs]. unfold io_bind.
    assert (Hstep : ∃ m1, end_of_epoch add_module_prefix epoch (run_phases o m) w
                          = (Ok m1, w)
                          ∧ save_weight_policy m1 = save_weight_policy m).
    { unfold end_of_epoch, is_total_val_loss_updated.
      destruct (LossReg.is_val_loss_updated (total_epoch_loss (run_phases o m)))
        as [[|] t']; [|by eexists].
      destruct (store_weight_keeps add_module_prefix
                  (set_total_epoch_loss t' (run_phases o m))) as (_ & Hp & _).
      rewrite Hp. cbn [save_weight_policy set_total_epoch_loss run_phases set_net].
      rewrite (bool_decide_eq_false_2 (save_weight_policy m = "each")) by done.
      rewrite andb_false_r. eexists. split; [reflexivity|]. by rewrite Hp. }
    destruct Hstep as (m1 & -> & Hp1).
    destruct (IH (S epoch) m1 w) as (m' & -> & Hp'); [by rewrite Hp1|].
    exists m'. split; [done | congruence].
Qed.

End TrainingRun.

Section CheckpointRuns.

Import Model Driver Labels.

Let p1 : path := (DemoRun.weights_dir ++ ["weight_epoch-001.pt"])%list.
Let m_cpu := DemoRun.new_model CVModel [] Cpu.
Let m_gpu := DemoRun.new_model CVModel [0%Z] (Cuda 0).

Lemma demo_file_p1 : files DemoRun.two_weights !! p1 = Some (Some 11).
Proof. vm_compute. reflexivity. Qed.

Lemma load_weight_into_plain_network_witness :
  net m_gpu = Plain 0 Cpu
  ∧ files DemoRun.two_weights !! p1 = Some (Some 11)
  ∧ DemoRun.strip_module_prefix 11 = None
  ∧ (gpu_ids m_gpu = [] ∨ true = true)
  ∧ ∃ m' w',
      load_weight true DemoRun.strip_module_prefix m_gpu p1 DemoRun.two_weights
      = (Ok m', w')
      ∧ net m' = DataParallel (Plain 11 (Cuda 0)) [0%Z].
Proof.
  split; [reflexivity|]. split; [exact demo_file_p1|]. split; [reflexivity|].
  split; [by right|].
  destruct (load_weight_into_plain_network true DemoRun.strip_module_prefix
              m_gpu DemoRun.two_weights p1 0 11 Cpu eq_refl demo_file_p1
              eq_refl (or_intror eq_refl))
    as (m' & w' & H & _ & _ & _ & Hg).
  exists m', w'. split; [exact H|]. by apply Hg.
Defined.

Lemma load_weight_failures_witness :
  files DemoRun.empty_world !! p1 = None
  ∧ load_weight true DemoRun.strip_module_prefix m_gpu p1 DemoRun.empty_world
    = (Raise FileNotFoundError, DemoRun.empty_world).
Proof.
  assert (H : files DemoRun.empty_world !! p1 = None) by apply lookup_empty.
  split; [exact H|].
  exact (proj1 (load_weight_failures true DemoRun.strip_module_prefix m_gpu
                  DemoRun.empty_world p1) H).
Defined.

Lemma stored_weight_is_plain_state_witness :
  let m := set_net (DataParallel (Plain 7 (Cuda 0)) [0%Z]) m_gpu in
  canonical (net m)
  ∧ acting_best_weight (store_weight DemoRun.add_module_prefix m) = Some 7.
Proof.
  intros m. split; [exact I|].
  exact (proj1 (stored_weight_is_plain_state DemoRun.add_module_prefix m I)).
Defined.

Lemma stored_weight_round_trip_witness :
  let m := set_net (DataParallel (Plain 7 (Cuda 0)) [0%Z]) m_gpu in
  let stored := store_weight DemoRun.add_module_prefix m in
  canonical (net m)
  ∧ files DemoRun.empty_world !! save_dir m = None
  ∧ files DemoRun.empty_world !! save_path stored = None
  ∧ (save_path stored ∉ dirs DemoRun.empty_world)
  ∧ net m_cpu = Plain 0 Cpu
  ∧ gpu_ids m_cpu = []
  ∧ ∃ w1 m3 w3,
      save_weight stored (Some true) DemoRun.empty_world = (Ok (), w1)
      ∧ load_weight true DemoRun.strip_module_prefix m_cpu
          (save_path_as_best stored) w1 = (Ok m3, w3)
      ∧ parameters (net m3) = 7.
Proof.
  intros m stored.
  assert (H1 : files DemoRun.empty_world !! save_dir m = None) by apply lookup_empty.
  assert (H2 : files DemoRun.empty_world !! save_path stored = None)
    by apply lookup_empty.
  assert (H3 : save_path stored ∉ dirs DemoRun.empty_world)
    by apply not_elem_of_empty.
  split; [exact I|]. split; [exact H1|]. split; [exact H2|]. split; [exact H3|].
  split; [reflexivity|]. split; [reflexivity|].
  exact (stored_weight_round_trip true DemoRun.add_module_prefix
           DemoRun.strip_module_prefix m m_cpu DemoRun.empty_world 0 Cpu
           I H1 H2 H3 eq_refl eq_refl).
Defined.

Let run : list (@epoch_outcome nat) :=
  [ {| train_total := 1; val_total := 9 # 10; trained := 10 |};
    {| train_total := 1; val_total := 7 # 10; trained := 11 |};
    {| train_total := 1; val_total := 7 # 10; trained := 12 |};
    {| train_total := 1; val_total := 5 # 10; trained := 13 |} ].

Lemma training_leaves_best_weight_witness :
  run ≠ []
  ∧ canonical (net m_cpu)
  ∧ total_epoch_loss m_cpu = LossReg.init
  ∧ files DemoRun.empty_world = ∅
  ∧ dirs DemoRun.empty_world = ∅
  ∧ ∃ m w1 w2 b ob,
      train_epochs DemoRun.add_module_prefix 0 run m_cpu DemoRun.empty_world
      = (Ok m, w1)
      ∧ save_weight m (Some true) w1 = (Ok (), w2)
      ∧ acting_best_epoch m = Some b
      ∧ run !! b = Some ob
      ∧ files w2 !! save_path_as_best m = Some (Some (trained ob)).
Proof.
  assert (Hne : run ≠ []) by discriminate.
  split; [exact Hne|]. split; [exact I|]. split; [reflexivity|].
  split; [reflexivity|]. split; [reflexivity|].
  destruct (training_leaves_best_weight DemoRun.add_module_prefix run m_cpu
              DemoRun.empty_world Hne I eq_refl eq_refl eq_refl)
    as (m & w1 & w2 & b & ob & H1 & H2 & Hb & Hob & _ & _ & Hf & _).
  exists m, w1, w2, b, ob. split; [exact H1|]. split; [exact H2|].
  split; [exact Hb|]. split; [exact Hob | exact Hf].
Defined.

Lemma epochs_write_nothing_unless_each_witness :
  let m := {| class := CVModel; net := Plain 0 Cpu; dev := Cpu; gpu_ids := [];
              save_datetime_dir := "run"; save_weight_policy := "best";
              total_epoch_loss := LossReg.init;
              acting_best_weight := None; acting_best_epoch := None;
              attrs := DemoRun.no_attrs |} in
  save_weight_policy m ≠ "each"
  ∧ ∃ m', train_epochs DemoRun.add_module_prefix 0 run m DemoRun.empty_world
          = (Ok m', DemoRun.empty_world).
Proof.
  intros m. assert (Hp : save_weight_policy m ≠ "each") by discriminate.
  split; [exact Hp|].
  destruct (epochs_write_nothing_unless_each DemoRun.add_module_prefix run 0 m
              DemoRun.empty_world Hp) as (m' & H & _).
  exists m'. exact H.
Defined.

End CheckpointRuns.

Section RunDirectories.

Import Params.

Variable path_stem : string → string.
Variable path_parent : string → result string.
Variable path_name : string → string.
Variable path_str : list string → string.
Variable make_split_provider : string → pyval → result df_source.
Variable create_dataloader : gmap string pyval → df_source → string → result pyval.
Variable read_json : string → result (gmap string pyval).

Lemma base_init_fields args self :
  BaseModelParam_init path_stem args = Ok self →
  ∃ p d rest,
    args !! "csvpath" = Some (PStr p)
    ∧ Re.findall "/docs" p = d :: rest
    ∧ self !! "_dataset_dir" = Some (PStr d)
    ∧ self !! "_csv_name" = Some (PStr (path_stem p))
    ∧ self !! "csvpath" = Some (PStr p).
Proof.
  intros H. unfold BaseModelParam_init, getattr in H.
  destruct (args !! "csvpath") as [v|] eqn:Hc; [|done].
  cbv beta delta [mbind result_bind] iota zeta in H.
  destruct v; try done.
  destruct (Re.findall "/docs" s) as [|d rest] eqn:Hf; [done|].
  cbn [first_item] in H. apply Ok_inj in H. subst self.
  exists s, d, rest. split; [done|]. split; [done|].
  split; [rewrite lookup_insert_ne by done; by rewrite lookup_insert_eq|].
  split; [by rewrite lookup_insert_eq|]. by rewrite !lookup_insert_ne.
Qed.

(** The directory of a test run is made from the options of the test and
    the name of the training run: the dataset root and the stem of the CSV
    path passed at test time, and the name of the directory that holds the
    weight directory. *)
Theorem test_run_directory args test_splits likelihood_on self :
  TestModelParam_init path_stem path_parent path_name path_str
    make_split_provider create_dataloader read_json
    args test_splits likelihood_on = Ok self →
  ∃ p d rest weight_dir run_dir,
    args !! "csvpath" = Some (PStr p)
    ∧ Re.findall "/docs" p = d :: rest
    ∧ args !! "weight_dir" = Some (PStr weight_dir)
    ∧ path_parent weight_dir = Ok run_dir
    ∧ self !! "save_datetime_dir"
      = Some (PStr (path_str [d; "results"; path_stem p; "sets"; path_name run_dir])).
Proof.
  intros H. unfold TestModelParam_init in H.
  cbv beta delta [mbind result_bind mret result_ret] in H.
  destruct (BaseModelParam_init path_stem args) as [self0|] eqn:Eb; [|done].
  cbv beta iota zeta in H.
  destruct (base_init_fields _ _ Eb) as (p & d & rest & Hp & Hf & Hd & Hn & _).
  destruct (getattr self0 "weight_dir") as [vw|] eqn:Ew; [|done].
  cbv beta iota zeta in H.
  destruct vw as [| | |weight_dir| | | |]; try done. cbn [str_arg] in H.
  cbv beta iota zeta in H.
  destruct (path_parent weight_dir) as [run_dir|] eqn:Epar; [|done].
  inv_ok H. apply Ok_inj in H. subst self.
  exists p, d, rest, weight_dir, run_dir.
  split; [done|]. split; [done|]. split.
  { apply getattr_Ok in Ew. rewrite <- Ew. symmetry.
    by apply (base_init_other path_stem args self0 "weight_dir" Eb). }
  split; [done|].
  rewrite !lookup_insert_ne by done. rewrite lookup_insert_eq.
  match goal with
  | E : results_dir _ ?s _ = Ok ?sdd |- _ =>
      unfold results_dir, getattr in E;
      rewrite !lookup_insert_ne in E by done;
      rewrite !load_required_lookup_other in E
        by (apply not_elem_of_compute; reflexivity);
      rewrite Hd, Hn in E;
      cbv beta delta [mbind result_bind str_arg] iota in E;
      apply Ok_inj in E; by rewrite E
  end.
Qed.

End RunDirectories.

Lemma test_run_directory_witness :
  Demo.TestModelParam_init Demo.args ["train"; "val"; "test"] true
  = Ok Demo.test_object
  ∧ ∃ p d rest weight_dir run_dir,
      Demo.args !! "csvpath" = Some (PStr p)
      ∧ Re.findall "/docs" p = d :: rest
      ∧ Demo.args !! "weight_dir" = Some (PStr weight_dir)
      ∧ Demo.path_parent weight_dir = Ok run_dir
      ∧ Demo.test_object !! "save_datetime_dir"
        = Some (PStr (Demo.path_str [d; "results"; Demo.path_stem p; "sets";
                                      Demo.path_name run_dir])).
Proof.
  split; [exact demo_test_init|].
  exact (test_run_directory Demo.path_stem Demo.path_parent Demo.path_name
           Demo.path_str Demo.make_split_provider Demo.create_dataloader
           Demo.read_json Demo.args ["train"; "val"; "test"] true
           Demo.test_object demo_test_init).
Defined.

Section FileNames.

Import Model Padding.

Lemma length_append (a b : string) :
  String.length (a +:+ b) = (String.length a + String.length b)%nat.
Proof. induction a as [|c a IH]; [done|]. cbn. by rewrite <- IH. Qed.

Lemma append_inj_r (a b c : string) : a +:+ c = b +:+ c → a = b.
Proof.
  revert b. induction a as [|x a IH]; intros [|y b] H.
  - done.
  - apply (f_equal String.length) in H.
    rewrite !length_append in H. cbn in H. lia.
  - apply (f_equal String.length) in H.
    rewrite !length_append in H. cbn in H. lia.
  - change (String x (a +:+ c) = String y (b +:+ c)) in H.
    injection H as -> H. f_equal. by apply IH.
Qed.

Lemma zeros_S k : zeros (S k) = String "0" (zeros k).
Proof. by destruct k. Qed.

Lemma zeros_0_app t : zeros 0 +:+ t = t.
Proof. done. Qed.

Lemma zeros_S_app k t : zeros (S k) +:+ t = String "0" (zeros k +:+ t).
Proof. by rewrite zeros_S. Qed.

Lemma zeros_split k1 k2 c1 s1 c2 s2 :
  c1 ≠ "0"%char → c2 ≠ "0"%char →
  zeros k1 +:+ String c1 s1 = zeros k2 +:+ String c2 s2 →
  String c1 s1 = String c2 s2.
Proof.
  intros H1 H2. revert k2. induction k1 as [|k1 IH]; intros [|k2] H;
    rewrite ?zeros_0_app, ?zeros_S_app in H.
  - done.
  - injection H as -> _. done.
  - injection H as <- _. done.
  - injection H as H. by apply (IH k2).
Qed.

Lemma zeros_not_zero k1 k2 c s :
  c ≠ "0"%char → zeros k1 +:+ "" ≠ zeros k2 +:+ String c s.
Proof.
  intros Hc. revert k2. induction k1 as [|k1 IH]; intros [|k2] H;
    rewrite ?zeros_0_app, ?zeros_S_app in H.
  - done.
  - done.
  - injection H as <- _. done.
  - injection H as H. by apply (IH k2).
Qed.

Lemma pretty_go_head (x : N) :
  ∀ acc, (0 < x)%N →
  ∃ c s, pretty_N_go x acc = String c s
         ∧ c ≠ "0"%char ∧ c ≠ "+"%char ∧ c ≠ "-"%char ∧ c ≠ "N"%char.
Proof.
  induction (N.lt_wf_0 x) as [x _ IH]; intros acc Hx.
  rewrite pretty_N_go_step by done.
  destruct (decide (x `div` 10 = 0)%N) as [Hz|Hnz].
  - rewrite Hz, pretty_N_go_0. eexists _, _. split; [done|].
    apply N.div_small_iff in Hz; [|done]. rewrite N.mod_small by done.
    assert (Hcases : (x = 1 ∨ x = 2 ∨ x = 3 ∨ x = 4 ∨ x = 5 ∨ x = 6 ∨ x = 7
                      ∨ x = 8 ∨ x = 9)%N) by lia.
    repeat (destruct Hcases as [->|Hcases]; [cbn; repeat split; discriminate|]).
    subst x. cbn. repeat split; discriminate.
  - assert (Hpos : (0 < x `div` 10)%N) by (destruct (x `div` 10)%N; [done | lia]).
    apply IH; [apply N.div_lt; lia | exact Hpos].
Qed.

Lemma zfill_epoch_form (e : option nat) :
  ∃ k t,
    zfill 3 (str_epoch e) = zeros k +:+ t
    ∧ ((t = str_epoch e ∧ ∃ c s, t = String c s ∧ c ≠ "0"%char)
       ∨ (e = Some 0 ∧ t = "")).
Proof.
  destruct e as [n|]; [|exists 0, "None"; split; [done|]; left;
                          split; [done|]; by eexists _, _].
  destruct n as [|n].
  - exists 3, "". split; [done|]. by right.
  - unfold str_epoch, pretty, pretty_nat, pretty, pretty_N.
    rewrite decide_False by lia.
    destruct (pretty_go_head (N.of_nat (S n)) "") as (c & s & Hs & H0 & Hp & Hm & _);
      [lia|].
    rewrite Hs. exists (3 - String.length (String c s)), (String c s).
    split; [|left; split; [done|]; by eexists _, _].
    unfold zfill. rewrite !bool_decide_eq_false_2 by done. done.
Qed.

Lemma str_epoch_inj (e1 e2 : option nat) : str_epoch e1 = str_epoch e2 → e1 = e2.
Proof.
  assert (Hnone : ∀ n, str_epoch (Some n) ≠ "None").
  { intros [|n]; [done|]. unfold str_epoch, pretty, pretty_nat, pretty, pretty_N.
    rewrite decide_False by lia.
    destruct (pretty_go_head (N.of_nat (S n)) "") as (c & s & -> & _ & _ & _ & HN);
      [lia|].
    intros [= -> _]. done. }
  destruct e1 as [a|], e2 as [b|]; intros H.
  - f_equal. by apply (inj pretty).
  - by apply Hnone in H.
  - symmetry in H. by apply Hnone in H.
  - done.
Qed.

Lemma zfill_epoch_inj (e1 e2 : option nat) :
  zfill 3 (str_epoch e1) = zfill 3 (str_epoch e2) → e1 = e2.
Proof.
  destruct (zfill_epoch_form e1) as (k1 & t1 & -> & [[Ht1 (c1 & s1 & Hc1 & Hn1)]|[-> ->]]),
           (zfill_epoch_form e2) as (k2 & t2 & -> & [[Ht2 (c2 & s2 & Hc2 & Hn2)]|[-> ->]]);
    intros H.
  - apply str_epoch_inj. rewrite <- Ht1, <- Ht2. rewrite Hc1, Hc2 in *.
    by eapply zeros_split.
  - rewrite Hc1 in H. symmetry in H. by apply zeros_not_zero in H.
  - rewrite Hc2 in H. by apply zeros_not_zero in H.
  - done.
Qed.

(** The weight files of different epochs have different names, with the
    suffix and without: two models whose stored epochs differ never write
    to the same file name. *)
Theorem weight_files_of_epochs_distinct {W T : Type} (m m' : @model W T) :
  acting_best_epoch m ≠ acting_best_epoch m' →
  save_name m ≠ save_name m'
  ∧ save_name_as_best m ≠ save_name_as_best m'.
Proof.
  intros Hne. unfold save_name, save_name_as_best. split; intros H;
    apply Hne, zfill_epoch_inj; apply (inj (String.app _)) in H.
  - by apply append_inj_r in H.
  - rewrite <- !append_assoc in H.
    apply append_inj_r in H. by apply append_inj_r in H.
Qed.

End FileNames.

Lemma weight_files_of_epochs_distinct_witness :
  let m1 := Model.set_acting_best (Some 11) (Some 1)
              (DemoRun.new_model Model.CVModel [] Cpu) in
  let m3 := Model.set_acting_best (Some 13) (Some 3)
              (DemoRun.new_model Model.CVModel [] Cpu) in
  Model.acting_best_epoch m1 ≠ Model.acting_best_epoch m3
  ∧ Model.save_name m1 ≠ Model.save_name m3.
Proof.
  intros m1 m3.
  assert (H : Model.acting_best_epoch m1 ≠ Model.acting_best_epoch m3)
    by discriminate.
  split; [exact H|].
  exact (proj1 (weight_files_of_epochs_distinct m1 m3 H)).
Defined.
